(** * Prophet inference backends (python/prophet/models.py)

    A shallow embedding of the backend adapter layer: the column-name decoder
    [stan_to_dict_numpy], the posterior simplifier [simplify_mcmc_results],
    the custom-init sanitizer [sanitize_custom_inits], the CmdStanPy [fit]
    and [sampling] drivers, the Numpyro [sampling] driver and the backend
    registry [get_backend_class].

    Python exceptions are values of [exn]; a computation that may raise
    returns a [result].  Numpy arrays are a shape together with a row-major
    buffer.  Dictionaries whose insertion order matters are association
    lists; objects whose identity matters live in an explicit heap. *)

From Stdlib Require Import ZArith Ascii String.
From stdpp Require Import gmap strings list.

Local Open Scope string_scope.
Local Open Scope list_scope.
Local Open Scope nat_scope.

(** ** Exceptions and the error monad *)

Inductive exn : Type :=
  | RuntimeError (msg : string)
  | NotImplementedError (msg : string)
  | RecursionError (msg : string)
  | ValueError (msg : string)
  | KeyError (key : string)
  | IndexError (msg : string)
  | TypeError (msg : string)
  | AttributeError (msg : string)
  | OverflowError (msg : string)
  | SystemError (msg : string).

Inductive result (A : Type) : Type :=
  | Ok (a : A)
  | Raise (e : exn).
Arguments Ok {A} a.
Arguments Raise {A} e.

#[global] Instance result_ret : MRet result := fun A a => Ok a.
#[global] Instance result_bind : MBind result := fun A B f m =>
  match m with
  | Ok a => f a
  | Raise e => Raise e
  end.

(** [for x in xs: st = body(st, x)] where the body may raise. *)
Fixpoint for_each {S X : Type} (body : S -> X -> result S) (xs : list X) (st : S)
  : result S :=
  match xs with
  | [] => Ok st
  | x :: xs' => st' ← body st x; for_each body xs' st'
  end.

(** ** Python strings *)

Module PyStr.

(** [c in s] for a one-character [c]. *)
Fixpoint contains (c : ascii) (s : string) : bool :=
  match s with
  | EmptyString => false
  | String a s' => if Ascii.eqb a c then true else contains c s'
  end.

(** [s.split(sep)] for a one-character separator: never empty. *)
Fixpoint split (sep : ascii) (s : string) : list string :=
  match s with
  | EmptyString => [EmptyString]
  | String a s' =>
      if Ascii.eqb a sep then EmptyString :: split sep s'
      else match split sep s' with
           | h :: t => String a h :: t
           | [] => [String a EmptyString]
           end
  end.

(** [l[0]] on a Python list. *)
Definition item0 (l : list string) : result string :=
  match l with
  | x :: _ => Ok x
  | [] => Raise (IndexError "list index out of range")
  end.

End PyStr.

(** ** Numpy arrays: a shape and a row-major buffer *)

Module Numpy.

Record ndarray (A : Type) : Type := mk_ndarray {
  shape : list nat;
  buffer : list A
}.
Arguments mk_ndarray {A} shape buffer.
Arguments shape {A} _.
Arguments buffer {A} _.

Definition prod_list (l : list nat) : nat := foldr Nat.mul 1 l.

Definition ndim {A} (a : ndarray A) : nat := length (shape a).

(** The buffer holds one entry per index tuple. *)
Definition valid {A} (a : ndarray A) : Prop :=
  length (buffer a) = prod_list (shape a).

(** [a[start:stop]]: a basic slice of axis 0, bounds clamped to the axis;
    a 0-d array cannot be indexed. *)
Definition slice_axis0 {A} (a : ndarray A) (start stop : nat) : result (ndarray A) :=
  match shape a with
  | [] => Raise (IndexError "too many indices for array")
  | d0 :: rest =>
      let lo := start `min` d0 in
      let hi := stop `min` d0 in
      let inner := prod_list rest in
      Ok (mk_ndarray ((hi - lo) :: rest)
            (take ((hi - lo) * inner) (drop (lo * inner) (buffer a))))
  end.

(** [a[:, start:stop]]: every index of axis 0, a basic slice of axis 1. *)
Definition slice_axis1 {A} (a : ndarray A) (start stop : nat) : result (ndarray A) :=
  match shape a with
  | d0 :: d1 :: rest =>
      let lo := start `min` d1 in
      let hi := stop `min` d1 in
      let inner := prod_list rest in
      Ok (mk_ndarray (d0 :: (hi - lo) :: rest)
            (mjoin ((fun i => take ((hi - lo) * inner)
                                (drop ((i * d1 + lo) * inner) (buffer a)))
                      <$> seq 0 d0)))
  | _ => Raise (IndexError "too many indices for array")
  end.

(** [a.size]. *)
Definition size {A} (a : ndarray A) : nat := prod_list (shape a).

(** [a.reshape(newshape)]: the same buffer under a new shape.  One entry of
    [newshape] may be [-1] and is then inferred from the size; the sizes
    must agree. *)
Definition reshape {A} (a : ndarray A) (newshape : list Z) : result (ndarray A) :=
  let unknown := filter (λ d, d = (-1)%Z) newshape in
  let known := filter (λ d, d ≠ (-1)%Z) newshape in
  if bool_decide (Exists (λ d, (d < 0)%Z) known) then
    Raise (ValueError "negative dimensions not allowed")
  else
    let k := prod_list (Z.to_nat <$> known) in
    match unknown with
    | [] =>
        if bool_decide (k = size a)
        then Ok (mk_ndarray (Z.to_nat <$> newshape) (buffer a))
        else Raise (ValueError "cannot reshape array")
    | [_] =>
        if bool_decide (k ≠ 0 ∧ size a `mod` k = 0)
        then Ok (mk_ndarray
                   ((λ d, if bool_decide (d = (-1)%Z) then size a `div` k
                          else Z.to_nat d) <$> newshape)
                   (buffer a))
        else Raise (ValueError "cannot reshape array")
    | _ => Raise (ValueError "can only specify one unknown dimension")
    end.

(** [t[i]] on a shape tuple. *)
Definition tuple_item (t : list nat) (i : nat) : result nat :=
  match t !! i with
  | Some d => Ok d
  | None => Raise (IndexError "tuple index out of range")
  end.

End Numpy.

(** ** The column-name decoder (CmdStanPyBackend.stan_to_dict_numpy) *)

Module Decoder.
Import Numpy.

(** [parsed = cname.split(".") if "." in cname else cname.split("[")]
    followed by [curr = parsed[0]]. *)
Definition base_name (cname : string) : result string :=
  let parsed := if PyStr.contains "." cname
                then PyStr.split "." cname
                else PyStr.split "[" cname in
  PyStr.item0 parsed.

Section Decode.
Context {A : Type}.

(** The [OrderedDict] under construction, in insertion order.  Keys are
    what [prev] can be: [None] or a string. *)
Definition odict : Type := list (option string * ndarray A).

Definition od_contains (k : option string) (od : odict) : bool :=
  bool_decide (k ∈ od.*1).

(** [od[k] = v]: an existing key keeps its position, a new one goes last. *)
Fixpoint od_set (k : option string) (v : ndarray A) (od : odict) : odict :=
  match od with
  | [] => [(k, v)]
  | (k', v') :: od' =>
      if bool_decide (k' = k) then (k, v) :: od' else (k', v') :: od_set k v od'
  end.

(** The loop variables of [stan_to_dict_numpy]. *)
Record scan : Type := mk_scan {
  output : odict;
  prev : option string;
  start : nat;
  end_ : nat
}.

(** [np.array(data[:, start:end])] when [two_dims], else
    [np.array(data[start:end])]. *)
Definition take_slice (data : ndarray A) (start end_ : nat) : result (ndarray A) :=
  let two_dims := bool_decide (1 < ndim data) in
  if two_dims then slice_axis1 data start end_ else slice_axis0 data start end_.

(** Closing a run: the membership test, then the store of the slice. *)
Definition close_run (data : ndarray A) (st : scan) : result odict :=
  if od_contains (prev st) (output st)
  then Raise (RuntimeError "Found repeated column name")
  else v ← take_slice data (start st) (end_ st);
       Ok (od_set (prev st) v (output st)).

(** One iteration of [for cname in column_names]. *)
Definition scan_column (data : ndarray A) (st : scan) (cname : string) : result scan :=
  curr ← base_name cname;
  let prev0 := match prev st with
               | None => Some curr
               | Some p => Some p
               end in
  if bool_decide (Some curr ≠ prev0) then
    out ← close_run data (mk_scan (output st) prev0 (start st) (end_ st));
    Ok (mk_scan out (Some curr) (end_ st) (S (end_ st)))
  else
    Ok (mk_scan (output st) prev0 (start st) (S (end_ st))).

Definition stan_to_dict_numpy (column_names : list string) (data : ndarray A)
  : result odict :=
  st ← for_each (scan_column data) column_names (mk_scan [] None 0 0);
  close_run data st.

End Decode.

(** *** Vocabulary of the decoder's contract *)

(** The prefix of [s] before the first [sep] (all of [s] if there is none). *)
Fixpoint prefix_before (sep : ascii) (s : string) : string :=
  match s with
  | EmptyString => EmptyString
  | String a s' => if Ascii.eqb a sep then EmptyString else String a (prefix_before sep s')
  end.

(** The base name as the decoder computes it, as a total function. *)
Definition base (cname : string) : string :=
  if PyStr.contains "." cname then prefix_before "." cname else prefix_before "[" cname.

(** The prefix before the first character that is one of the two
    delimiters. *)
Fixpoint prefix_before_delimiter (s : string) : string :=
  match s with
  | EmptyString => EmptyString
  | String a s' =>
      if Ascii.eqb a "." || Ascii.eqb a "[" then EmptyString
      else String a (prefix_before_delimiter s')
  end.

(** A column name as the engine writes it: a bare name, [name.index] or
    [name[index]]; no bracket comes before the first dot. *)
Definition plain_name (cname : string) : Prop :=
  PyStr.contains "[" (prefix_before "." cname) = false
  ∨ PyStr.contains "." cname = false.

(** Columns sharing a base name are adjacent: nothing else sits between two
    occurrences of a name. *)
Definition contiguous (bs : list string) : Prop :=
  ∀ i j k x y, i < j < k →
    bs !! i = Some x → bs !! j = Some y → bs !! k = Some x → y = x.

(** A name that comes back after a different one. *)
Definition reappears (bs : list string) : Prop :=
  ∃ i j k x y, i < j < k ∧
    bs !! i = Some x ∧ bs !! j = Some y ∧ bs !! k = Some x ∧ y ≠ x.

(** The distinct names of a list, in order of first occurrence. *)
Fixpoint distinct (bs : list string) : list string :=
  match bs with
  | [] => []
  | b :: bs' => b :: filter (λ x, x ≠ b) (distinct bs')
  end.

Fixpoint first_index (b : string) (bs : list string) : nat :=
  match bs with
  | [] => 0
  | x :: bs' => if bool_decide (x = b) then 0 else S (first_index b bs')
  end.

Definition occurrences (b : string) (bs : list string) : nat :=
  length (filter (λ x, x = b) bs).

(** The size of the axis the decoder slices: axis 1 of an array with two
    axes or more, axis 0 of a vector. *)
Definition sliced_axis_len {A} (a : ndarray A) : option nat :=
  match shape a with
  | [] => None
  | [d0] => Some d0
  | _ :: d1 :: _ => Some d1
  end.

(** A shape with the sliced axis resized: axis 1 when there are two axes
    or more, axis 0 of a vector; the other axes keep their size. *)
Definition with_sliced_axis (sh : list nat) (n : nat) : list nat :=
  match sh with
  | [] => []
  | [_] => [n]
  | d0 :: _ :: rest => d0 :: n :: rest
  end.

(** *** The runs the scan closes, as data

    [runs_from p s e bs]: with a run named [p] open over columns [s..e)
    and base names [bs] still to read, the runs (name, start, stop) that
    get closed, in order.  [heads] keeps their names only. *)
Fixpoint runs_from (p : string) (s e : nat) (bs : list string)
  : list (string * nat * nat) :=
  match bs with
  | [] => [(p, s, e)]
  | b :: bs' =>
      if bool_decide (b = p) then runs_from p s (S e) bs'
      else (p, s, e) :: runs_from b e (S e) bs'
  end.

Fixpoint heads (p : string) (bs : list string) : list string :=
  match bs with
  | [] => [p]
  | b :: bs' => if bool_decide (b = p) then heads p bs' else p :: heads b bs'
  end.

(** Runs laid end to end from column [s] to column [t]: each starts where
    the one before stops. *)
Fixpoint chained (s : nat) (rs : list (string * nat * nat)) (t : nat) : Prop :=
  match rs with
  | [] => s = t
  | r :: rs' => r.1.2 = s ∧ s ≤ r.2 ∧ chained r.2 rs' t
  end.

(** Closing a list of runs one after the other. *)
Definition close_runs {A} (data : ndarray A) (rs : list (string * nat * nat))
    (out : odict) : result (@odict A) :=
  for_each (λ out r, close_run data (mk_scan out (Some r.1.1) r.1.2 r.2)) rs out.

End Decoder.


(** ** Python objects: a heap of arrays and dictionaries

    Where identity matters (which dictionary is written, which array object
    a key is bound to), arrays and dictionaries are heap objects named by
    locations, and a computation threads the heap and may raise. *)

Module PyHeap.
Import Numpy.

Definition loc : Type := nat.

Section Heap.
Context {A : Type}.

(** A dictionary object: keys ([None] or a string) bound to array
    objects, in insertion order. *)
Definition dict : Type := list (option string * loc).

(** [repr(k)], for the message of a [KeyError]. *)
Definition key_repr (k : option string) : string :=
  match k with
  | Some s => s
  | None => "None"
  end.

Record heap : Type := mk_heap {
  arrays : gmap loc (ndarray A);
  dicts : gmap loc dict
}.

(** A computation over the heap: a result or an exception, and the heap
    it leaves behind either way. *)
Definition py (X : Type) : Type := heap → result X * heap.

Definition py_ret {X} (x : X) : py X := λ h, (Ok x, h).
Definition py_bind {X Y} (m : py X) (f : X → py Y) : py Y :=
  λ h, match m h with
       | (Ok x, h') => f x h'
       | (Raise e, h') => (Raise e, h')
       end.
Definition py_lift {X} (r : result X) : py X := λ h, (r, h).

Definition alloc_array (a : ndarray A) : py loc := λ h,
  let l := fresh (dom (arrays h)) in
  (Ok l, mk_heap (<[l := a]> (arrays h)) (dicts h)).

Definition alloc_dict (d : dict) : py loc := λ h,
  let l := fresh (dom (dicts h)) in
  (Ok l, mk_heap (arrays h) (<[l := d]> (dicts h))).

Definition get_array (l : loc) : py (ndarray A) := λ h,
  match arrays h !! l with
  | Some a => (Ok a, h)
  | None => (Raise (SystemError "dangling array reference"), h)
  end.

Definition get_dict (l : loc) : py dict := λ h,
  match dicts h !! l with
  | Some d => (Ok d, h)
  | None => (Raise (SystemError "dangling dict reference"), h)
  end.

Fixpoint assoc (k : option string) (d : dict) : option loc :=
  match d with
  | [] => None
  | (k', v) :: d' => if bool_decide (k' = k) then Some v else assoc k d'
  end.

Fixpoint assoc_set (k : option string) (v : loc) (d : dict) : dict :=
  match d with
  | [] => [(k, v)]
  | (k', v') :: d' =>
      if bool_decide (k' = k) then (k, v) :: d' else (k', v') :: assoc_set k v d'
  end.

(** [d[k]]. *)
Definition dict_getitem (d : loc) (k : option string) : py loc :=
  py_bind (get_dict d) (λ entries,
    match assoc k entries with
    | Some v => py_ret v
    | None => py_lift (Raise (KeyError (key_repr k)))
    end).

(** [d[k] = v]: the dictionary object [d] is updated in place. *)
Definition dict_setitem (d : loc) (k : option string) (v : loc) : py () :=
  py_bind (get_dict d) (λ entries h,
    (Ok (), mk_heap (arrays h) (<[d := assoc_set k v entries]> (dicts h)))).

(** [{k: v for k, v in items}]: a dictionary built by successive
    insertion. *)
Definition dict_of_items (items : list (option string * loc)) : dict :=
  foldl (λ d kv, assoc_set kv.1 kv.2 d) [] items.

(** [for x in xs: body(x)]. *)
Fixpoint py_for {X} (xs : list X) (body : X → py ()) : py () :=
  match xs with
  | [] => py_ret ()
  | x :: xs' => py_bind (body x) (λ _, py_for xs' body)
  end.

(** From [h] to [h']: every array object is still there as it was, and no
    dictionary other than [out] has changed. *)
Definition preserved (out : loc) (h h' : heap) : Prop :=
  arrays h ⊆ arrays h' ∧ ∀ l, l ≠ out → dicts h' !! l = dicts h !! l.

Definition stable {X} (out : loc) (m : py X) : Prop :=
  ∀ h, preserved out h (m h).2.

End Heap.
Arguments heap A : clear implicits.
Arguments py A X : clear implicits.

End PyHeap.

(** ** The posterior simplifier (IStanBackend.simplify_mcmc_results) *)

Module Simplifier.
Import Numpy PyHeap.

Section Simplify.
Context {A : Type}.

Notation "x ← m ; k" := (py_bind (A:=A) m (λ x, k))
  (at level 20, m at level 100, k at level 200, only parsing).

(** [out[par] = out[par].reshape(newshape)]: [reshape] makes a new array
    object; the object [out[par]] was bound to is left as it is. *)
Definition reshape_entry (out : loc) (par : option string) (newshape : list Z)
  : py A () :=
  l ← dict_getitem out par;
  a ← get_array l;
  r ← py_lift (reshape a newshape);
  l' ← alloc_array r;
  dict_setitem out par l'.

(** The body of [for par in out]. *)
Definition simplify_entry (out : loc) (par : option string) : py A () :=
  l ← dict_getitem out par;
  a ← get_array l;
  let s := shape a in
  s1 ← py_lift (tuple_item s 1);
  _ ← (if bool_decide (s1 = 1) then
         s0 ← py_lift (tuple_item s 0);
         reshape_entry out par [Z.of_nat s0]
       else py_ret ());
  if bool_decide (par ∈ [Some "delta"; Some "beta"]) && bool_decide (length s < 2) then
    reshape_entry out par [(-1)%Z; 1%Z]
  else py_ret ().

Definition simplify_mcmc_results (params : loc) : py A loc :=
  items ← get_dict params;
  out ← alloc_dict (dict_of_items items);
  keys ← (d ← get_dict out; py_ret d.*1);
  _ ← py_for keys (simplify_entry out);
  py_ret out.

(** The part of [simplify_mcmc_results] that runs once [out] exists. *)
Definition simplify_loop (out : loc) : py A loc :=
  py_bind (py_bind (get_dict out) (λ d, py_ret d.*1))
    (λ keys, py_bind (py_for keys (simplify_entry out)) (λ _, py_ret out)).

(** How an entry comes out of the loop, relative to the heap [h0] the loop
    started from and the heap [h'] it ends in. *)
Definition simplified (h0 h' : heap A) (kl kl' : option string * loc) : Prop :=
  kl'.1 = kl.1
  ∧ ∃ a n m, arrays h0 !! kl.2 = Some a ∧ shape a = [n; m]
      ∧ if bool_decide (m = 1)
        then arrays h0 !! kl'.2 = None
             ∧ arrays h' !! kl'.2 = Some (mk_ndarray [n] (buffer a))
        else kl'.2 = kl.2.

End Simplify.

End Simplifier.

(** ** The custom-init sanitizer (IStanBackend.sanitize_custom_inits) *)

Module Sanitizer.
Import Numpy.

(** The Python values an init mapping can hold.  [F] stands for the
    floating-point numbers. *)
#[warnings="-register-all"]
Inductive pyval (F : Type) : Type :=
  | PyNone
  | PyBool (b : bool)
  | PyInt (z : Z)
  | PyFloat (f : F)
  | PyStr (s : string)
  | PyList (l : list (pyval F))
  | PyArray (a : ndarray F).
Arguments PyNone {F}.
Arguments PyBool {F} b.
Arguments PyInt {F} z.
Arguments PyFloat {F} f.
Arguments PyStr {F} s.
Arguments PyList {F} l.
Arguments PyArray {F} a.

Section Sanitize.
Context {F : Type}.
(** Conversions to floating point: of an integer ([None]: too large) and
    of a string ([None]: not a number). *)
Context (float_of_int : Z → option F) (float_of_str : string → option F).

Definition inits : Type := gmap string (pyval F).

(** [float(x)]. *)
Definition py_float (x : pyval F) : result F :=
  match x with
  | PyNone => Raise (TypeError "float() argument must be a string or a real number")
  | PyBool b =>
      match float_of_int (if b then 1 else 0)%Z with
      | Some f => Ok f
      | None => Raise (OverflowError "int too large to convert to float")
      end
  | PyInt z =>
      match float_of_int z with
      | Some f => Ok f
      | None => Raise (OverflowError "int too large to convert to float")
      end
  | PyFloat f => Ok f
  | PyStr s =>
      match float_of_str s with
      | Some f => Ok f
      | None => Raise (ValueError "could not convert string to float")
      end
  | PyList _ => Raise (TypeError "float() argument must be a string or a real number")
  | PyArray a =>
      match buffer a with
      | [f] => Ok f
      | _ => Raise (TypeError "only length-1 arrays can be converted to Python scalars")
      end
  end.

(** [d.get(k)]. *)
Definition dict_get (d : inits) (k : string) : pyval F :=
  default PyNone (d !! k).

(** [d[k]]. *)
Definition getitem (d : inits) (k : string) : result (pyval F) :=
  match d !! k with
  | Some v => Ok v
  | None => Raise (KeyError k)
  end.

(** [type(x).__name__]. *)
Definition type_name (x : pyval F) : string :=
  match x with
  | PyNone => "NoneType"
  | PyBool _ => "bool"
  | PyInt _ => "int"
  | PyFloat _ => "float"
  | PyStr _ => "str"
  | PyList _ => "list"
  | PyArray _ => "numpy.ndarray"
  end.

(** [x.shape]. *)
Definition attr_shape (x : pyval F) : result (list nat) :=
  match x with
  | PyArray a => Ok (shape a)
  | _ => Raise (AttributeError
                  ("'" +:+ type_name x +:+ "' object has no attribute 'shape'"))
  end.

(** The body of the first loop: [try: ... except Exception: ...]; the
    handler catches whatever [float] raises. *)
Definition sanitize_scalar (default_inits custom_inits : inits)
    (sanitized : inits) (param : string) : result inits :=
  match py_float (dict_get custom_inits param) with
  | Ok f => Ok (<[param := PyFloat f]> sanitized)
  | Raise _ =>
      v ← getitem default_inits param;
      Ok (<[param := v]> sanitized)
  end.

(** The body of the second loop: no handler. *)
Definition sanitize_vector (default_inits custom_inits : inits)
    (sanitized : inits) (param : string) : result inits :=
  d ← getitem default_inits param;
  ds ← attr_shape d;
  c ← getitem custom_inits param;
  cs ← attr_shape c;
  if bool_decide (ds = cs) then
    v ← getitem custom_inits param;
    Ok (<[param := v]> sanitized)
  else
    v ← getitem default_inits param;
    Ok (<[param := v]> sanitized).

Definition sanitize_custom_inits (default_inits custom_inits : inits) : result inits :=
  sanitized ← for_each (sanitize_scalar default_inits custom_inits)
                ["k"; "m"; "sigma_obs"] ∅;
  for_each (sanitize_vector default_inits custom_inits) ["delta"; "beta"] sanitized.

(** What the first loop stores under a scalar parameter. *)
Definition scalar_init (default_inits custom_inits : inits) (param : string) : option (pyval F) :=
  match py_float (dict_get custom_inits param) with
  | Ok f => Some (PyFloat f)
  | Raise _ => default_inits !! param
  end.

End Sanitize.

End Sanitizer.

(** ** The backend registry (StanBackendEnum) *)

Module Registry.

(** The backend classes, the values of the enumeration. *)
Inductive backend_class : Type :=
  | CmdStanPyBackend
  | NumpyroBackend.

(** The members of [StanBackendEnum], by name. *)
Definition members : list (string * backend_class) :=
  [("CMDSTANPY", CmdStanPyBackend); ("NUMPYRO", NumpyroBackend)].

Fixpoint member_named (name : string) (ms : list (string * backend_class))
  : option backend_class :=
  match ms with
  | [] => None
  | (n, c) :: ms' => if bool_decide (n = name) then Some c else member_named name ms'
  end.

(** [StanBackendEnum[name].value]. *)
Definition enum_getitem (name : string) : result backend_class :=
  match member_named name members with
  | Some c => Ok c
  | None => Raise (KeyError name)
  end.

(** [try: return StanBackendEnum[name].value
     except KeyError as e: raise ValueError(f"Unknown stan backend: {name}") from e] *)
Definition get_backend_class (name : string) : result backend_class :=
  match enum_getitem name with
  | Ok c => Ok c
  | Raise (KeyError _) => Raise (ValueError ("Unknown stan backend: " +:+ name))
  | Raise e => Raise e
  end.

(** [CmdStanPyBackend.get_type()] and [NumpyroBackend.get_type()]: the
    name of the member that holds the class. *)
Definition get_type (c : backend_class) : string :=
  match c with
  | CmdStanPyBackend => "CMDSTANPY"
  | NumpyroBackend => "NUMPYRO"
  end.

End Registry.

(** ** The concrete backends

    The inference engines, the data marshalling [prepare_data] and the
    objects they exchange are taken as given: the drivers are modelled
    around them, for any engine and any marshalling.  A call to an engine and
    a logged warning are recorded as events, in order. *)

Module Backends.
Import Numpy Decoder Sanitizer PyHeap Simplifier.

(** The values keyword arguments are bound to; [AInit] is a custom init
    mapping, the last three are objects this layer only passes on. *)
Inductive argv (F InitsList DataList Other : Type) : Type :=
  | AStr (s : string)
  | AInt (z : Z)
  | ABool (b : bool)
  | AInit (custom : gmap string (pyval F))
  | AInits (l : InitsList)
  | AData (d : DataList)
  | AOther (o : Other).
Arguments AStr {F InitsList DataList Other} s.
Arguments AInt {F InitsList DataList Other} z.
Arguments ABool {F InitsList DataList Other} b.
Arguments AInit {F InitsList DataList Other} custom.
Arguments AInits {F InitsList DataList Other} l.
Arguments AData {F InitsList DataList Other} d.
Arguments AOther {F InitsList DataList Other} o.

(** What [model.optimize] returns, as far as [fit] reads it. *)
Record optimize_result (F : Type) : Type := mk_optimize_result {
  column_names : list string;
  optimized_params_np : ndarray F
}.
Arguments mk_optimize_result {F} column_names optimized_params_np.
Arguments column_names {F} _.
Arguments optimized_params_np {F} _.

(** What [model.sample] returns: column names and [draws()]. *)
Record sample_result (F : Type) : Type := mk_sample_result {
  sample_column_names : list string;
  draws : ndarray F
}.
Arguments mk_sample_result {F} sample_column_names draws.
Arguments sample_column_names {F} _.
Arguments draws {F} _.

Inductive fit_object (F : Type) : Type :=
  | Optimized (r : optimize_result F)
  | Sampled (r : sample_result F).
Arguments Optimized {F} r.
Arguments Sampled {F} r.

(** The fields of a backend object the drivers read and write. *)
Record backend (F : Type) : Type := mk_backend {
  stan_fit : option (fit_object F);
  newton_fallback : bool
}.
Arguments mk_backend {F} stan_fit newton_fallback.
Arguments stan_fit {F} _.
Arguments newton_fallback {F} _.

Section Drivers.
Context {F InitsList DataList StanData Other : Type}.
Context (float_of_int : Z → option F) (float_of_str : string → option F).

Abbreviation kwargs_t := (gmap string (argv F InitsList DataList Other)).

Inductive event : Type :=
  | CallOptimize (args : kwargs_t)
  | CallSample (args : kwargs_t)
  | LogWarning (msg : string).

(** [prepare_data(stan_init, stan_data)], and [data_list["T"]]. *)
Context (prepare_data : gmap string (pyval F) → StanData → result (InitsList * DataList)).
Context (data_T : DataList → Z).
(** [self.model.optimize] and [self.model.sample], applied to the
    keyword arguments [args]. *)
Context (optimize : kwargs_t → result (optimize_result F)).
Context (sample : kwargs_t → result (sample_result F)).

(** [if "inits" not in kwargs and "init" in kwargs:
       stan_init = self.sanitize_custom_inits(stan_init, kwargs["init"])
       del kwargs["init"]] *)
Definition custom_init (stan_init : gmap string (pyval F)) (kwargs : kwargs_t)
  : result (gmap string (pyval F) * kwargs_t) :=
  match kwargs !! "inits", kwargs !! "init" with
  | None, Some (AInit custom) =>
      sanitized ← sanitize_custom_inits float_of_int float_of_str stan_init custom;
      Ok (sanitized, delete "init" kwargs)
  | None, Some _ => Raise (TypeError "custom init is not a mapping")
  | _, _ => Ok (stan_init, kwargs)
  end.

(** The first lines of [fit] and of [sampling]: the custom init, then
    the marshalling. *)
Definition prepare (stan_init : gmap string (pyval F)) (stan_data : StanData)
    (kwargs : kwargs_t) : result (kwargs_t * InitsList * DataList) :=
  ik ← custom_init stan_init kwargs;
  lists ← prepare_data ik.1 stan_data;
  Ok (ik.2, lists.1, lists.2).

(** [args = dict(data=..., inits=..., algorithm=..., iter=int(1e4))]
    followed by [args.update(kwargs)]: the caller's keywords win. *)
Definition optimize_args (data_list : DataList) (inits_list : InitsList)
    (kwargs : kwargs_t) : kwargs_t :=
  let args : kwargs_t :=
    {[ "data" := AData data_list;
       "inits" := AInits inits_list;
       "algorithm" := AStr (if bool_decide (data_T data_list < 100)%Z
                            then "Newton" else "LBFGS");
       "iter" := AInt 10000 ]} in
  kwargs ∪ args.

(** [x == "Newton"]. *)
Definition is_newton (x : argv F InitsList DataList Other) : bool :=
  match x with
  | AStr s => bool_decide (s = "Newton")
  | _ => false
  end.

(** [except RuntimeError]: the class and its built-in subclasses. *)
Definition is_runtime_error (e : exn) : bool :=
  match e with
  | RuntimeError _ | NotImplementedError _ | RecursionError _ => true
  | _ => false
  end.

Definition od_get (k : option string) (od : @odict F) : result (ndarray F) :=
  match list_find (λ kv, kv.1 = k) od with
  | Some (_, (_, v)) => Ok v
  | None => Raise (KeyError (key_repr k))
  end.

(** [params = self.stan_to_dict_numpy(column_names, optimized_params_np)]
    and [for par in params: params[par] = params[par].reshape((1, -1))]. *)
Definition decode_point (r : optimize_result F) : result (@odict F) :=
  params ← stan_to_dict_numpy (column_names r) (optimized_params_np r);
  for_each (λ ps par,
              v ← od_get par ps;
              row ← reshape v [1%Z; (-1)%Z];
              Ok (od_set par row ps))
           params.*1 params.

(** An entry of a mapping with its array laid out as one row, all the
    elements in order: what [v.reshape((1, -1))] is for a well-formed [v]. *)
Definition as_row (kv : option string * ndarray F) : option string * ndarray F :=
  (kv.1, mk_ndarray [1; size kv.2] (buffer kv.2)).

Definition fit_warning : string :=
  "Optimization terminated abnormally. Falling back to Newton.".

(** [CmdStanPyBackend.fit]: the result or the exception, the backend
    object afterwards, and the events in order. *)
Definition fit (self : backend F) (stan_init : gmap string (pyval F))
    (stan_data : StanData) (kwargs : kwargs_t)
  : result (@odict F) * backend F * list event :=
  match prepare stan_init stan_data kwargs with
  | Raise e => (Raise e, self, [])
  | Ok (kwargs, inits_list, data_list) =>
      let args := optimize_args data_list inits_list kwargs in
      match optimize args with
      | Ok r =>
          (decode_point r, mk_backend (Some (Optimized r)) (newton_fallback self),
           [CallOptimize args])
      | Raise e =>
          if is_runtime_error e then
            if negb (newton_fallback self) then (Raise e, self, [CallOptimize args])
            else
              match args !! "algorithm" with
              | None => (Raise (KeyError "algorithm"), self, [CallOptimize args])
              | Some alg =>
                  if is_newton alg then (Raise e, self, [CallOptimize args])
                  else
                    let args' := <["algorithm" := AStr "Newton"]> args in
                    let events :=
                      [CallOptimize args; LogWarning fit_warning; CallOptimize args'] in
                    match optimize args' with
                    | Ok r =>
                        (decode_point r,
                         mk_backend (Some (Optimized r)) (newton_fallback self), events)
                    | Raise e' => (Raise e', self, events)
                    end
              end
          else (Raise e, self, [CallOptimize args])
      end
  end.

(** The keyword arguments [sampling] hands to [model.sample]. *)
Definition sample_args (data_list : DataList) (inits_list : InitsList)
    (samples : Z) (kwargs : kwargs_t) : kwargs_t :=
  let args : kwargs_t :=
    {[ "data" := AData data_list; "inits" := AInits inits_list ]} in
  let kwargs : kwargs_t :=
    match kwargs !! "chains" with
    | None => <["chains" := AInt 4]> kwargs
    | Some _ => kwargs
    end in
  let iter_half := (samples `div` 2)%Z in
  let kwargs : kwargs_t := <["iter_sampling" := AInt iter_half]> kwargs in
  let kwargs : kwargs_t :=
    match kwargs !! "iter_warmup" with
    | None => <["iter_warmup" := AInt iter_half]> kwargs
    | Some _ => kwargs
    end in
  kwargs ∪ args.

(** [(samples, c, columns) = res.shape] and
    [res = res.reshape((samples * c, columns))]. *)
Definition pool_chains (res : ndarray F) : result (ndarray F) :=
  match shape res with
  | [samples; c; columns] =>
      reshape res [Z.of_nat (samples * c); Z.of_nat columns]
  | _ => Raise (ValueError "wrong number of values to unpack")
  end.

(** A decoded mapping as heap objects: one array object per entry and
    the dictionary that binds them. *)
Fixpoint load_items (params : @odict F) : py F dict :=
  match params with
  | [] => py_ret []
  | (k, v) :: params' =>
      py_bind (alloc_array v) (λ l,
      py_bind (load_items params') (λ d, py_ret ((k, l) :: d)))
  end.

Definition load_params (params : @odict F) : py F loc :=
  py_bind (load_items params) alloc_dict.

(** [CmdStanPyBackend.sampling]. *)
Definition sampling (self : backend F) (stan_init : gmap string (pyval F))
    (stan_data : StanData) (samples : Z) (kwargs : kwargs_t) (h : heap F)
  : result loc * heap F * backend F * list event :=
  match prepare stan_init stan_data kwargs with
  | Raise e => (Raise e, h, self, [])
  | Ok (kwargs, inits_list, data_list) =>
      let args := sample_args data_list inits_list samples kwargs in
      match sample args with
      | Raise e => (Raise e, h, self, [CallSample args])
      | Ok r =>
          let self' := mk_backend (Some (Sampled r)) (newton_fallback self) in
          match res ← pool_chains (draws r);
                stan_to_dict_numpy (sample_column_names r) res with
          | Raise e => (Raise e, h, self', [CallSample args])
          | Ok params =>
              let run := py_bind (load_params params) simplify_mcmc_results h in
              (run.1, run.2, self', [CallSample args])
          end
      end
  end.

(** *** The Numpyro driver *)

(** The arguments of [MCMC(...)]. *)
Record mcmc_args : Type := mk_mcmc_args {
  num_warmup : Z;
  num_samples : Z;
  thinning : Z;
  num_chains : argv F InitsList DataList Other;
  chain_method : argv F InitsList DataList Other;
  progress_bar : argv F InitsList DataList Other
}.

(** [run_params = {...}] followed by [run_params.update(kwargs)]. *)
Definition run_params (kwargs : kwargs_t) : kwargs_t :=
  let run_params : kwargs_t :=
    {[ "chain_method" := AStr "sequential";
       "progress_bar" := ABool false;
       "num_chains" := AInt 4;
       "seed" := AInt 0;
       "max_tree_depth" := AInt 10 ]} in
  kwargs ∪ run_params.

Definition run_param (rp : kwargs_t) (k : string)
  : result (argv F InitsList DataList Other) :=
  match rp !! k with
  | Some v => Ok v
  | None => Raise (KeyError k)
  end.

Definition numpyro_mcmc_args (samples : Z) (rp : kwargs_t) : result mcmc_args :=
  chains ← run_param rp "num_chains";
  method ← run_param rp "chain_method";
  bar ← run_param rp "progress_bar";
  Ok (mk_mcmc_args (samples `div` 2)%Z (samples `div` 2)%Z 1%Z chains method bar).

(** The steps of [NumpyroBackend.sampling] that belong to the engine, each
    of which may raise:
    - [{k: jnp.vstack([jnp.array(v) for _ in range(run_params["num_chains"])])
        for k, v in init.items()}], given the chain count and the inits;
    - [get_model(stan_data["trend_indicator"])];
    - [NUTS(model, max_tree_depth=run_params["max_tree_depth"])];
    - [MCMC(nuts_kernel, ...)];
    - [jax.random.PRNGKey(run_params["seed"])], [mcmc.run(...)] and
      [mcmc.get_samples(group_by_chain=False)], given the seed, the stacked
      inits and the data. *)
Context {Model Kernel Sampler : Type}.
Context (stack_inits : argv F InitsList DataList Other → InitsList → result InitsList).
Context (get_model : StanData → result Model).
Context (nuts : Model → argv F InitsList DataList Other → result Kernel).
Context (new_mcmc : Kernel → mcmc_args → result Sampler).
Context (run_mcmc : Sampler → argv F InitsList DataList Other → InitsList → DataList
                    → result (@odict F)).

(** What comes before [MCMC(...)] is called: the inits stacked, the
    kernel, and the arguments of the call. *)
Definition numpyro_kernel (stan_data : StanData) (samples : Z) (rp : kwargs_t)
    (init : InitsList) : result (InitsList * Kernel * mcmc_args) :=
  chains ← run_param rp "num_chains";
  stacked ← stack_inits chains init;
  model ← get_model stan_data;
  depth ← run_param rp "max_tree_depth";
  kernel ← nuts model depth;
  args ← numpyro_mcmc_args samples rp;
  Ok (stacked, kernel, args).

(** [NumpyroBackend.sampling]: the result or the exception, the heap, and
    the calls of [MCMC(...)] with their arguments. *)
Definition numpyro_sampling (stan_init : gmap string (pyval F))
    (stan_data : StanData) (samples : Z) (kwargs : kwargs_t) (h : heap F)
  : result loc * heap F * list mcmc_args :=
  match prepare stan_init stan_data kwargs with
  | Raise e => (Raise e, h, [])
  | Ok (kwargs, init, data) =>
      let rp := run_params kwargs in
      match numpyro_kernel stan_data samples rp init with
      | Raise e => (Raise e, h, [])
      | Ok (stacked, kernel, args) =>
          match new_mcmc kernel args with
          | Raise e => (Raise e, h, [args])
          | Ok mcmc =>
              match seed ← run_param rp "seed"; run_mcmc mcmc seed stacked data with
              | Raise e => (Raise e, h, [args])
              | Ok params =>
                  let run := py_bind (load_params params) simplify_mcmc_results h in
                  (run.1, run.2, [args])
              end
          end
      end
  end.

End Drivers.

End Backends.

(** ** Backend construction and options (IStanBackend.__init__, set_options) *)

Module Options.
Import Registry Backends.

(** The fields [stan_fit] and [newton_fallback] as [__init__] leaves them
    when it returns: no fit yet, fallback enabled; the Numpyro backend then
    turns the fallback off.  The imports and [load_model], which come
    first, are outside this model. *)
Definition new_backend {F} (c : backend_class) : backend F :=
  mk_backend None
    match c with
    | CmdStanPyBackend => true
    | NumpyroBackend => false
    end.

(** [set_options], applied to keyword arguments, the keywords in the order given; the value of
    [newton_fallback] is a boolean, as the docstring has it. *)
Fixpoint set_options {F} (self : backend F) (kwargs : list (string * bool))
  : result () * backend F :=
  match kwargs with
  | [] => (Ok (), self)
  | (k, v) :: kwargs' =>
      if bool_decide (k = "newton_fallback")
      then set_options (mk_backend (stan_fit self) v) kwargs'
      else (Raise (ValueError ("Unknown option " +:+ k)), self)
  end.

End Options.

(** ** A point estimate from Numpyro (NumpyroBackend.fit) *)

Module PyReplace.

(** [s.find(old)]: the index of the first occurrence, [None] for [-1]. *)
Fixpoint find (old s : string) : option nat :=
  match s with
  | EmptyString => if String.prefix old s then Some 0 else None
  | String _ s' => if String.prefix old s then Some 0 else S <$> find old s'
  end.

(** [s.replace(old, new)], read from the left: [skip] characters of an
    occurrence already replaced are still to be passed over.  An empty
    [old] matches before every character and at the end. *)
Fixpoint replace_from (skip : nat) (old new s : string) : string :=
  match s with
  | EmptyString =>
      match skip with
      | 0 => if String.prefix old s then new else EmptyString
      | S _ => EmptyString
      end
  | String a s' =>
      match skip with
      | S k => replace_from k old new s'
      | 0 =>
          if String.prefix old s
          then match old with
               | EmptyString => new +:+ String a (replace_from 0 old new s')
               | String _ old' => new +:+ replace_from (String.length old') old new s'
               end
          else String a (replace_from 0 old new s')
      end
  end.

Definition replace (old new s : string) : string := replace_from 0 old new s.

End PyReplace.

Module NumpyroFit.
Import Numpy Decoder Sanitizer Backends.

Section Fit.
Context {F InitsList DataList StanData Other : Type}.
Context (float_of_int : Z → option F) (float_of_str : string → option F).
Context (prepare_data : gmap string (pyval F) → StanData → result (InitsList * DataList)).

Abbreviation kwargs_t := (gmap string (argv F InitsList DataList Other)).

(** The float literal [0.001], a value this layer only passes on. *)
Context (rate_0_001 : argv F InitsList DataList Other).

(** [run_params = {...}] followed by [run_params.update(kwargs)]. *)
Definition fit_run_params (kwargs : kwargs_t) : kwargs_t :=
  let run_params : kwargs_t :=
    {[ "num_steps" := AInt 10000;
       "progress_bar" := ABool false;
       "learning_rate" := rate_0_001;
       "seed" := AInt 0 ]} in
  kwargs ∪ run_params.

(** What the optimizer, the random key and [svi.run] are given, read from
    [run_params] in the order the code reads them. *)
Record svi_args : Type := mk_svi_args {
  learning_rate : argv F InitsList DataList Other;
  seed : argv F InitsList DataList Other;
  num_steps : argv F InitsList DataList Other;
  stable_update : bool;
  svi_progress_bar : argv F InitsList DataList Other
}.

Definition svi_run_args (rp : kwargs_t) : result svi_args :=
  rate ← run_param rp "learning_rate";
  sd ← run_param rp "seed";
  steps ← run_param rp "num_steps";
  bar ← run_param rp "progress_bar";
  Ok (mk_svi_args rate sd steps true bar).

(** The model for the trend of [stan_data], its guide, the optimizer and
    [svi.run]: [svi_results.params], the items in order. *)
Context (run_svi : svi_args → StanData → InitsList → DataList
                   → result (list (string * ndarray F))).

(** [{k.replace("_auto_loc", ""): np.array(v).reshape((1, -1))
      for k, v in svi_results.params.items()}]. *)
Definition point_params (params : list (string * ndarray F)) : result (@odict F) :=
  for_each (λ out kv,
              row ← reshape kv.2 [1%Z; (-1)%Z];
              Ok (od_set (Some (PyReplace.replace "_auto_loc" "" kv.1)) row out))
           params [].

(** [NumpyroBackend.fit]: the result or the exception, and the runs of
    the engine. *)
Definition numpyro_fit (stan_init : gmap string (pyval F)) (stan_data : StanData)
    (kwargs : kwargs_t) : result (@odict F) * list svi_args :=
  match prepare float_of_int float_of_str prepare_data stan_init stan_data kwargs with
  | Raise e => (Raise e, [])
  | Ok (kwargs, init, data) =>
      match svi_run_args (fit_run_params kwargs) with
      | Raise e => (Raise e, [])
      | Ok args =>
          match run_svi args stan_data init data with
          | Raise e => (Raise e, [args])
          | Ok params => (point_params params, [args])
          end
      end
  end.

End Fit.

End NumpyroFit.

(** ** A small world to run the drivers in *)

Module Toy.
Import Numpy Sanitizer Backends.


(** The number of observations is all there is to the data; one engine
    fails under ["LBFGS"], the other never fails. *)
Definition toy_prepare (stan_init : gmap string (pyval Z)) (T : Z)
  : result (unit * Z) := Ok ((), T).

Definition toy_result : optimize_result Z :=
  mk_optimize_result ["k"; "m"] (mk_ndarray [2] [1; 2]%Z).

Definition toy_optimize (args : gmap string (argv Z unit Z unit))
  : result (optimize_result Z) :=
  match args !! "algorithm" with
  | Some (AStr "LBFGS") => Raise (RuntimeError "line search failed")
  | _ => Ok toy_result
  end.

Definition steady_optimize (args : gmap string (argv Z unit Z unit))
  : result (optimize_result Z) := Ok toy_result.

Definition toy_fit (optimize : gmap string (argv Z unit Z unit) → result (optimize_result Z))
    (fallback : bool) (T : Z) (kwargs : gmap string (argv Z unit Z unit)) :=
  fit Some (λ _, None) toy_prepare id optimize (mk_backend None fallback) ∅ T kwargs.

End Toy.


(** * Properties *)

Import Numpy Decoder.

(** ** Strings *)

Lemma split_prefix_before sep s :
  ∃ t, PyStr.split sep s = prefix_before sep s :: t.
Proof.
  induction s as [|a s [t IH]]; simpl; [by eexists|].
  destruct (Ascii.eqb a sep); [by eexists|].
  rewrite IH. by eexists.
Qed.

Lemma base_name_base cname : base_name cname = Ok (base cname).
Proof.
  unfold base_name, base.
  destruct (PyStr.contains "." cname).
  - by destruct (split_prefix_before "." cname) as [t ->].
  - by destruct (split_prefix_before "[" cname) as [t ->].
Qed.

Lemma prefix_before_dot_plain s :
  PyStr.contains "[" (prefix_before "." s) = false →
  prefix_before "." s = prefix_before_delimiter s.
Proof.
  induction s as [|a s IH]; simpl; [done|].
  destruct (Ascii.eqb a ".") eqn:Hd; simpl; [done|].
  destruct (Ascii.eqb a "[") eqn:Hb; simpl; [done|].
  intros H. f_equal. by apply IH.
Qed.

Lemma prefix_before_bracket_plain s :
  PyStr.contains "." s = false →
  prefix_before "[" s = prefix_before_delimiter s.
Proof.
  induction s as [|a s IH]; simpl; [done|].
  destruct (Ascii.eqb a ".") eqn:Hd; simpl; [done|].
  destruct (Ascii.eqb a "[") eqn:Hb; simpl; [done|].
  intros H. f_equal. by apply IH.
Qed.

(** On the names the engine writes, the decoder's base name is the prefix
    before the first delimiter, whichever of the two it is. *)
Lemma base_plain_name cname :
  plain_name cname → base cname = prefix_before_delimiter cname.
Proof.
  unfold plain_name, base. intros [H|H].
  - destruct (PyStr.contains "." cname) eqn:Hc.
    + by apply prefix_before_dot_plain.
    + by apply prefix_before_bracket_plain.
  - rewrite H. by apply prefix_before_bracket_plain.
Qed.

(** ** Slices, entry by entry *)

Lemma mjoin_chunks_lookup {A} (f : nat → list A) (m n k i j : nat) :
  (∀ i, i < n → length (f (k + i)) = m) →
  i < n → j < m →
  mjoin (f <$> seq k n) !! (i * m + j) = f (k + i) !! j.
Proof.
  revert k i. induction n as [|n IH]; intros k i Hlen Hi Hj; [lia|].
  change (seq k (S n)) with (k :: seq (S k) n). rewrite fmap_cons.
  change (mjoin (f k :: (f <$> seq (S k) n))) with (f k ++ mjoin (f <$> seq (S k) n)).
  pose proof (Hlen 0 ltac:(lia)) as H0. rewrite Nat.add_0_r in H0.
  destruct i as [|i].
  - rewrite Nat.add_0_r. simpl. by rewrite lookup_app_l by lia.
  - rewrite lookup_app_r by lia.
    replace (S i * m + j - length (f k)) with (i * m + j) by lia.
    rewrite (IH (S k) i); [|intros i' Hi'|lia|done].
    + by replace (S k + i) with (k + S i) by lia.
    + replace (S k + i') with (k + S i') by lia. apply Hlen. lia.
Qed.

(** Slicing a vector: entry [j] of [a[lo:hi]] is entry [lo + j] of [a]. *)
Lemma slice_axis0_vector {A} (a : ndarray A) (d lo hi : nat) :
  shape a = [d] → valid a → lo ≤ hi ≤ d →
  ∃ v, slice_axis0 a lo hi = Ok v
     ∧ shape v = [hi - lo] ∧ valid v
     ∧ ∀ j, j < hi - lo → buffer v !! j = buffer a !! (lo + j).
Proof.
  unfold valid, slice_axis0. intros Hs Hv Hb. rewrite Hs in *. simpl in *.
  eexists. split; [reflexivity|]. simpl.
  rewrite !Nat.min_l by lia. rewrite !Nat.mul_1_r. split_and!; [done| |].
  - rewrite length_take, length_drop. lia.
  - intros j Hj. rewrite lookup_take_lt by lia. by rewrite lookup_drop.
Qed.

(** Slicing the columns of a matrix: entry [(i, j)] of [a[:, lo:hi]] is
    entry [(i, lo + j)] of [a]. *)
Lemma slice_axis1_matrix {A} (a : ndarray A) (d0 d1 lo hi : nat) :
  shape a = [d0; d1] → valid a → lo ≤ hi ≤ d1 →
  ∃ v, slice_axis1 a lo hi = Ok v
     ∧ shape v = [d0; hi - lo]
     ∧ ∀ i j, i < d0 → j < hi - lo →
         buffer v !! (i * (hi - lo) + j) = buffer a !! (i * d1 + (lo + j)).
Proof.
  unfold valid, slice_axis1. intros Hs Hv Hb. rewrite Hs in *. simpl in *.
  eexists. split; [reflexivity|]. simpl.
  rewrite !Nat.min_l by lia. rewrite !Nat.mul_1_r. split; [done|].
  intros i j Hi Hj.
  rewrite (mjoin_chunks_lookup _ (hi - lo) d0 0 i j); [|intros i' Hi'|done..].
  - simpl. rewrite lookup_take_lt by lia. rewrite lookup_drop. f_equal. lia.
  - simpl. rewrite length_take, length_drop. nia.
Qed.

(** ** The decoder's loop as a list of closed runs *)

Lemma result_bind_ret {A} (m : result A) : (m ≫= Ok) = m.
Proof. by destruct m. Qed.

Section DecoderLoop.
Context {A : Type} (data : ndarray A).

Lemma scan_column_open out p s e c :
  scan_column data (mk_scan out (Some p) s e) c
  = if bool_decide (base c = p) then Ok (mk_scan out (Some p) s (S e))
    else out' ← close_run data (mk_scan out (Some p) s e);
         Ok (mk_scan out' (Some (base c)) e (S e)).
Proof.
  unfold scan_column. rewrite base_name_base.
  cbn [mbind result_bind prev output start end_].
  destruct (decide (base c = p)) as [->|Hne].
  - rewrite bool_decide_false by (intros H; by apply H).
    by rewrite bool_decide_true.
  - rewrite bool_decide_true by congruence.
    by rewrite (bool_decide_false (base c = p)).
Qed.

Lemma scan_column_first out s e c :
  scan_column data (mk_scan out None s e) c
  = Ok (mk_scan out (Some (base c)) s (S e)).
Proof.
  unfold scan_column. rewrite base_name_base.
  cbn [mbind result_bind prev output start end_].
  by rewrite bool_decide_false by (intros H; by apply H).
Qed.

Lemma scan_from_open cols out p s e :
  (for_each (scan_column data) cols (mk_scan out (Some p) s e) ≫= close_run data)
  = close_runs data (runs_from p s e (base <$> cols)) out.
Proof.
  revert out p s e. induction cols as [|c cols IH]; intros out p s e.
  - simpl. unfold close_runs. simpl. by rewrite result_bind_ret.
  - cbn [for_each fmap list_fmap runs_from]. rewrite scan_column_open.
    destruct (bool_decide (base c = p)); cbn [mbind result_bind]; [apply IH|].
    unfold close_runs. cbn [for_each fst snd].
    destruct (close_run data (mk_scan out (Some p) s e)) as [out'|err];
      cbn [mbind result_bind]; [|done].
    apply IH.
Qed.

(** The first column only opens a run. *)
Lemma stan_to_dict_numpy_runs c cols :
  stan_to_dict_numpy (c :: cols) data
  = close_runs data (runs_from (base c) 0 1 (base <$> cols)) [].
Proof.
  unfold stan_to_dict_numpy. cbn [for_each]. rewrite scan_column_first.
  cbn [mbind result_bind]. apply scan_from_open.
Qed.

End DecoderLoop.

(** ** Closing runs: success and the repeated-name failure *)

Section CloseRuns.
Context {A : Type}.
Implicit Types (data v : ndarray A) (out : @odict A) (rs : list (string * nat * nat)).

Lemma od_set_fresh k v out : k ∉ out.*1 → od_set k v out = out ++ [(k, v)].
Proof.
  induction out as [|[k' v'] out IH]; simpl; [done|].
  intros Hk. apply not_elem_of_cons in Hk as [Hne Hk].
  rewrite bool_decide_false by done. by rewrite IH.
Qed.

Lemma take_slice_ok data s e :
  shape data ≠ [] → ∃ v, take_slice data s e = Ok v.
Proof.
  unfold take_slice, ndim, slice_axis1, slice_axis0.
  destruct (shape data) as [|d0 [|d1 rest]]; intros Hs; [done| |];
    case_bool_decide; simpl in *; try lia; by eexists.
Qed.

Lemma take_slice_axis_len data s e d v :
  sliced_axis_len data = Some d →
  take_slice data s e = Ok v →
  sliced_axis_len v = Some (e `min` d - s `min` d).
Proof.
  unfold take_slice, ndim, slice_axis1, slice_axis0, sliced_axis_len.
  destruct (shape data) as [|d0 [|d1 rest]]; intros Hd; [done| |];
    case_bool_decide; simpl in *; try lia; intros [= <-]; simpl; congruence.
Qed.

Lemma take_slice_shape data s e d v :
  sliced_axis_len data = Some d →
  take_slice data s e = Ok v →
  shape v = with_sliced_axis (shape data) (e `min` d - s `min` d).
Proof.
  unfold take_slice, ndim, slice_axis1, slice_axis0, sliced_axis_len, with_sliced_axis.
  destruct (shape data) as [|d0 [|d1 rest]]; intros Hd; [done| |];
    case_bool_decide; simpl in *; try lia; intros [= <-]; simpl; congruence.
Qed.

Lemma close_run_fresh data out p s e v :
  Some p ∉ out.*1 → take_slice data s e = Ok v →
  close_run data (mk_scan out (Some p) s e) = Ok (out ++ [(Some p, v)]).
Proof.
  intros Hp Hv. unfold close_run, od_contains. simpl.
  rewrite bool_decide_false by done. rewrite Hv. simpl.
  by rewrite od_set_fresh.
Qed.

Lemma close_run_present data out k s e :
  k ∈ out.*1 →
  close_run data (mk_scan out k s e) = Raise (RuntimeError "Found repeated column name").
Proof.
  intros Hp. unfold close_run, od_contains. simpl.
  by rewrite bool_decide_true.
Qed.

(** Distinct fresh names: every run is stored, in order, after what was
    there. *)
Lemma close_runs_ok data rs out :
  shape data ≠ [] →
  NoDup rs.*1.*1 →
  (∀ r, r ∈ rs → Some r.1.1 ∉ out.*1) →
  ∃ vs, close_runs data rs out = Ok (out ++ vs)
      ∧ Forall2 (λ kv r, kv.1 = Some r.1.1 ∧ take_slice data r.1.2 r.2 = Ok kv.2) vs rs.
Proof.
  intros Hshape. revert out. induction rs as [|[[p s] e] rs IH]; intros out Hnd Hfresh.
  - exists []. split; [by rewrite app_nil_r|constructor].
  - simpl in Hnd. apply NoDup_cons in Hnd as [Hp Hnd].
    destruct (take_slice_ok data s e Hshape) as [v Hv].
    unfold close_runs. cbn [for_each fst snd].
    rewrite (close_run_fresh _ _ _ _ _ v); [|apply (Hfresh (p, s, e)); left|done].
    cbn [mbind result_bind].
    destruct (IH (out ++ [(Some p, v)]) Hnd) as (vs & Hvs & Hall).
    { intros r Hr. rewrite fmap_app, elem_of_app. simpl.
      intros [Hin|Hin%list_elem_of_singleton].
      - by apply (Hfresh r); [right|].
      - apply Hp. injection Hin as <-.
        apply list_elem_of_fmap. exists r.1. split; [done|].
        apply list_elem_of_fmap. by exists r. }
    exists ((Some p, v) :: vs). split.
    + unfold close_runs in Hvs. rewrite Hvs. by rewrite <- app_assoc.
    + by constructor.
Qed.

(** A name closed twice, or already stored: the membership test fires. *)
Lemma close_runs_repeated data rs out :
  shape data ≠ [] →
  ¬ NoDup rs.*1.*1 ∨ (∃ r, r ∈ rs ∧ Some r.1.1 ∈ out.*1) →
  close_runs data rs out = Raise (RuntimeError "Found repeated column name").
Proof.
  intros Hshape. revert out. induction rs as [|[[p s] e] rs IH]; intros out Hbad.
  - destruct Hbad as [Hnd|(r & Hr & _)].
    + destruct Hnd. constructor.
    + by apply elem_of_nil in Hr.
  - unfold close_runs. cbn [for_each fst snd].
    destruct (decide (Some p ∈ out.*1)) as [Hin|Hnin].
    { by rewrite close_run_present. }
    destruct (take_slice_ok data s e Hshape) as [v Hv].
    rewrite (close_run_fresh _ _ _ _ _ v) by done.
    cbn [mbind result_bind]. apply IH.
    assert (Hkeys : ∀ r, r ∈ rs → r.1.1 = p → Some r.1.1 ∈ (out ++ [(Some p, v)]).*1).
    { intros r _ ->. rewrite fmap_app, elem_of_app. right. simpl. left. }
    destruct Hbad as [Hnd|(r & Hr & Hin)].
    + simpl in Hnd. destruct (decide (p ∈ rs.*1.*1)) as [Hp|Hp].
      * right. apply list_elem_of_fmap in Hp as (q & -> & Hq).
        apply list_elem_of_fmap in Hq as (r & -> & Hr).
        exists r. split; [done|]. by apply Hkeys.
      * left. intros Hnd'. apply Hnd. by constructor.
    + apply elem_of_cons in Hr as [->|Hr]; [done|].
      right. exists r. split; [done|].
      rewrite fmap_app, elem_of_app. by left.
Qed.

End CloseRuns.

(** ** Runs, contiguity and first occurrences *)

Lemma occurrences_cons_eq b l : occurrences b (b :: l) = S (occurrences b l).
Proof. unfold occurrences. by rewrite filter_cons_True. Qed.

Lemma occurrences_cons_ne b x l : x ≠ b → occurrences b (x :: l) = occurrences b l.
Proof. intros H. unfold occurrences. by rewrite filter_cons_False. Qed.

Lemma occurrences_absent b l : b ∉ l → occurrences b l = 0.
Proof.
  induction l as [|x l IH]; [done|].
  intros [Hne Hl]%not_elem_of_cons.
  rewrite occurrences_cons_ne by done. by apply IH.
Qed.

Lemma occurrences_replicate_eq p n l :
  occurrences p (replicate n p ++ l) = n + occurrences p l.
Proof.
  induction n as [|n IH]; simpl; [done|].
  by rewrite occurrences_cons_eq, IH.
Qed.

Lemma occurrences_replicate_ne x p n l :
  x ≠ p → occurrences x (replicate n p ++ l) = occurrences x l.
Proof.
  intros Hne. induction n as [|n IH]; simpl; [done|].
  by rewrite occurrences_cons_ne.
Qed.

Lemma first_index_replicate_eq p n l :
  0 < n → first_index p (replicate n p ++ l) = 0.
Proof. destruct n; [lia|]. intros _. simpl. by rewrite bool_decide_true. Qed.

Lemma first_index_replicate_ne x p n l :
  x ≠ p → first_index x (replicate n p ++ l) = n + first_index x l.
Proof.
  intros Hne. induction n as [|n IH]; simpl; [done|].
  rewrite bool_decide_false by done. by rewrite IH.
Qed.

Lemma first_index_occurrences_le b l :
  first_index b l + occurrences b l ≤ length l.
Proof.
  induction l as [|x l IH]; simpl; [done|].
  case_bool_decide as Hx.
  - subst x. rewrite occurrences_cons_eq. unfold occurrences.
    pose proof (length_filter (λ x, x = b) l). simpl. lia.
  - rewrite occurrences_cons_ne by done. lia.
Qed.

Lemma elem_of_heads x p bs : x ∈ heads p bs ↔ x = p ∨ x ∈ bs.
Proof.
  revert p. induction bs as [|b bs IH]; intros p; simpl.
  - rewrite list_elem_of_singleton, elem_of_nil. tauto.
  - case_bool_decide as Hb.
    + subst b. rewrite IH, elem_of_cons. tauto.
    + rewrite !elem_of_cons, IH. tauto.
Qed.

Lemma runs_from_names p s e bs : (runs_from p s e bs).*1.*1 = heads p bs.
Proof.
  revert p s e. induction bs as [|b bs IH]; intros p s e; simpl; [done|].
  case_bool_decide; simpl; by rewrite IH.
Qed.

Lemma contiguous_tail x l : contiguous (x :: l) → contiguous l.
Proof.
  intros Hc i j k a b Hlt Hi Hj Hk.
  apply (Hc (S i) (S j) (S k)); [lia|done..].
Qed.

Lemma contiguous_gap p b bs : contiguous (p :: b :: bs) → b ≠ p → p ∉ bs.
Proof.
  intros Hc Hne [k Hk]%list_elem_of_lookup.
  apply Hne. by apply (Hc 0 1 (S (S k))); [lia|..].
Qed.

Lemma heads_NoDup_of_contiguous p bs : contiguous (p :: bs) → NoDup (heads p bs).
Proof.
  revert p. induction bs as [|b bs IH]; intros p Hc; simpl.
  - apply NoDup_singleton.
  - case_bool_decide as Hb.
    + subst b. apply IH. by apply contiguous_tail in Hc.
    + constructor.
      * rewrite elem_of_heads. intros [->|Hin]; [done|].
        by apply (contiguous_gap p b bs).
      * apply IH. by apply contiguous_tail in Hc.
Qed.

Lemma contiguous_of_heads_NoDup p bs : NoDup (heads p bs) → contiguous (p :: bs).
Proof.
  revert p. induction bs as [|b bs IH]; intros p Hnd; simpl in Hnd.
  - intros i j k x y Hlt Hi Hj Hk.
    apply lookup_lt_Some in Hk. simpl in Hk. lia.
  - case_bool_decide as Hb.
    + subst b. specialize (IH p Hnd).
      intros i j k x y Hlt Hi Hj Hk.
      destruct i as [|i].
      * destruct j as [|[|j]]; [lia|simpl in *; congruence|].
        destruct k as [|k]; [lia|].
        apply (IH 0 (S j) k); [lia|done..].
      * destruct j as [|j]; [lia|]. destruct k as [|k]; [lia|].
        apply (IH i j k); [lia|done..].
    + apply NoDup_cons in Hnd as [Hp Hnd]. specialize (IH b Hnd).
      rewrite elem_of_heads in Hp.
      intros i j k x y Hlt Hi Hj Hk.
      destruct i as [|i].
      * destruct k as [|k]; [lia|]. simpl in Hi, Hk. injection Hi as <-.
        destruct Hp. apply list_elem_of_lookup_2 in Hk.
        by apply elem_of_cons in Hk.
      * destruct j as [|j]; [lia|]. destruct k as [|k]; [lia|].
        apply (IH i j k); [lia|done..].
Qed.

Lemma heads_distinct p bs : NoDup (heads p bs) → heads p bs = distinct (p :: bs).
Proof.
  revert p. induction bs as [|b bs IH]; intros p Hnd; simpl in *; [done|].
  case_bool_decide as Hb.
  - subst b. rewrite (IH p Hnd). simpl.
    rewrite filter_cons_False by (intros H; by apply H).
    f_equal. symmetry. apply list_filter_filter_l. tauto.
  - apply NoDup_cons in Hnd as [Hp Hnd]. rewrite (IH b Hnd) in Hp |- *.
    f_equal. simpl in *. rewrite filter_cons_True by done.
    f_equal. apply not_elem_of_cons in Hp as [_ Hp].
    induction (filter (λ x, x ≠ b) (distinct bs)) as [|z l IHl]; [done|].
    apply not_elem_of_cons in Hp as [Hz Hp].
    rewrite filter_cons_True by done. f_equal. by apply IHl.
Qed.

(** Where each closed run starts and stops, read off the column list: at
    the first column carrying its name, for as many columns as carry it. *)
Lemma runs_from_positions p s n bs r :
  0 < n → NoDup (heads p bs) →
  r ∈ runs_from p s (s + n) bs →
  r.1.2 = s + first_index r.1.1 (replicate n p ++ bs)
  ∧ r.2 = r.1.2 + occurrences r.1.1 (replicate n p ++ bs).
Proof.
  revert p s n. induction bs as [|b bs IH]; intros p s n Hn Hnd Hr; simpl in *.
  - apply list_elem_of_singleton in Hr as ->. simpl.
    rewrite first_index_replicate_eq, occurrences_replicate_eq by done.
    unfold occurrences. simpl. lia.
  - case_bool_decide as Hb.
    + subst b. replace (S (s + n)) with (s + S n) in Hr by lia.
      apply IH in Hr; [|lia|done].
      by rewrite replicate_S, replicate_cons_app, <- app_assoc in Hr.
    + apply NoDup_cons in Hnd as [Hp Hnd].
      apply elem_of_cons in Hr as [->|Hr]; simpl.
      * rewrite first_index_replicate_eq, occurrences_replicate_eq by done.
        rewrite occurrences_absent; [lia|].
        intros Hin. apply Hp, elem_of_heads.
        apply elem_of_cons in Hin as [->|Hin]; [by left|by right].
      * assert (r.1.1 ≠ p) as Hne.
        { intros <-. apply Hp. rewrite <- (runs_from_names b (s + n) (S (s + n)) bs).
          apply list_elem_of_fmap. exists r.1. split; [done|].
          apply list_elem_of_fmap. by exists r. }
        replace (S (s + n)) with (s + n + 1) in Hr by lia.
        apply IH in Hr; [|lia|done].
        change (replicate 1 b ++ bs) with (b :: bs) in Hr.
        rewrite first_index_replicate_ne, occurrences_replicate_ne by done.
        lia.
Qed.

Lemma contiguous_run_at_head x l j :
  contiguous (x :: l) →
  (x :: l) !! j = Some x ↔ j < S (occurrences x l).
Proof.
  revert j. induction l as [|z l IH]; intros j Hc.
  - destruct j; simpl; [split; [lia|done]|].
    unfold occurrences. simpl. split; [done|lia].
  - destruct (decide (z = x)) as [->|Hz].
    + rewrite occurrences_cons_eq.
      destruct j as [|j]; [simpl; split; [lia|done]|].
      change ((x :: x :: l) !! S j) with ((x :: l) !! j).
      rewrite IH by (by apply contiguous_tail in Hc). lia.
    + rewrite occurrences_cons_ne by done.
      pose proof (contiguous_gap x z l Hc Hz) as Hx.
      rewrite (occurrences_absent x l Hx).
      destruct j as [|[|j]]; simpl.
      * split; [lia|done].
      * split; [congruence|lia].
      * split; [|lia]. intros Hj. destruct Hx. by apply list_elem_of_lookup_2 in Hj.
Qed.

(** In a list with contiguous names, the columns carrying a name are exactly
    those from its first occurrence on, as many as there are. *)
Lemma contiguous_run_exact x l j :
  contiguous l → x ∈ l →
  l !! j = Some x ↔ first_index x l ≤ j < first_index x l + occurrences x l.
Proof.
  revert j. induction l as [|y l IH]; intros j Hc Hx; [by apply elem_of_nil in Hx|].
  simpl. case_bool_decide as Hy.
  - subst y. rewrite contiguous_run_at_head by done.
    rewrite occurrences_cons_eq. lia.
  - apply elem_of_cons in Hx as [->|Hx]; [done|].
    rewrite occurrences_cons_ne by done.
    destruct j as [|j]; simpl.
    + split; [congruence|lia].
    + rewrite IH; [lia| |done]. by apply contiguous_tail in Hc.
Qed.

Lemma reappears_not_contiguous bs : reappears bs → ¬ contiguous bs.
Proof.
  intros (i & j & k & x & y & Hlt & Hi & Hj & Hk & Hne) Hc.
  by apply Hne, (Hc i j k).
Qed.

Lemma Forall2_with_right {X Y} (P : X → Y → Prop) (R : Y → Prop) l k :
  Forall2 P l k → Forall R k → Forall2 (λ x y, P x y ∧ R y) l k.
Proof.
  induction 1 as [|x y l k Hxy _ IH]; intros Hk; [constructor|].
  apply Forall_cons in Hk as [Hy Hk]. constructor; [done|by apply IH].
Qed.

(** ** The decoder's contract *)

(** The decoder on any non-empty column list, with the base names the code
    computes: contiguous names give one entry per distinct name, in order of
    first occurrence, holding the slice over that name's columns. *)
Lemma decode_contiguous_bases {A} (column_names : list string) (data : ndarray A) :
  column_names ≠ [] →
  contiguous (base <$> column_names) →
  sliced_axis_len data = Some (length column_names) →
  ∃ out, stan_to_dict_numpy column_names data = Ok out
    ∧ out.*1 = Some <$> distinct (base <$> column_names)
    ∧ Forall2 (λ kv b,
        let bases := base <$> column_names in
        let i := first_index b bases in
        let n := occurrences b bases in
        kv.1 = Some b
        ∧ take_slice data i (i + n) = Ok kv.2
        ∧ (∀ j, bases !! j = Some b ↔ i ≤ j < i + n)
        ∧ shape kv.2 = with_sliced_axis (shape data) n
        ∧ sliced_axis_len kv.2 = Some n)
      out (distinct (base <$> column_names)).
Proof.
  intros Hne Hc Hlen. destruct column_names as [|c cols]; [done|]. clear Hne.
  assert (Hshape : shape data ≠ []).
  { intros Hs. unfold sliced_axis_len in Hlen. by rewrite Hs in Hlen. }
  rewrite stan_to_dict_numpy_runs.
  change (base <$> c :: cols) with (base c :: (base <$> cols)) in *.
  assert (Hcols : length (base c :: (base <$> cols)) = length (c :: cols)).
  { simpl. by rewrite length_fmap. }
  rewrite <- Hcols in Hlen. clear Hcols.
  generalize dependent (base <$> cols). generalize (base c). clear c cols.
  intros p bs Hc Hlen.
  pose proof (heads_NoDup_of_contiguous _ _ Hc) as Hnd.
  set (rs := runs_from p 0 1 bs).
  destruct (close_runs_ok data rs [] Hshape) as (vs & Hvs & Hall).
  { unfold rs. by rewrite runs_from_names. }
  { intros r _. apply not_elem_of_nil. }
  assert (Hpos : Forall (λ r,
      r.1.2 = first_index r.1.1 (p :: bs)
      ∧ r.2 = r.1.2 + occurrences r.1.1 (p :: bs)
      ∧ r.1.1 ∈ p :: bs) rs).
  { apply Forall_forall. intros r Hr.
    destruct (runs_from_positions p 0 1 bs r) as [H1 H2]; [lia|done|done|].
    split_and!; [done|done|].
    apply elem_of_cons, elem_of_heads. rewrite <- (runs_from_names _ 0 1).
    apply list_elem_of_fmap. exists r.1. split; [done|].
    apply list_elem_of_fmap. by exists r. }
  pose proof (Forall2_with_right _ _ _ _ Hall Hpos) as Hboth.
  assert (Hkeys : distinct (p :: bs) = rs.*1.*1).
  { unfold rs. rewrite runs_from_names. symmetry. by apply heads_distinct. }
  exists vs. split; [done|].
  rewrite Hkeys. split.
  - clear -Hall. induction Hall as [|kv r vs rs [Hk _] _ IH]; [done|].
    rewrite !fmap_cons. by rewrite Hk, IH.
  - rewrite !Forall2_fmap_r. eapply Forall2_impl; [exact Hboth|].
    intros kv r [[Hk Hv] (Hs & He & Hin)]. unfold compose. cbv beta zeta.
    pose proof (first_index_occurrences_le r.1.1 (p :: bs)) as Hle.
    rewrite <- Hs, <- He. split_and!; [done|done| | |].
    + intros j. rewrite He, Hs. by apply contiguous_run_exact.
    + rewrite (take_slice_shape data r.1.2 r.2 _ kv.2 Hlen Hv). f_equal. lia.
    + rewrite (take_slice_axis_len data r.1.2 r.2 _ kv.2 Hlen Hv). f_equal. lia.
Qed.

(** C1, amended.  For every non-empty sequence of column names as the
    engine writes them (bare, [name.index] or [name[index]]) in which the
    columns sharing a base name (the prefix before the first ['.'] or ['[']) are
    contiguous, and every buffer whose sliced axis (axis 1 with two axes or
    more, axis 0 for a vector) has one entry per column,
    [stan_to_dict_numpy] returns a mapping whose keys, in insertion order,
    are the distinct base names in order of first occurrence; the value
    under a name is the slice from the name's first column over as many
    columns as carry the name, these are exactly the columns carrying it,
    and the value has the shape of the buffer with the sliced axis resized
    to that number. *)
Theorem stan_to_dict_numpy_contiguous {A} (column_names : list string) (data : ndarray A) :
  column_names ≠ [] →
  Forall plain_name column_names →
  contiguous (prefix_before_delimiter <$> column_names) →
  sliced_axis_len data = Some (length column_names) →
  ∃ out, stan_to_dict_numpy column_names data = Ok out
    ∧ out.*1 = Some <$> distinct (prefix_before_delimiter <$> column_names)
    ∧ Forall2 (λ kv b,
        let names := prefix_before_delimiter <$> column_names in
        let i := first_index b names in
        let n := occurrences b names in
        kv.1 = Some b
        ∧ take_slice data i (i + n) = Ok kv.2
        ∧ (∀ j, names !! j = Some b ↔ i ≤ j < i + n)
        ∧ shape kv.2 = with_sliced_axis (shape data) n
        ∧ sliced_axis_len kv.2 = Some n)
      out (distinct (prefix_before_delimiter <$> column_names)).
Proof.
  intros Hne Hplain.
  assert (Hbase : prefix_before_delimiter <$> column_names = base <$> column_names).
  { clear Hne. induction Hplain as [|c cols Hc _ IH]; [done|].
    rewrite !fmap_cons, IH. by rewrite base_plain_name. }
  rewrite Hbase. by apply decode_contiguous_bases.
Qed.

Lemma stan_to_dict_numpy_contiguous_witness :
  let column_names := ["k"; "delta[1]"; "delta[2]"; "beta.1"] in
  let data := mk_ndarray [2; 4] [10; 11; 12; 13; 20; 21; 22; 23] in
  ∃ out, stan_to_dict_numpy column_names data = Ok out
    ∧ out.*1 = [Some "k"; Some "delta"; Some "beta"].
Proof.
  intros column_names data.
  destruct (stan_to_dict_numpy_contiguous column_names data)
    as (out & Hout & Hkeys & _).
  - discriminate.
  - repeat constructor; by left.
  - apply (contiguous_of_heads_NoDup "k" ["delta"; "delta"; "beta"]).
    apply (bool_decide_unpack _). vm_compute. exact I.
  - reflexivity.
  - exists out. split; [exact Hout|exact Hkeys].
Defined.

(** C1 as stated fails on the empty sequence: it is contiguous, a buffer of
    shape [(0,)] has one entry per column, there is no base name, and yet
    the mapping returned has a key. *)
Lemma stan_to_dict_numpy_contiguous_fails_on_empty :
  let column_names : list string := [] in
  let data : ndarray Z := mk_ndarray [0] [] in
  Forall plain_name column_names
  ∧ contiguous (prefix_before_delimiter <$> column_names)
  ∧ sliced_axis_len data = Some (length column_names)
  ∧ ¬ ∃ out, stan_to_dict_numpy column_names data = Ok out
           ∧ out.*1 = Some <$> distinct (prefix_before_delimiter <$> column_names).
Proof.
  intros column_names data. split_and!.
  - constructor.
  - intros i j k x y _ Hi. done.
  - reflexivity.
  - intros (out & Hout & Hkeys). vm_compute in Hout.
    injection Hout as <-. discriminate Hkeys.
Qed.

Lemma runs_from_cons p s e bs : ∃ r rs, runs_from p s e bs = r :: rs.
Proof.
  revert p s e. induction bs as [|b bs IH]; intros p s e; simpl; [by eexists _, _|].
  case_bool_decide; [apply IH|by eexists _, _].
Qed.

(** A 0-d buffer cannot be sliced: the first run to be closed stops the
    call. *)
Lemma close_runs_scalar_buffer {A} (data : ndarray A) p s e bs :
  shape data = [] →
  close_runs data (runs_from p s e bs) []
  = Raise (IndexError "too many indices for array").
Proof.
  intros Hshape. destruct (runs_from_cons p s e bs) as (r & rs & ->).
  unfold close_runs, close_run, od_contains, take_slice, ndim, slice_axis0.
  cbn [for_each output prev start end_]. rewrite Hshape.
  rewrite (bool_decide_false (_ ∈ _)) by apply not_elem_of_nil. done.
Qed.

(** C2. When a base name (as the decoder splits it off) comes back after a
    different base name, decoding returns no mapping: it raises, and over
    any buffer that has an axis to slice what it raises is the run-time
    error "Found repeated column name". *)
Theorem stan_to_dict_numpy_repeated {A} (column_names : list string) (data : ndarray A) :
  reappears (base <$> column_names) →
  (∃ e, stan_to_dict_numpy column_names data = Raise e)
  ∧ (shape data ≠ [] →
     stan_to_dict_numpy column_names data
     = Raise (RuntimeError "Found repeated column name")).
Proof.
  intros Hre. destruct column_names as [|c cols].
  { destruct Hre as (i & j & k & x & y & _ & Hi & _). done. }
  rewrite stan_to_dict_numpy_runs.
  assert (Hrep : shape data ≠ [] →
    close_runs data (runs_from (base c) 0 1 (base <$> cols)) []
    = Raise (RuntimeError "Found repeated column name")).
  { intros Hshape. apply close_runs_repeated; [done|].
    left. rewrite runs_from_names. intros Hnd.
    apply (reappears_not_contiguous _ Hre).
    by apply contiguous_of_heads_NoDup. }
  split; [|exact Hrep].
  destruct (decide (shape data = [])) as [Hs|Hs].
  - eexists. by apply close_runs_scalar_buffer.
  - eexists. by apply Hrep.
Qed.

Lemma stan_to_dict_numpy_repeated_witness :
  stan_to_dict_numpy ["delta[1]"; "beta[1]"; "delta[2]"] (mk_ndarray [3] [1; 2; 3])
  = Raise (RuntimeError "Found repeated column name").
Proof.
  apply stan_to_dict_numpy_repeated.
  - exists 0, 1, 2, "delta", "beta". split_and!; try lia; try reflexivity. discriminate.
  - discriminate.
Defined.

Lemma slice_axis1_empty_buffer {A} (buf : list A) d0 k (f : nat → nat) :
  mjoin ((λ i, take 0 (drop (f i) buf)) <$> seq k d0) = [].
Proof. revert k. induction d0 as [|d0 IH]; intros k; simpl; [done|apply IH]. Qed.

(** C10. On an empty column list the decoder does not return an empty
    mapping: over a buffer that has an axis to slice, it returns exactly one
    entry, stored under the key [None], whose value is the empty slice
    [0:0] of the buffer. *)
Theorem stan_to_dict_numpy_empty {A} (data : ndarray A) :
  shape data ≠ [] →
  ∃ v, stan_to_dict_numpy [] data = Ok [(None, v)]
     ∧ take_slice data 0 0 = Ok v
     ∧ buffer v = []
     ∧ sliced_axis_len v = Some 0.
Proof.
  intros Hshape. unfold stan_to_dict_numpy, close_run, od_contains. simpl.
  unfold take_slice, ndim, slice_axis0, slice_axis1, sliced_axis_len.
  destruct (shape data) as [|d0 [|d1 rest]]; [done| |]; simpl.
  - eexists. split_and!; reflexivity.
  - eexists. split_and!; try reflexivity. simpl.
    apply (slice_axis1_empty_buffer (buffer data) d0 0 (λ i, (i * d1 + 0) * prod_list rest)).
Qed.

Lemma stan_to_dict_numpy_empty_witness :
  stan_to_dict_numpy [] (mk_ndarray [2; 3] [1; 2; 3; 4; 5; 6])
  = Ok [(None, mk_ndarray [2; 0] [])].
Proof.
  destruct (stan_to_dict_numpy_empty (mk_ndarray [2; 3] [1; 2; 3; 4; 5; 6]))
    as (v & Hv & Hslice & _).
  - discriminate.
  - rewrite Hv. vm_compute in Hslice. by injection Hslice as <-.
Defined.

(** ** The simplifier writes only to the dictionary it creates *)

Import PyHeap Simplifier.

Section SimplifierFrame.
Context {A : Type}.
Implicit Types (h : heap A) (out l : loc).

Lemma preserved_refl out h : preserved out h h.
Proof. by split. Qed.

Lemma preserved_trans out h1 h2 h3 :
  preserved out h1 h2 → preserved out h2 h3 → preserved out h1 h3.
Proof.
  intros [Ha1 Hd1] [Ha2 Hd2]. split; [by etrans|].
  intros l Hl. by rewrite Hd2, Hd1.
Qed.

Lemma stable_ret {X} out (x : X) : stable (A:=A) out (py_ret x).
Proof. intros h. apply preserved_refl. Qed.

Lemma stable_lift {X} out (r : result X) : stable (A:=A) out (py_lift r).
Proof. intros h. apply preserved_refl. Qed.

Lemma stable_bind {X Y} out (m : py A X) (f : X → py A Y) :
  stable (A:=A) out m → (∀ x, stable (A:=A) out (f x)) → stable (A:=A) out (py_bind m f).
Proof.
  intros Hm Hf h. unfold py_bind. specialize (Hm h).
  destruct (m h) as [[x|e] h1]; simpl in *; [|done].
  eapply preserved_trans; [exact Hm|apply Hf].
Qed.

Lemma stable_get_array out l : stable (A:=A) out (get_array l).
Proof. intros h. unfold get_array. destruct (arrays h !! l); apply preserved_refl. Qed.

Lemma stable_get_dict out l : stable (A:=A) out (get_dict l).
Proof. intros h. unfold get_dict. destruct (dicts h !! l); apply preserved_refl. Qed.

Lemma stable_alloc_array out a : stable (A:=A) out (alloc_array a).
Proof.
  intros h. split; simpl; [|done].
  apply insert_subseteq, not_elem_of_dom, is_fresh.
Qed.

Lemma stable_dict_getitem out l k : stable (A:=A) out (dict_getitem l k).
Proof.
  apply stable_bind; [apply stable_get_dict|].
  intros d. destruct (assoc k d); [apply stable_ret|apply stable_lift].
Qed.

(** The one write: it goes to the dictionary named. *)
Lemma stable_dict_setitem out k v : stable (A:=A) out (dict_setitem out k v).
Proof.
  apply stable_bind; [apply stable_get_dict|].
  intros d h. split; simpl; [done|].
  intros l Hl. by rewrite lookup_insert_ne.
Qed.

Lemma stable_for {X} out (xs : list X) (body : X → py A ()) :
  (∀ x, stable (A:=A) out (body x)) → stable (A:=A) out (py_for xs body).
Proof.
  intros Hbody. induction xs as [|x xs IH]; simpl; [apply stable_ret|].
  apply stable_bind; [apply Hbody|done].
Qed.

Lemma stable_reshape_entry out par newshape :
  stable (A:=A) out (reshape_entry out par newshape).
Proof.
  unfold reshape_entry.
  apply stable_bind; [apply stable_dict_getitem|intros l].
  apply stable_bind; [apply stable_get_array|intros a].
  apply stable_bind; [apply stable_lift|intros r].
  apply stable_bind; [apply stable_alloc_array|intros l'].
  apply stable_dict_setitem.
Qed.

Lemma stable_simplify_entry out par : stable (A:=A) out (simplify_entry out par).
Proof.
  unfold simplify_entry.
  apply stable_bind; [apply stable_dict_getitem|intros l].
  apply stable_bind; [apply stable_get_array|intros a].
  apply stable_bind; [apply stable_lift|intros s1].
  apply stable_bind.
  - case_bool_decide; [|apply stable_ret].
    apply stable_bind; [apply stable_lift|intros s0].
    apply stable_reshape_entry.
  - intros _. destruct (_ && _); [apply stable_reshape_entry|apply stable_ret].
Qed.

Lemma simplify_mcmc_results_unfold (params : loc) h :
  simplify_mcmc_results params h
  = match dicts h !! params with
    | Some items =>
        let out := fresh (dom (dicts h)) in
        simplify_loop out (mk_heap (arrays h) (<[out := dict_of_items items]> (dicts h)))
    | None => (Raise (SystemError "dangling dict reference"), h)
    end.
Proof.
  unfold simplify_mcmc_results, py_bind at 1, get_dict at 1.
  by destruct (dicts h !! params).
Qed.

Lemma stable_simplify_loop out : stable (A:=A) out (simplify_loop out).
Proof.
  apply stable_bind.
  - apply stable_bind; [apply stable_get_dict|intros; apply stable_ret].
  - intros keys. apply stable_bind; [|intros; apply stable_ret].
    apply stable_for. intros par. apply stable_simplify_entry.
Qed.

Lemma simplify_loop_returns out h out' :
  (simplify_loop out h).1 = Ok out' → out' = out.
Proof.
  unfold simplify_loop, py_bind.
  repeat (match goal with |- context [match ?m with _ => _ end] =>
            destruct m as [[?|?] ?] end; simpl); congruence.
Qed.

(** Whatever the call does, raise or return: every dictionary and every
    array object of the heap it started from is as it was, and a returned
    dictionary is a new object. *)
Lemma simplify_mcmc_results_heap (params : loc) h :
  (∀ l d, dicts h !! l = Some d → dicts (simplify_mcmc_results params h).2 !! l = Some d)
  ∧ arrays h ⊆ arrays (simplify_mcmc_results params h).2
  ∧ (∀ out, (simplify_mcmc_results params h).1 = Ok out → dicts h !! out = None).
Proof.
  rewrite simplify_mcmc_results_unfold.
  destruct (dicts h !! params) as [items|] eqn:Hp; simpl;
    [|split_and!; [done|reflexivity|done]].
  set (out := fresh (dom (dicts h))).
  set (h1 := mk_heap (arrays h) (<[out := dict_of_items items]> (dicts h))).
  assert (Hout : dicts h !! out = None) by apply not_elem_of_dom, is_fresh.
  destruct (stable_simplify_loop out h1) as [Harr Hdict]. split_and!.
  - intros l d Hl. rewrite Hdict by congruence.
    simpl. rewrite lookup_insert_ne by congruence. done.
  - exact Harr.
  - intros out' Hret. by apply simplify_loop_returns in Hret as ->.
Qed.

End SimplifierFrame.

(** ** What the simplifier does to one entry *)

Section SimplifierEntry.
Context {A : Type}.
Implicit Types (h : heap A) (a : ndarray A).

Lemma reshape_vector a n :
  shape a = [n; 1] →
  reshape a [Z.of_nat n] = Ok (mk_ndarray [n] (buffer a)).
Proof.
  intros Hs. unfold reshape, size. rewrite Hs.
  assert (Hn : Z.of_nat n ≠ (-1)%Z) by lia.
  rewrite (filter_cons_False (λ d, d = (-1)%Z)) by done.
  rewrite (filter_cons_True (λ d, d ≠ (-1)%Z)) by done.
  rewrite !filter_nil.
  rewrite bool_decide_false.
  2:{ intros [H|H]%Exists_cons; [lia|by apply Exists_nil in H]. }
  simpl. rewrite Nat2Z.id.
  rewrite bool_decide_true by lia. done.
Qed.

(** An entry whose array has shape [(n, 1)] is rebound to a new array of
    shape [(n,)] over the same buffer.  This holds for every key: for
    ["delta"] and ["beta"] too, the test [len(s) < 2] reads the shape taken
    before the reshape. *)
Lemma simplify_entry_squeezes h out par items l a n :
  dicts h !! out = Some items →
  assoc par items = Some l →
  arrays h !! l = Some a →
  shape a = [n; 1] →
  simplify_entry out par h
  = (Ok (), mk_heap (<[fresh (dom (arrays h)) := mk_ndarray [n] (buffer a)]> (arrays h))
                    (<[out := assoc_set par (fresh (dom (arrays h))) items]> (dicts h))).
Proof.
  intros Hd Hk Ha Hs.
  unfold simplify_entry, reshape_entry, dict_getitem, dict_setitem, get_dict,
    get_array, alloc_array, py_bind, py_lift, py_ret, tuple_item.
  rewrite Hd, Hk. simpl. rewrite Ha, Hs. simpl.
  rewrite Hd, Hk. simpl. rewrite Ha. rewrite (reshape_vector a n Hs). simpl.
  rewrite Hd. rewrite andb_false_r. done.
Qed.

(** An entry whose array has fewer than two axes stops the call at
    [s[1]]; nothing has been written. *)
Lemma simplify_entry_vector_raises h out par items l a :
  dicts h !! out = Some items →
  assoc par items = Some l →
  arrays h !! l = Some a →
  length (shape a) < 2 →
  simplify_entry out par h = (Raise (IndexError "tuple index out of range"), h).
Proof.
  intros Hd Hk Ha Hs.
  unfold simplify_entry, dict_getitem, get_dict, get_array, py_bind, py_lift,
    py_ret, tuple_item.
  rewrite Hd, Hk. simpl. rewrite Ha.
  rewrite (lookup_ge_None_2 (shape a) 1) by lia. done.
Qed.

End SimplifierEntry.

(** C9. [simplify_mcmc_results] leaves its argument as it was: after the
    call, whether it returned or raised, the input dictionary holds the same
    keys bound to the same array objects, these arrays have the shape and
    buffer they had, and a returned dictionary is a new object, distinct from
    the input; every rebinding went to it. *)
Theorem simplify_mcmc_results_frame {A} (params : loc) (h : heap A) (items : dict) :
  dicts h !! params = Some items →
  let run := simplify_mcmc_results params h in
  dicts run.2 !! params = Some items
  ∧ (∀ k l a, assoc k items = Some l → arrays h !! l = Some a →
              arrays run.2 !! l = Some a)
  ∧ (∀ out, run.1 = Ok out → out ≠ params ∧ dicts h !! out = None).
Proof.
  intros Hp run. destruct (simplify_mcmc_results_heap params h) as (Hd & Ha & Hnew).
  split_and!.
  - by apply Hd.
  - intros k l a _ Hl. by eapply lookup_weaken.
  - intros out Hout. specialize (Hnew out Hout). split; [congruence|done].
Qed.

Lemma simplify_mcmc_results_frame_witness :
  let h : heap nat :=
    mk_heap {[ 0 := mk_ndarray [3; 1] [1; 2; 3]; 1 := mk_ndarray [3; 2] [1; 2; 3; 4; 5; 6] ]}
            {[ 0 := [(Some "k", 0); (Some "beta", 1)] ]} in
  dicts h !! 0 = Some [(Some "k", 0); (Some "beta", 1)]
  ∧ dicts (simplify_mcmc_results 0 h).2 !! 0 = Some [(Some "k", 0); (Some "beta", 1)].
Proof.
  intros h.
  assert (Hp : dicts h !! 0 = Some [(Some "k", 0); (Some "beta", 1)]) by reflexivity.
  split; [exact Hp|].
  exact (proj1 (simplify_mcmc_results_frame 0 h _ Hp)).
Defined.

(** C3, as the code behaves.  For an entry named ["delta"] or ["beta"]:
    an array of shape [(n, 1)] comes back with the single axis [(n,)], not
    with two axes; and a 1-D array does not come back at all, the call raises
    [IndexError] at [s[1]].  The branch that would restore the trailing axis
    tests the shape read before the reshape, so it never runs. *)
Theorem simplify_mcmc_results_delta_beta {A} (h : heap A) (out l : loc)
    (par : option string) (items : dict) (a : ndarray A) :
  par ∈ [Some "delta"; Some "beta"] →
  dicts h !! out = Some items →
  assoc par items = Some l →
  arrays h !! l = Some a →
  (∀ n, shape a = [n; 1] →
     ∃ l' h', simplify_entry out par h = (Ok (), h')
       ∧ (dicts h' !! out ≫= assoc par) = Some l'
       ∧ shape <$> arrays h' !! l' = Some [n])
  ∧ (length (shape a) < 2 →
     simplify_entry out par h = (Raise (IndexError "tuple index out of range"), h)).
Proof.
  intros _ Hd Hk Ha. split.
  - intros n Hs. eexists _, _. split; [by eapply simplify_entry_squeezes|].
    simpl. rewrite !lookup_insert_eq. simpl. split; [|done].
    clear -Hk. induction items as [|[k v] items IH]; [done|].
    simpl in *. case_bool_decide; simpl.
    + by rewrite bool_decide_true.
    + rewrite bool_decide_false by done. by apply IH.
  - by eapply simplify_entry_vector_raises.
Qed.

Lemma simplify_mcmc_results_delta_beta_witness :
  let h : heap nat :=
    mk_heap {[ 0 := mk_ndarray [3; 1] [1; 2; 3]; 1 := mk_ndarray [3] [1; 2; 3] ]}
            {[ 0 := [(Some "delta", 0)]; 1 := [(Some "delta", 1)] ]} in
  (∃ out h', simplify_mcmc_results 0 h = (Ok out, h')
     ∧ ((dicts h' !! out ≫= assoc (Some "delta")) ≫= λ l, shape <$> arrays h' !! l) = Some [3])
  ∧ (simplify_mcmc_results 1 h).1 = Raise (IndexError "tuple index out of range")
  ∧ simplify_entry 1 (Some "delta") h = (Raise (IndexError "tuple index out of range"), h).
Proof.
  intros h. split_and!.
  - eexists _, _. split; [vm_compute; reflexivity|vm_compute; reflexivity].
  - vm_compute. reflexivity.
  - apply (simplify_mcmc_results_delta_beta h 1 1 (Some "delta") [(Some "delta", 1)]
             (mk_ndarray [3] [1; 2; 3])).
    + left.
    + reflexivity.
    + reflexivity.
    + reflexivity.
    + simpl. lia.
Defined.

(** ** The custom-init sanitizer *)

Import Sanitizer.

Section SanitizerFacts.
Context {F : Type} (float_of_int : Z → option F) (float_of_str : string → option F).
Implicit Types (default_inits custom_inits sanitized : @inits F).

Abbreviation sanitize_scalar := (sanitize_scalar float_of_int float_of_str).
Abbreviation py_float := (py_float float_of_int float_of_str).
Abbreviation scalar_init := (scalar_init float_of_int float_of_str).

Lemma sanitize_scalar_ok default_inits custom_inits sanitized param :
  is_Some (default_inits !! param) →
  ∃ v, scalar_init default_inits custom_inits param = Some v
     ∧ sanitize_scalar default_inits custom_inits sanitized param
       = Ok (<[param := v]> sanitized).
Proof.
  intros [d Hd]. unfold sanitize_scalar, scalar_init, getitem.
  destruct (py_float _) as [f|e]; [by eexists|].
  rewrite Hd. by eexists.
Qed.

(** The first loop never raises when the defaults are there: a value
    that [float] rejects is replaced by the default. *)
Lemma sanitize_scalars_ok default_inits custom_inits :
  (∀ p, p ∈ ["k"; "m"; "sigma_obs"] → is_Some (default_inits !! p)) →
  ∃ vk vm vs,
    scalar_init default_inits custom_inits "k" = Some vk
    ∧ scalar_init default_inits custom_inits "m" = Some vm
    ∧ scalar_init default_inits custom_inits "sigma_obs" = Some vs
    ∧ for_each (sanitize_scalar default_inits custom_inits) ["k"; "m"; "sigma_obs"] ∅
      = Ok (<["sigma_obs" := vs]> (<["m" := vm]> (<["k" := vk]> ∅))).
Proof.
  intros Hdef. cbn [for_each].
  destruct (sanitize_scalar_ok default_inits custom_inits ∅ "k")
    as (vk & Hk & ->); [apply Hdef; set_solver|].
  cbn [mbind result_bind].
  destruct (sanitize_scalar_ok default_inits custom_inits (<["k" := vk]> ∅) "m")
    as (vm & Hm & ->); [apply Hdef; set_solver|].
  cbn [mbind result_bind].
  destruct (sanitize_scalar_ok default_inits custom_inits
              (<["m" := vm]> (<["k" := vk]> ∅)) "sigma_obs")
    as (vs & Hs & ->); [apply Hdef; set_solver|].
  cbn [mbind result_bind]. by exists vk, vm, vs.
Qed.

Lemma sanitize_vector_arrays default_inits custom_inits sanitized param d c :
  default_inits !! param = Some (PyArray d) →
  custom_inits !! param = Some (PyArray c) →
  sanitize_vector default_inits custom_inits sanitized param
  = Ok (<[param := PyArray (if bool_decide (shape d = shape c) then c else d)]> sanitized).
Proof.
  intros Hd Hc. unfold sanitize_vector, getitem. rewrite Hd, Hc. simpl.
  by case_bool_decide.
Qed.

Lemma sanitize_vector_missing default_inits custom_inits sanitized param d :
  default_inits !! param = Some (PyArray d) →
  custom_inits !! param = None →
  sanitize_vector default_inits custom_inits sanitized param = Raise (KeyError param).
Proof. intros Hd Hc. unfold sanitize_vector, getitem. by rewrite Hd, Hc. Qed.

Lemma sanitize_vector_not_array default_inits custom_inits sanitized param d v :
  default_inits !! param = Some (PyArray d) →
  custom_inits !! param = Some v →
  (∀ a, v ≠ PyArray a) →
  sanitize_vector default_inits custom_inits sanitized param
  = Raise (AttributeError ("'" +:+ type_name v +:+ "' object has no attribute 'shape'")).
Proof.
  intros Hd Hc Hv. unfold sanitize_vector, getitem. rewrite Hd, Hc. simpl.
  destruct v; try done. by destruct (Hv a).
Qed.

End SanitizerFacts.

(** The vector loop when it goes through: with arrays supplied for both
    ["delta"] and ["beta"] (and the defaults complete),
    [sanitize_custom_inits] returns, and under each of the two names the
    result holds the caller's array, as supplied, exactly when its shape
    equals the shape of the default array, and the default array, as it is,
    when the shapes differ. *)
Theorem sanitize_custom_inits_vectors {F : Type}
    (float_of_int : Z → option F) (float_of_str : string → option F)
    (default_inits custom_inits : @inits F) (dd db cd cb : Numpy.ndarray F) :
  (∀ p, p ∈ ["k"; "m"; "sigma_obs"] → is_Some (default_inits !! p)) →
  default_inits !! "delta" = Some (PyArray dd) →
  default_inits !! "beta" = Some (PyArray db) →
  custom_inits !! "delta" = Some (PyArray cd) →
  custom_inits !! "beta" = Some (PyArray cb) →
  ∃ sanitized,
    sanitize_custom_inits float_of_int float_of_str default_inits custom_inits
    = Ok sanitized
    ∧ (shape cd = shape dd → sanitized !! "delta" = Some (PyArray cd))
    ∧ (shape cd ≠ shape dd → sanitized !! "delta" = Some (PyArray dd))
    ∧ (shape cb = shape db → sanitized !! "beta" = Some (PyArray cb))
    ∧ (shape cb ≠ shape db → sanitized !! "beta" = Some (PyArray db))
    ∧ (sanitized !! "delta" = Some (PyArray cd) ↔ shape cd = shape dd)
    ∧ (sanitized !! "beta" = Some (PyArray cb) ↔ shape cb = shape db).
Proof.
  intros Hdef Hdd Hdb Hcd Hcb. unfold sanitize_custom_inits.
  destruct (sanitize_scalars_ok float_of_int float_of_str default_inits custom_inits Hdef)
    as (vk & vm & vs & _ & _ & _ & ->).
  cbn [mbind result_bind for_each].
  rewrite (sanitize_vector_arrays _ _ _ _ dd cd Hdd Hcd). cbn [mbind result_bind].
  rewrite (sanitize_vector_arrays _ _ _ _ db cb Hdb Hcb). cbn [mbind result_bind].
  eexists. split; [reflexivity|]. unfold inits in *.
  rewrite lookup_insert_eq, lookup_insert_ne, lookup_insert_eq by done.
  repeat case_bool_decide; split_and!; try done; try congruence;
    split; try done; intros [= <-]; congruence.
Qed.

Lemma sanitize_custom_inits_vectors_witness :
  let default_inits : @inits Z :=
    {[ "k" := PyFloat 0%Z; "m" := PyFloat 0%Z; "sigma_obs" := PyFloat 1%Z;
       "delta" := PyArray (mk_ndarray [3] [0; 0; 0]%Z);
       "beta" := PyArray (mk_ndarray [2] [0; 0]%Z) ]} in
  let custom_inits : @inits Z :=
    {[ "k" := PyStr "fast";
       "delta" := PyArray (mk_ndarray [3] [1; 2; 3]%Z);
       "beta" := PyArray (mk_ndarray [4] [1; 2; 3; 4]%Z) ]} in
  ∃ sanitized,
    sanitize_custom_inits Some (λ _, None) default_inits custom_inits = Ok sanitized
    ∧ sanitized !! "delta" = Some (PyArray (mk_ndarray [3] [1; 2; 3]%Z))
    ∧ sanitized !! "beta" = Some (PyArray (mk_ndarray [2] [0; 0]%Z)).
Proof.
  intros default_inits custom_inits.
  destruct (sanitize_custom_inits_vectors Some (λ _, None) default_inits custom_inits
              (mk_ndarray [3] [0; 0; 0]%Z) (mk_ndarray [2] [0; 0]%Z)
              (mk_ndarray [3] [1; 2; 3]%Z) (mk_ndarray [4] [1; 2; 3; 4]%Z))
    as (sanitized & Hrun & Hd & _ & _ & Hb & _).
  - intros p Hp. apply (bool_decide_unpack _).
    repeat (apply elem_of_cons in Hp as [->|Hp]; [vm_compute; exact I|]).
    by apply elem_of_nil in Hp.
  - reflexivity.
  - reflexivity.
  - reflexivity.
  - reflexivity.
  - exists sanitized. split_and!; [exact Hrun|by apply Hd|by apply Hb].
Defined.

(** C4, as the code behaves.  The scalar loop absorbs every failure of
    [float], but the vector loop has no handler: with complete defaults, a
    custom-init mapping that lacks ["delta"] makes the call raise
    [KeyError], and one that binds ["delta"] to something that is not an
    array makes it raise [AttributeError]. *)
Theorem sanitize_custom_inits_raises {F : Type}
    (float_of_int : Z → option F) (float_of_str : string → option F)
    (default_inits custom_inits : @inits F) (dd : Numpy.ndarray F) :
  (∀ p, p ∈ ["k"; "m"; "sigma_obs"] → is_Some (default_inits !! p)) →
  default_inits !! "delta" = Some (PyArray dd) →
  (custom_inits !! "delta" = None →
     sanitize_custom_inits float_of_int float_of_str default_inits custom_inits
     = Raise (KeyError "delta"))
  ∧ (∀ v, custom_inits !! "delta" = Some v → (∀ a, v ≠ PyArray a) →
     sanitize_custom_inits float_of_int float_of_str default_inits custom_inits
     = Raise (AttributeError
                ("'" +:+ type_name v +:+ "' object has no attribute 'shape'"))).
Proof.
  intros Hdef Hdd. unfold sanitize_custom_inits.
  destruct (sanitize_scalars_ok float_of_int float_of_str default_inits custom_inits Hdef)
    as (vk & vm & vs & _ & _ & _ & ->).
  cbn [mbind result_bind for_each]. split.
  - intros Hc. by rewrite (sanitize_vector_missing _ _ _ _ dd Hdd Hc).
  - intros v Hc Hv. by rewrite (sanitize_vector_not_array _ _ _ _ dd v Hdd Hc Hv).
Qed.

Lemma sanitize_custom_inits_raises_witness :
  let default_inits : @inits Z :=
    {[ "k" := PyFloat 0%Z; "m" := PyFloat 0%Z; "sigma_obs" := PyFloat 1%Z;
       "delta" := PyArray (mk_ndarray [3] [0; 0; 0]%Z);
       "beta" := PyArray (mk_ndarray [2] [0; 0]%Z) ]} in
  sanitize_custom_inits Some (λ _, None) default_inits {[ "k" := PyStr "fast" ]}
  = Raise (KeyError "delta")
  ∧ sanitize_custom_inits Some (λ _, None) default_inits
      {[ "delta" := PyList [PyInt 1; PyInt 2; PyInt 3] ]}
    = Raise (AttributeError "'list' object has no attribute 'shape'").
Proof.
  intros default_inits.
  assert (Hdef : ∀ p, p ∈ ["k"; "m"; "sigma_obs"] → is_Some (default_inits !! p)).
  { intros p Hp. apply (bool_decide_unpack _).
    repeat (apply elem_of_cons in Hp as [->|Hp]; [vm_compute; exact I|]).
    by apply elem_of_nil in Hp. }
  split.
  - apply (proj1 (sanitize_custom_inits_raises Some (λ _, None) default_inits
                    {[ "k" := PyStr "fast" ]} (mk_ndarray [3] [0; 0; 0]%Z) Hdef eq_refl)).
    reflexivity.
  - apply (proj2 (sanitize_custom_inits_raises Some (λ _, None) default_inits
                    {[ "delta" := PyList [PyInt 1; PyInt 2; PyInt 3] ]}
                    (mk_ndarray [3] [0; 0; 0]%Z) Hdef eq_refl)
             (PyList [PyInt 1; PyInt 2; PyInt 3])).
    + reflexivity.
    + discriminate.
Defined.

(** C5, as the code behaves.  The shape test is made on each of the two
    vectors with no handler around it, so what is returned for one vector
    depends on the other being there: with complete defaults, a custom init
    that supplies an array for ["delta"] only makes the call raise
    [KeyError] for ["beta"], and one that supplies an array for ["beta"]
    only makes it raise [KeyError] for ["delta"], whatever the shapes.
    Nothing is returned, neither the caller's array nor the default. *)
Theorem sanitize_custom_inits_vector_alone {F : Type}
    (float_of_int : Z → option F) (float_of_str : string → option F)
    (default_inits custom_inits : @inits F) (dd db c : Numpy.ndarray F) :
  (∀ p, p ∈ ["k"; "m"; "sigma_obs"] → is_Some (default_inits !! p)) →
  default_inits !! "delta" = Some (PyArray dd) →
  default_inits !! "beta" = Some (PyArray db) →
  (custom_inits !! "delta" = Some (PyArray c) → custom_inits !! "beta" = None →
     sanitize_custom_inits float_of_int float_of_str default_inits custom_inits
     = Raise (KeyError "beta"))
  ∧ (custom_inits !! "beta" = Some (PyArray c) → custom_inits !! "delta" = None →
     sanitize_custom_inits float_of_int float_of_str default_inits custom_inits
     = Raise (KeyError "delta")).
Proof.
  intros Hdef Hdd Hdb. unfold sanitize_custom_inits.
  destruct (sanitize_scalars_ok float_of_int float_of_str default_inits custom_inits Hdef)
    as (vk & vm & vs & _ & _ & _ & ->).
  cbn [mbind result_bind for_each]. split.
  - intros Hcd Hcb.
    rewrite (sanitize_vector_arrays _ _ _ _ dd c Hdd Hcd). cbn [mbind result_bind].
    by rewrite (sanitize_vector_missing _ _ _ _ db Hdb Hcb).
  - intros _ Hcd. by rewrite (sanitize_vector_missing _ _ _ _ dd Hdd Hcd).
Qed.

Lemma sanitize_custom_inits_vector_alone_witness :
  let default_inits : @inits Z :=
    {[ "k" := PyFloat 0%Z; "m" := PyFloat 0%Z; "sigma_obs" := PyFloat 1%Z;
       "delta" := PyArray (mk_ndarray [3] [0; 0; 0]%Z);
       "beta" := PyArray (mk_ndarray [2] [0; 0]%Z) ]} in
  sanitize_custom_inits Some (λ _, None) default_inits
    {[ "delta" := PyArray (mk_ndarray [3] [1; 2; 3]%Z) ]}
  = Raise (KeyError "beta")
  ∧ sanitize_custom_inits Some (λ _, None) default_inits
      {[ "beta" := PyArray (mk_ndarray [4] [1; 2; 3; 4]%Z) ]}
    = Raise (KeyError "delta").
Proof.
  intros default_inits.
  assert (Hdef : ∀ p, p ∈ ["k"; "m"; "sigma_obs"] → is_Some (default_inits !! p)).
  { intros p Hp. apply (bool_decide_unpack _).
    repeat (apply elem_of_cons in Hp as [->|Hp]; [vm_compute; exact I|]).
    by apply elem_of_nil in Hp. }
  split.
  - apply (proj1 (sanitize_custom_inits_vector_alone Some (λ _, None) default_inits
                    {[ "delta" := PyArray (mk_ndarray [3] [1; 2; 3]%Z) ]}
                    (mk_ndarray [3] [0; 0; 0]%Z) (mk_ndarray [2] [0; 0]%Z)
                    (mk_ndarray [3] [1; 2; 3]%Z) Hdef eq_refl eq_refl));
      reflexivity.
  - apply (proj2 (sanitize_custom_inits_vector_alone Some (λ _, None) default_inits
                    {[ "beta" := PyArray (mk_ndarray [4] [1; 2; 3; 4]%Z) ]}
                    (mk_ndarray [3] [0; 0; 0]%Z) (mk_ndarray [2] [0; 0]%Z)
                    (mk_ndarray [4] [1; 2; 3; 4]%Z) Hdef eq_refl eq_refl));
      reflexivity.
Defined.

(** ** The registry *)

Import Registry.

(** The name a backend class reports is the name it is registered under. *)
Lemma get_backend_class_get_type (c : backend_class) :
  get_backend_class (get_type c) = Ok c.
Proof. by destruct c. Qed.

(** C7. Looking a backend up by name returns the class held by the member
    of that very name (["CMDSTANPY"] or ["NUMPYRO"], spelled so), and for
    every other string raises [ValueError] with the message
    ["Unknown stan backend: "] followed by the string given. *)
Theorem get_backend_class_lookup (name : string) :
  (∀ c, (name, c) ∈ members → get_backend_class name = Ok c)
  ∧ (name ∉ ["CMDSTANPY"; "NUMPYRO"] →
     get_backend_class name = Raise (ValueError ("Unknown stan backend: " +:+ name))).
Proof.
  split.
  - intros c Hc. unfold members in Hc.
    repeat (apply elem_of_cons in Hc as [[= -> ->]|Hc]; [reflexivity|]).
    by apply elem_of_nil in Hc.
  - intros Hname. apply not_elem_of_cons in Hname as [H1 Hname].
    apply not_elem_of_cons in Hname as [H2 _].
    unfold get_backend_class, enum_getitem, members, member_named.
    rewrite !bool_decide_false by done. done.
Qed.

Lemma get_backend_class_lookup_witness :
  get_backend_class "CMDSTANPY" = Ok CmdStanPyBackend
  ∧ get_backend_class "NUMPYRO" = Ok NumpyroBackend
  ∧ get_backend_class "cmdstanpy" = Raise (ValueError "Unknown stan backend: cmdstanpy").
Proof.
  split_and!.
  - apply (proj1 (get_backend_class_lookup "CMDSTANPY")). left.
  - apply (proj1 (get_backend_class_lookup "NUMPYRO")). right. left.
  - apply (proj2 (get_backend_class_lookup "cmdstanpy")). intros H.
    repeat (apply elem_of_cons in H as [H|H]; [discriminate H|]).
    by apply elem_of_nil in H.
Defined.

(** ** The drivers *)

Import Backends Toy.

Section DriverFacts.
Context {F InitsList DataList StanData Other : Type}.
Context (float_of_int : Z → option F) (float_of_str : string → option F).
Context (prepare_data : gmap string (pyval F) → StanData → result (InitsList * DataList)).
Context (data_T : DataList → Z).
Implicit Types (kwargs : gmap string (argv F InitsList DataList Other)).

Lemma custom_init_keeps kwargs stan_init stan_init' kwargs' k :
  custom_init float_of_int float_of_str stan_init kwargs = Ok (stan_init', kwargs') →
  k ≠ "init" → kwargs' !! k = kwargs !! k.
Proof.
  unfold custom_init. intros Hrun Hk.
  destruct (kwargs !! "inits"); [by injection Hrun as <- <-|].
  destruct (kwargs !! "init") as [v|]; [|by injection Hrun as <- <-].
  destruct v as [| | |custom| | |]; try done.
  destruct (sanitize_custom_inits float_of_int float_of_str stan_init custom); [|done].
  injection Hrun as <- <-. by rewrite lookup_delete_ne.
Qed.

Lemma prepare_keeps kwargs stan_init (stan_data : StanData) kwargs' il dl k :
  prepare float_of_int float_of_str prepare_data stan_init stan_data kwargs
  = Ok (kwargs', il, dl) →
  k ≠ "init" → kwargs' !! k = kwargs !! k.
Proof.
  unfold prepare. intros Hrun Hk.
  destruct (custom_init _ _ _ _) as [[i kw]|] eqn:Hci; [|done]. simpl in Hrun.
  destruct (prepare_data _ _) as [[il' dl']|]; [|done].
  injection Hrun as <- <- <-. by eapply custom_init_keeps.
Qed.

Lemma update_lookup_default kwargs (args : gmap string (argv F InitsList DataList Other)) k v :
  args !! k = Some v → (kwargs ∪ args) !! k = Some (default v (kwargs !! k)).
Proof.
  intros Hv. destruct (kwargs !! k) as [w|] eqn:Hk; simpl.
  - by apply lookup_union_Some_l.
  - by rewrite lookup_union_r.
Qed.

(** The strategy [fit] asks for first: the caller's, if the keywords name
    one, and otherwise chosen by the number of observations. *)
Lemma optimize_args_algorithm dl il kwargs :
  optimize_args data_T dl il kwargs !! "algorithm"
  = Some (default (AStr (if bool_decide (data_T dl < 100)%Z then "Newton" else "LBFGS"))
            (kwargs !! "algorithm")).
Proof. unfold optimize_args. by apply update_lookup_default. Qed.

Lemma is_newton_spec (x : argv F InitsList DataList Other) :
  is_newton x = true ↔ x = AStr "Newton".
Proof.
  destruct x; simpl; try (split; [done|discriminate]).
  rewrite bool_decide_eq_true. split; [by intros ->|by intros [= ->]].
Qed.

Lemma sample_args_counts dl il (samples : Z) kwargs :
  let args := sample_args dl il samples kwargs in
  args !! "chains" = Some (default (AInt 4) (kwargs !! "chains"))
  ∧ args !! "iter_sampling" = Some (AInt (samples `div` 2)%Z)
  ∧ args !! "iter_warmup"
    = Some (default (AInt (samples `div` 2)%Z) (kwargs !! "iter_warmup")).
Proof.
  unfold sample_args.
  set (kw1 := match kwargs !! "chains" with
              | None => <["chains" := AInt 4]> kwargs
              | Some _ => kwargs
              end).
  set (kw2 := <["iter_sampling" := AInt (samples `div` 2)%Z]> kw1).
  assert (Hw : kw2 !! "iter_warmup" = kwargs !! "iter_warmup").
  { unfold kw2, kw1. rewrite lookup_insert_ne by done.
    destruct (kwargs !! "chains"); [done|]. by rewrite lookup_insert_ne. }
  assert (Hc : kw2 !! "chains" = Some (default (AInt 4) (kwargs !! "chains"))).
  { unfold kw2, kw1. rewrite lookup_insert_ne by done.
    destruct (kwargs !! "chains") eqn:Hch; simpl; [done|]. by rewrite lookup_insert_eq. }
  rewrite Hw. cbv zeta.
  destruct (kwargs !! "iter_warmup") as [w|] eqn:Hkw; simpl; split_and!.
  - by apply lookup_union_Some_l.
  - apply lookup_union_Some_l. unfold kw2. by rewrite lookup_insert_eq.
  - by apply lookup_union_Some_l.
  - apply lookup_union_Some_l. by rewrite lookup_insert_ne.
  - apply lookup_union_Some_l. rewrite lookup_insert_ne by done.
    unfold kw2. by rewrite lookup_insert_eq.
  - apply lookup_union_Some_l. by rewrite lookup_insert_eq.
Qed.

Lemma numpyro_mcmc_args_counts (samples : Z) kwargs :
  ∃ mcmc, numpyro_mcmc_args samples (run_params kwargs) = Ok mcmc
    ∧ num_warmup mcmc = (samples `div` 2)%Z
    ∧ num_samples mcmc = (samples `div` 2)%Z
    ∧ num_chains mcmc = default (AInt 4) (kwargs !! "num_chains").
Proof.
  unfold numpyro_mcmc_args, run_param, run_params.
  rewrite (update_lookup_default kwargs _ "num_chains" (AInt 4)) by done.
  rewrite (update_lookup_default kwargs _ "chain_method" (AStr "sequential")) by done.
  rewrite (update_lookup_default kwargs _ "progress_bar" (ABool false)) by done.
  simpl. by eexists.
Qed.

End DriverFacts.

(** C6, amended.  Once the inputs are marshalled, [fit] first calls the
    engine with the strategy the caller's keywords name, if they name one,
    and otherwise with the one chosen by the number of observations
    (["Newton"] below 100, ["LBFGS"] from 100 on).  If that call succeeds its
    result is decoded and returned.  If it raises a run-time error while
    the fallback is disabled or the strategy was already ["Newton"], that
    same error comes out and the engine is not called again.  Otherwise one
    warning is logged and the engine is called exactly once more, with
    ["Newton"] and otherwise the same arguments; what comes out is the decoded
    result of that second call, or its exception. *)
Theorem fit_fallback {F InitsList DataList StanData Other : Type}
    (float_of_int : Z → option F) (float_of_str : string → option F)
    (prepare_data : gmap string (pyval F) → StanData → result (InitsList * DataList))
    (data_T : DataList → Z)
    (optimize : gmap string (argv F InitsList DataList Other) → result (optimize_result F))
    (self : backend F) (stan_init : gmap string (pyval F)) (stan_data : StanData)
    (kwargs kwargs' : gmap string (argv F InitsList DataList Other))
    (il : InitsList) (dl : DataList) :
  prepare float_of_int float_of_str prepare_data stan_init stan_data kwargs
  = Ok (kwargs', il, dl) →
  let args := optimize_args data_T dl il kwargs' in
  let newton := <["algorithm" := AStr "Newton"]> args in
  let run := fit float_of_int float_of_str prepare_data data_T optimize
               self stan_init stan_data kwargs in
  args !! "algorithm"
  = Some (default (AStr (if bool_decide (data_T dl < 100)%Z then "Newton" else "LBFGS"))
            (kwargs !! "algorithm"))
  ∧ (∀ r, optimize args = Ok r →
       run.1.1 = decode_point r ∧ run.2 = [CallOptimize args])
  ∧ (∀ e, optimize args = Raise e → is_runtime_error e = true →
       newton_fallback self = false ∨ args !! "algorithm" = Some (AStr "Newton") →
       run = (Raise e, self, [CallOptimize args]))
  ∧ (∀ e, optimize args = Raise e → is_runtime_error e = true →
       newton_fallback self = true → args !! "algorithm" ≠ Some (AStr "Newton") →
       run.2 = [CallOptimize args; LogWarning fit_warning; CallOptimize newton]
       ∧ newton !! "algorithm" = Some (AStr "Newton")
       ∧ run.1.1 = match optimize newton with
                   | Ok r => decode_point r
                   | Raise e' => Raise e'
                   end).
Proof.
  intros Hprep args newton run.
  assert (Halg : args !! "algorithm"
    = Some (default (AStr (if bool_decide (data_T dl < 100)%Z then "Newton" else "LBFGS"))
              (kwargs !! "algorithm"))).
  { unfold args. rewrite optimize_args_algorithm.
    by rewrite (prepare_keeps _ _ _ _ _ _ _ _ _ _ Hprep). }
  split; [exact Halg|].
  unfold run, fit. rewrite Hprep. fold args. split_and!.
  - intros r ->. done.
  - intros e -> ->. destruct (newton_fallback self) eqn:Hnf; simpl; [|done].
    intros [?|Hnewton]; [done|]. by rewrite Hnewton.
  - intros e -> -> -> Hother. simpl.
    destruct (args !! "algorithm") as [alg|] eqn:Ha; [|done].
    destruct (is_newton alg) eqn:Hn.
    { apply is_newton_spec in Hn as ->. done. }
    fold newton. split_and!.
    + by destruct (optimize newton).
    + unfold newton. by rewrite lookup_insert_eq.
    + by destruct (optimize newton).
Qed.

Lemma fit_fallback_witness :
  let args := optimize_args id 500%Z () (∅ : gmap string (argv Z unit Z unit)) in
  (toy_fit toy_optimize true 500 ∅).2
  = [CallOptimize args; LogWarning fit_warning;
     CallOptimize (<["algorithm" := AStr "Newton"]> args)].
Proof.
  intros args.
  assert (Hprep : prepare Some (λ _, None) toy_prepare ∅ 500%Z
                    (∅ : gmap string (argv Z unit Z unit)) = Ok (∅, (), 500%Z))
    by (vm_compute; reflexivity).
  destruct (fit_fallback Some (λ _, None) toy_prepare id toy_optimize
              (mk_backend None true) ∅ 500%Z ∅ ∅ () 500%Z Hprep)
    as (_ & _ & _ & Hretry).
  destruct (Hretry (RuntimeError "line search failed")) as (Hev & _ & _).
  - reflexivity.
  - reflexivity.
  - reflexivity.
  - vm_compute. discriminate.
  - exact Hev.
Defined.

(** C6 as stated fails when the caller names a strategy: with 10
    observations and [algorithm="LBFGS"] among the keywords, the one call
    to the engine asks for ["LBFGS"], not for the strategy of a small
    count. *)
Lemma fit_primary_not_by_count :
  let kwargs : gmap string (argv Z unit Z unit) := {[ "algorithm" := AStr "LBFGS" ]} in
  ¬ ∃ args, (toy_fit steady_optimize true 10 kwargs).2 = [CallOptimize args]
          ∧ args !! "algorithm"
            = Some (AStr (if bool_decide (10 < 100)%Z then "Newton" else "LBFGS")).
Proof.
  intros kwargs (args & Hev & Halg).
  vm_compute in Hev. injection Hev as <-.
  vm_compute in Halg. discriminate Halg.
Qed.

(** C8. For every requested total, with [half] the total halved and
    rounded down: once the inputs are marshalled, the CmdStanPy [sampling]
    calls the engine once, with 4 chains unless the caller's keywords give a
    chain count, with [half] post-warmup draws, and with [half] warmup draws
    unless the keywords give a warmup count, which is then used.  Every
    sampler the Numpyro [sampling] builds has [half] warmup and [half]
    post-warmup draws, and 4 chains unless the keywords give a chain count;
    and it builds one whenever the steps before [MCMC(...)] go through: the
    marshalling, the replication of the inits, the model and the kernel. *)
Theorem sampling_draw_counts {F InitsList DataList StanData Other : Type}
    {Model Kernel Sampler : Type}
    (float_of_int : Z → option F) (float_of_str : string → option F)
    (prepare_data prepare_data' :
       gmap string (pyval F) → StanData → result (InitsList * DataList))
    (sample : gmap string (argv F InitsList DataList Other) → result (sample_result F))
    (stack_inits : argv F InitsList DataList Other → InitsList → result InitsList)
    (get_model : StanData → result Model)
    (nuts : Model → argv F InitsList DataList Other → result Kernel)
    (new_mcmc : Kernel → mcmc_args → result Sampler)
    (run_mcmc : Sampler → argv F InitsList DataList Other → InitsList → DataList
                → result (@odict F))
    (self : backend F) (stan_init : gmap string (pyval F)) (stan_data : StanData)
    (samples : Z) (kwargs : gmap string (argv F InitsList DataList Other))
    (h : PyHeap.heap F) :
  let half := (samples `div` 2)%Z in
  let numpyro :=
    numpyro_sampling float_of_int float_of_str prepare_data'
      stack_inits get_model nuts new_mcmc run_mcmc
      stan_init stan_data samples kwargs h in
  (2 * half ≤ samples < 2 * half + 2)%Z
  ∧ (∀ kwargs' il dl,
       prepare float_of_int float_of_str prepare_data stan_init stan_data kwargs
       = Ok (kwargs', il, dl) →
       ∃ args,
         (sampling float_of_int float_of_str prepare_data sample
            self stan_init stan_data samples kwargs h).2 = [CallSample args]
         ∧ args !! "chains" = Some (default (AInt 4) (kwargs !! "chains"))
         ∧ args !! "iter_sampling" = Some (AInt half)
         ∧ args !! "iter_warmup" = Some (default (AInt half) (kwargs !! "iter_warmup")))
  ∧ (∀ mcmc, mcmc ∈ numpyro.2 →
       num_warmup mcmc = half
       ∧ num_samples mcmc = half
       ∧ num_chains mcmc = default (AInt 4) (kwargs !! "num_chains"))
  ∧ (∀ kwargs' il dl stacked model kernel,
       prepare float_of_int float_of_str prepare_data' stan_init stan_data kwargs
       = Ok (kwargs', il, dl) →
       stack_inits (default (AInt 4) (kwargs !! "num_chains")) il = Ok stacked →
       get_model stan_data = Ok model →
       nuts model (default (AInt 10) (kwargs !! "max_tree_depth")) = Ok kernel →
       ∃ mcmc, numpyro.2 = [mcmc]).
Proof.
  intros half numpyro. split; [|split; [|split]].
  - unfold half. pose proof (Z.div_mod samples 2). pose proof (Z.mod_pos_bound samples 2).
    lia.
  - intros kwargs' il dl Hprep.
    destruct (sample_args_counts dl il samples kwargs') as (Hc & Hs & Hw).
    rewrite (prepare_keeps _ _ _ _ _ _ _ _ _ "chains" Hprep) in Hc by done.
    rewrite (prepare_keeps _ _ _ _ _ _ _ _ _ "iter_warmup" Hprep) in Hw by done.
    exists (sample_args dl il samples kwargs'). split; [|done].
    unfold sampling. rewrite Hprep.
    destruct (sample _) as [r|e]; [|done].
    by destruct (_ ≫= _).
  - intros mcmc. unfold numpyro, numpyro_sampling.
    destruct (prepare _ _ _ _ _ _) as [[[kwargs' il] dl]|e] eqn:Hprep;
      [|by intros ?%elem_of_nil].
    destruct (numpyro_mcmc_args_counts samples kwargs') as (args & Hm & Hw & Hs & Hc).
    rewrite (prepare_keeps _ _ _ _ _ _ _ _ _ "num_chains" Hprep) in Hc by done.
    unfold numpyro_kernel.
    destruct (run_param _ "num_chains") as [chains|]; [|by intros ?%elem_of_nil].
    cbn [mbind result_bind].
    destruct (stack_inits _ _) as [stacked|]; [|by intros ?%elem_of_nil].
    cbn [mbind result_bind].
    destruct (get_model _) as [model|]; [|by intros ?%elem_of_nil].
    cbn [mbind result_bind].
    destruct (run_param _ "max_tree_depth") as [depth|]; [|by intros ?%elem_of_nil].
    cbn [mbind result_bind].
    destruct (nuts _ _) as [kernel|]; [|by intros ?%elem_of_nil].
    cbn [mbind result_bind]. rewrite Hm. cbn [mbind result_bind].
    destruct (new_mcmc _ _) as [sampler|]; [|by intros ->%list_elem_of_singleton].
    destruct (_ ≫= _) as [params|]; by intros ->%list_elem_of_singleton.
  - intros kwargs' il dl stacked model kernel Hprep Hstack Hmodel Hnuts.
    destruct (numpyro_mcmc_args_counts samples kwargs') as (args & Hm & _).
    assert (Hch : run_param (run_params kwargs') "num_chains"
                  = Ok (default (AInt 4) (kwargs !! "num_chains"))).
    { unfold run_param, run_params.
      rewrite (update_lookup_default kwargs' _ "num_chains" (AInt 4)) by done.
      by rewrite (prepare_keeps _ _ _ _ _ _ _ _ _ "num_chains" Hprep). }
    assert (Hdepth : run_param (run_params kwargs') "max_tree_depth"
                     = Ok (default (AInt 10) (kwargs !! "max_tree_depth"))).
    { unfold run_param, run_params.
      rewrite (update_lookup_default kwargs' _ "max_tree_depth" (AInt 10)) by done.
      by rewrite (prepare_keeps _ _ _ _ _ _ _ _ _ "max_tree_depth" Hprep). }
    exists args. unfold numpyro, numpyro_sampling, numpyro_kernel. rewrite Hprep.
    cbv zeta. rewrite Hch. cbn [mbind result_bind]. rewrite Hstack.
    cbn [mbind result_bind]. rewrite Hmodel. cbn [mbind result_bind].
    rewrite Hdepth. cbn [mbind result_bind]. rewrite Hnuts. cbn [mbind result_bind].
    rewrite Hm. cbn [mbind result_bind].
    destruct (new_mcmc _ _) as [sampler|]; [|done].
    by destruct (_ ≫= _).
Qed.

Lemma sampling_draw_counts_witness :
  let kwargs : gmap string (argv Z unit Z unit) := {[ "iter_warmup" := AInt 50 ]} in
  let args := sample_args 10%Z () 301%Z kwargs in
  let numpyro :=
    numpyro_sampling (Model:=unit) (Kernel:=unit) (Sampler:=unit)
      Some (λ _, None) toy_prepare
      (λ _ il, Ok il) (λ _, Ok ()) (λ _ _, Ok ()) (λ _ _, Ok ())
      (λ _ _ _ _, Raise (RuntimeError "no engine"))
      ∅ 10%Z 301%Z kwargs (mk_heap ∅ ∅) in
  (sampling Some (λ _, None) toy_prepare (λ _, Raise (RuntimeError "no engine"))
     (mk_backend None true) ∅ 10%Z 301%Z kwargs (mk_heap ∅ ∅)).2 = [CallSample args]
  ∧ args !! "chains" = Some (AInt 4)
  ∧ args !! "iter_sampling" = Some (AInt 150)
  ∧ args !! "iter_warmup" = Some (AInt 50)
  ∧ ∃ mcmc, numpyro.2 = [mcmc]
      ∧ num_warmup mcmc = 150%Z ∧ num_samples mcmc = 150%Z ∧ num_chains mcmc = AInt 4.
Proof.
  intros kwargs args numpyro.
  assert (Hprep : prepare Some (λ _, None) toy_prepare ∅ 10%Z kwargs = Ok (kwargs, (), 10%Z))
    by (vm_compute; reflexivity).
  destruct (sampling_draw_counts (Model:=unit) (Kernel:=unit) (Sampler:=unit)
              Some (λ _, None) toy_prepare toy_prepare
              (λ _, Raise (RuntimeError "no engine"))
              (λ _ il, Ok il) (λ _, Ok ()) (λ _ _, Ok ()) (λ _ _, Ok ())
              (λ _ _ _ _, Raise (RuntimeError "no engine"))
              (mk_backend None true) ∅ 10%Z 301%Z kwargs (mk_heap ∅ ∅))
    as (_ & Hcmd & Hcounts & Hbuilt).
  destruct (Hcmd kwargs () 10%Z Hprep) as (args' & Hev & _).
  destruct (Hbuilt kwargs () 10%Z () () () Hprep eq_refl eq_refl eq_refl) as (mcmc & Hm).
  split_and!; [|by vm_compute..|].
  - rewrite Hev. vm_compute in Hev. by injection Hev as <-.
  - exists mcmc. split; [exact Hm|].
    assert (Hin : mcmc ∈ [mcmc]) by (by apply list_elem_of_singleton).
    rewrite <- Hm in Hin. exact (Hcounts mcmc Hin).
Defined.

(** * Further properties *)

(** ** The decoder: when it returns, and what the slices add up to *)

Lemma runs_from_chained p s e bs :
  s ≤ e → chained s (runs_from p s e bs) (e + length bs).
Proof.
  revert p s e. induction bs as [|b bs IH]; intros p s e Hse; simpl.
  - split_and!; [done|done|lia].
  - case_bool_decide.
    + replace (e + S (length bs)) with (S e + length bs) by lia. apply IH. lia.
    + simpl. split_and!; [done|done|].
      replace (e + S (length bs)) with (S e + length bs) by lia. apply IH. lia.
Qed.

Lemma chained_le s rs t : chained s rs t → s ≤ t.
Proof.
  revert s. induction rs as [|r rs IH]; intros s; simpl; [lia|].
  intros (_ & Hle & Hrest). apply IH in Hrest. lia.
Qed.

Lemma chained_concat {A} (buf : list A) s rs t :
  chained s rs t →
  mjoin ((λ r, take (r.2 - r.1.2) (drop r.1.2 buf)) <$> rs) = take (t - s) (drop s buf).
Proof.
  revert s. induction rs as [|r rs IH]; intros s.
  - simpl. intros ->. by rewrite Nat.sub_diag.
  - intros (Hs & Hle & Hrest). pose proof (chained_le _ _ _ Hrest) as Hrt.
    rewrite fmap_cons.
    change (mjoin (?x :: ?l)) with (x ++ mjoin l).
    rewrite (IH _ Hrest), Hs.
    replace (drop r.2 buf) with (drop (r.2 - s) (drop s buf))
      by (rewrite drop_drop; f_equal; lia).
    rewrite take_take_drop. f_equal. lia.
Qed.

Lemma chained_sum s rs t :
  chained s rs t → sum_list ((λ r, r.2 - r.1.2) <$> rs) = t - s.
Proof.
  revert s. induction rs as [|r rs IH]; intros s; [simpl; lia|].
  intros (Hs & Hle & Hrest). pose proof (chained_le _ _ _ Hrest).
  rewrite fmap_cons. change (sum_list (?x :: ?l)) with (x + sum_list l).
  rewrite (IH _ Hrest). lia.
Qed.

Lemma chained_stops s rs t r : chained s rs t → r ∈ rs → r.1.2 ≤ r.2 ≤ t.
Proof.
  revert s. induction rs as [|r' rs IH]; intros s Hch Hr; [by apply elem_of_nil in Hr|].
  destruct Hch as (Hs & Hle & Hrest). pose proof (chained_le _ _ _ Hrest).
  apply elem_of_cons in Hr as [->|Hr]; [lia|]. by eapply IH.
Qed.

(** X1. Over a buffer that can be sliced, a non-empty column list is decoded
    exactly when its base names are contiguous, whatever the length of the
    buffer: the decoder never returns a mapping for names that come back, and
    never refuses contiguous ones. *)
Theorem stan_to_dict_numpy_returns_iff {A} (column_names : list string) (data : ndarray A) :
  column_names ≠ [] → shape data ≠ [] →
  (∃ out, stan_to_dict_numpy column_names data = Ok out)
  ↔ contiguous (base <$> column_names).
Proof.
  intros Hne Hshape. destruct column_names as [|c cols]; [done|]. clear Hne.
  rewrite stan_to_dict_numpy_runs. rewrite fmap_cons. split.
  - intros [out Hout].
    destruct (decide (NoDup (heads (base c) (base <$> cols)))) as [Hnd|Hnd].
    + by apply contiguous_of_heads_NoDup.
    + rewrite close_runs_repeated in Hout; [done|done|].
      left. by rewrite runs_from_names.
  - intros Hc. apply heads_NoDup_of_contiguous in Hc.
    destruct (close_runs_ok data (runs_from (base c) 0 1 (base <$> cols)) [] Hshape)
      as (vs & Hvs & _).
    + by rewrite runs_from_names.
    + intros r _. apply not_elem_of_nil.
    + by exists vs.
Qed.

Lemma stan_to_dict_numpy_returns_iff_witness :
  (∃ out, stan_to_dict_numpy ["k"; "delta[1]"; "delta[2]"] (mk_ndarray [1] [7]) = Ok out)
  ∧ contiguous (base <$> ["k"; "delta[1]"; "delta[2]"]).
Proof.
  assert (H : ∃ out, stan_to_dict_numpy ["k"; "delta[1]"; "delta[2]"]
                       (mk_ndarray [1] [7]) = Ok out) by (eexists; reflexivity).
  split; [exact H|].
  apply (proj1 (stan_to_dict_numpy_returns_iff ["k"; "delta[1]"; "delta[2]"]
                  (mk_ndarray [1] [7]) ltac:(discriminate) ltac:(discriminate)) H).
Defined.

Lemma Forall2_fmap_eq {X Y Z} (f : X → Z) (g : Y → Z) l k :
  Forall2 (λ x y, f x = g y) l k → f <$> l = g <$> k.
Proof. induction 1 as [|x y l k Hxy _ IH]; [done|]. by rewrite !fmap_cons, Hxy, IH. Qed.

(** The runs closed for a contiguous, non-empty column list, with what was
    stored for each: the runs lie end to end over all the columns. *)
Lemma decode_runs {A} (c : string) (cols : list string) (data : ndarray A) :
  contiguous (base <$> c :: cols) → shape data ≠ [] →
  ∃ out rs,
    stan_to_dict_numpy (c :: cols) data = Ok out
    ∧ chained 0 rs (length (c :: cols))
    ∧ Forall2 (λ kv r, kv.1 = Some r.1.1 ∧ take_slice data r.1.2 r.2 = Ok kv.2) out rs.
Proof.
  intros Hc Hshape. rewrite fmap_cons in Hc. apply heads_NoDup_of_contiguous in Hc.
  set (rs := runs_from (base c) 0 1 (base <$> cols)).
  destruct (close_runs_ok data rs [] Hshape) as (vs & Hvs & Hall).
  { unfold rs. by rewrite runs_from_names. }
  { intros r _. apply not_elem_of_nil. }
  exists vs, rs. rewrite stan_to_dict_numpy_runs. split_and!; [done| |done].
  pose proof (runs_from_chained (base c) 0 1 (base <$> cols) ltac:(lia)) as Hch.
  by rewrite length_fmap in Hch.
Qed.

(** X2. Decoding a vector loses nothing and invents nothing: for contiguous
    names over a vector with one entry per column, the values of the mapping,
    laid end to end in key order, are the vector again. *)
Theorem stan_to_dict_numpy_vector_concat {A} (column_names : list string)
    (data : ndarray A) :
  column_names ≠ [] →
  contiguous (base <$> column_names) →
  shape data = [length column_names] → valid data →
  ∃ out, stan_to_dict_numpy column_names data = Ok out
       ∧ mjoin ((λ kv, buffer kv.2) <$> out) = buffer data.
Proof.
  intros Hne Hc Hs Hv. destruct column_names as [|c cols]; [done|]. clear Hne.
  destruct (decode_runs c cols data Hc) as (out & rs & Hout & Hch & Hall).
  { by rewrite Hs. }
  exists out. split; [done|].
  set (t := length (c :: cols)) in *.
  assert (Hbuf : (λ kv : option string * ndarray A, buffer kv.2) <$> out
                 = (λ r : string * nat * nat, take (r.2 - r.1.2) (drop r.1.2 (buffer data)))
                   <$> rs).
  { apply Forall2_fmap_eq. eapply Forall2_impl.
    - apply (Forall2_with_right _ (λ r, r ∈ rs) _ _ Hall). by apply Forall_forall.
    - intros kv r [[_ Hslice] Hr]. simpl.
      pose proof (chained_stops _ _ _ _ Hch Hr) as Hle.
      unfold take_slice, ndim, slice_axis0 in Hslice. rewrite Hs in Hslice.
      rewrite bool_decide_false in Hslice by (simpl; lia).
      injection Hslice as <-. simpl.
      rewrite !Nat.min_l by lia. by rewrite !Nat.mul_1_r. }
  rewrite Hbuf, (chained_concat _ 0 rs t Hch). rewrite Nat.sub_0_r, drop_0.
  apply take_ge. unfold valid in Hv. rewrite Hs in Hv.
  unfold prod_list in Hv. simpl in Hv. subst t. simpl. lia.
Qed.

Lemma stan_to_dict_numpy_vector_concat_witness :
  ∃ out, stan_to_dict_numpy ["k"; "delta[1]"; "delta[2]"] (mk_ndarray [3] [7; 8; 9]) = Ok out
       ∧ mjoin ((λ kv, buffer kv.2) <$> out) = [7; 8; 9].
Proof.
  apply (stan_to_dict_numpy_vector_concat ["k"; "delta[1]"; "delta[2]"]
           (mk_ndarray [3] [7; 8; 9])).
  - discriminate.
  - apply (contiguous_of_heads_NoDup "k" ["delta"; "delta"]).
    apply (bool_decide_unpack _). vm_compute. exact I.
  - reflexivity.
  - reflexivity.
Defined.

(** X3. Every column goes to exactly one entry: for contiguous names over a
    buffer whose sliced axis has one entry per column, the sizes of the
    values along that axis add up to the number of columns. *)
Theorem stan_to_dict_numpy_sizes_sum {A} (column_names : list string) (data : ndarray A) :
  column_names ≠ [] →
  contiguous (base <$> column_names) →
  sliced_axis_len data = Some (length column_names) →
  ∃ out, stan_to_dict_numpy column_names data = Ok out
       ∧ sum_list ((λ kv, default 0 (sliced_axis_len kv.2)) <$> out)
         = length column_names.
Proof.
  intros Hne Hc Hlen. destruct column_names as [|c cols]; [done|]. clear Hne.
  destruct (decode_runs c cols data Hc) as (out & rs & Hout & Hch & Hall).
  { intros Hs. unfold sliced_axis_len in Hlen. by rewrite Hs in Hlen. }
  exists out. split; [done|].
  set (t := length (c :: cols)) in *.
  assert (Hsz : (λ kv : option string * ndarray A, default 0 (sliced_axis_len kv.2)) <$> out
                = (λ r : string * nat * nat, r.2 - r.1.2) <$> rs).
  { apply Forall2_fmap_eq. eapply Forall2_impl.
    - apply (Forall2_with_right _ (λ r, r ∈ rs) _ _ Hall). by apply Forall_forall.
    - intros kv r [[_ Hslice] Hr]. simpl.
      pose proof (chained_stops _ _ _ _ Hch Hr) as Hle.
      rewrite (take_slice_axis_len data r.1.2 r.2 t kv.2 Hlen Hslice). simpl. lia. }
  rewrite Hsz, (chained_sum 0 rs t Hch). lia.
Qed.

Lemma stan_to_dict_numpy_sizes_sum_witness :
  ∃ out, stan_to_dict_numpy ["k"; "beta.1"; "beta.2"]
           (mk_ndarray [2; 3] [1; 2; 3; 4; 5; 6]) = Ok out
       ∧ sum_list ((λ kv, default 0 (sliced_axis_len kv.2)) <$> out) = 3.
Proof.
  apply (stan_to_dict_numpy_sizes_sum ["k"; "beta.1"; "beta.2"]
           (mk_ndarray [2; 3] [1; 2; 3; 4; 5; 6])).
  - discriminate.
  - apply (contiguous_of_heads_NoDup "k" ["beta"; "beta"]).
    apply (bool_decide_unpack _). vm_compute. exact I.
  - reflexivity.
Defined.

(** ** Base names of the engine's column names *)

Lemma append_cons a s t : String a s +:+ t = String a (s +:+ t).
Proof. reflexivity. Qed.

Lemma append_empty_l s : "" +:+ s = s.
Proof. reflexivity. Qed.

Lemma contains_append c s t :
  PyStr.contains c (s +:+ t) = PyStr.contains c s || PyStr.contains c t.
Proof.
  induction s as [|a s IH]; [done|]. rewrite append_cons. simpl.
  by destruct (Ascii.eqb a c).
Qed.

Lemma prefix_before_append sep s t :
  PyStr.contains sep s = false →
  prefix_before sep (s +:+ t) = s +:+ prefix_before sep t.
Proof.
  induction s as [|a s IH]; [done|]. rewrite !append_cons. simpl.
  destruct (Ascii.eqb a sep); [done|]. intros H. f_equal. by apply IH.
Qed.

Lemma append_empty_r s : s +:+ "" = s.
Proof. induction s as [|a s IH]; [done|]. rewrite append_cons. congruence. Qed.

Lemma prefix_before_absent sep s :
  PyStr.contains sep s = false → prefix_before sep s = s.
Proof.
  induction s as [|a s IH]; simpl; [done|].
  destruct (Ascii.eqb a sep); [done|]. intros H. f_equal. by apply IH.
Qed.

(** X4. What the decoder takes for the base name of the three forms of column
    name.  A dotted name gives the part before the first dot; a bare name
    gives itself; a bracketed name gives the part before the bracket, unless
    there is a dot inside the brackets: the dot then wins and the base name
    runs up to it, bracket included. *)
Theorem base_name_forms (name index : string) :
  PyStr.contains "." name = false →
  base_name (name +:+ "." +:+ index) = Ok name
  ∧ (PyStr.contains "[" name = false →
       base_name name = Ok name
       ∧ (PyStr.contains "." index = false →
            base_name (name +:+ "[" +:+ index) = Ok name)
       ∧ (PyStr.contains "." index = true →
            base_name (name +:+ "[" +:+ index)
            = Ok (name +:+ "[" +:+ prefix_before "." index))).
Proof.
  intros Hdot. rewrite !base_name_base. unfold base. split.
  - rewrite contains_append, Hdot. simpl.
    rewrite prefix_before_append by done. simpl. by rewrite append_empty_r.
  - intros Hbr. split_and!.
    + rewrite Hdot. by rewrite prefix_before_absent.
    + intros Hidx. rewrite contains_append, Hdot. simpl.
      rewrite append_empty_l, Hidx.
      rewrite prefix_before_append by done. simpl. by rewrite append_empty_r.
    + intros Hidx. rewrite contains_append, Hdot. simpl.
      rewrite append_empty_l, Hidx.
      rewrite prefix_before_append by done. simpl. by rewrite append_empty_l.
Qed.

Lemma base_name_forms_witness :
  base_name "delta.3" = Ok "delta"
  ∧ base_name "sigma_obs" = Ok "sigma_obs"
  ∧ base_name "beta[2]" = Ok "beta"
  ∧ base_name "w[1.5]" = Ok "w[1".
Proof.
  destruct (base_name_forms "delta" "3" eq_refl) as [H1 _].
  destruct (base_name_forms "sigma_obs" "" eq_refl) as [_ H2].
  destruct (H2 eq_refl) as [H2' _].
  destruct (base_name_forms "beta" "2]" eq_refl) as [_ H3].
  destruct (H3 eq_refl) as (_ & H3' & _).
  destruct (base_name_forms "w" "1.5]" eq_refl) as [_ H4].
  destruct (H4 eq_refl) as (_ & _ & H4').
  split_and!; [exact H1|exact H2'|exact (H3' eq_refl)|exact (H4' eq_refl)].
Defined.

(** ** The simplifier on a whole mapping *)

Section SimplifierWhole.
Context {A : Type}.
Implicit Types (h : heap A) (items done rest tail : dict) (a : ndarray A).

Lemma assoc_app_fresh k l done rest :
  k ∉ done.*1 → assoc k (done ++ (k, l) :: rest) = Some l.
Proof.
  induction done as [|[k' l'] done IH]; simpl.
  - intros _. by rewrite bool_decide_true.
  - intros [Hne Hk]%not_elem_of_cons. rewrite bool_decide_false by done. by apply IH.
Qed.

Lemma assoc_set_app_fresh k l l' done rest :
  k ∉ done.*1 → assoc_set k l' (done ++ (k, l) :: rest) = done ++ (k, l') :: rest.
Proof.
  induction done as [|[k' l''] done IH]; simpl.
  - intros _. by rewrite bool_decide_true.
  - intros [Hne Hk]%not_elem_of_cons. rewrite bool_decide_false by done. by rewrite IH.
Qed.

Lemma assoc_set_fresh k l done :
  k ∉ done.*1 → assoc_set k l done = done ++ [(k, l)].
Proof.
  induction done as [|[k' l'] done IH]; simpl; [done|].
  intros [Hne Hk]%not_elem_of_cons. rewrite bool_decide_false by done. by rewrite IH.
Qed.

Lemma foldl_assoc_set done items :
  NoDup (done ++ items).*1 →
  foldl (λ d kv, assoc_set kv.1 kv.2 d) done items = done ++ items.
Proof.
  revert done. induction items as [|[k l] items IH]; intros done Hnd; simpl.
  - by rewrite app_nil_r.
  - rewrite assoc_set_fresh.
    + rewrite IH; rewrite <- app_assoc; done.
    + rewrite fmap_app in Hnd. apply NoDup_app in Hnd as (_ & Hdis & _).
      intros Hk. apply (Hdis k Hk). simpl. left.
Qed.

(** A dictionary copied by comprehension has the entries of the original. *)
Lemma dict_of_items_NoDup items : NoDup items.*1 → dict_of_items items = items.
Proof. intros Hnd. unfold dict_of_items. by rewrite foldl_assoc_set. Qed.

(** An entry whose array has two axes, the second not of size 1, is left
    bound to the array object it was bound to. *)
Lemma simplify_entry_keeps h out par items l a n m :
  dicts h !! out = Some items →
  assoc par items = Some l →
  arrays h !! l = Some a →
  shape a = [n; m] → m ≠ 1 →
  simplify_entry out par h = (Ok (), h).
Proof.
  intros Hd Hk Ha Hs Hm.
  unfold simplify_entry, dict_getitem, get_dict, get_array, py_bind, py_lift, py_ret,
    tuple_item.
  rewrite Hd, Hk. simpl. rewrite Ha, Hs. simpl.
  rewrite bool_decide_false by done. by rewrite andb_false_r.
Qed.

Lemma py_for_cons {X} (x : X) (xs : list X) (body : X → py A ()) h :
  py_for (x :: xs) body h
  = match body x h with
    | (Ok _, h1) => py_for xs body h1
    | (Raise e, h1) => (Raise e, h1)
    end.
Proof. simpl. unfold py_bind. by destruct (body x h) as [[[]|e] h1]. Qed.

Lemma py_for_app {X} (xs ys : list X) (body : X → py A ()) h :
  py_for (xs ++ ys) body h
  = match py_for xs body h with
    | (Ok _, h1) => py_for ys body h1
    | (Raise e, h1) => (Raise e, h1)
    end.
Proof.
  revert h. induction xs as [|x xs IH]; intros h; [done|].
  change ((x :: xs) ++ ys) with (x :: (xs ++ ys)). rewrite !py_for_cons.
  destruct (body x h) as [[[]|e] h1]; [apply IH|done].
Qed.

Lemma simplified_weaken h0 h1 h2 kl kl' :
  arrays h1 ⊆ arrays h2 → simplified h0 h1 kl kl' → simplified h0 h2 kl kl'.
Proof.
  intros Hsub (Hk & a & n & m & Ha & Hs & Hcase).
  split; [done|]. exists a, n, m. split_and!; [done..|].
  case_bool_decide; [|done]. destruct Hcase as [Hnew Hl].
  split; [done|]. by eapply lookup_weaken.
Qed.

Lemma simplify_loop_matrices out h0 rest : ∀ done tail h,
  arrays h0 ⊆ arrays h →
  dicts h !! out = Some (done ++ rest ++ tail) →
  NoDup (done ++ rest ++ tail).*1 →
  Forall (λ kl, ∃ a n m, arrays h0 !! kl.2 = Some a ∧ shape a = [n; m]) rest →
  ∃ rest' h',
    py_for rest.*1 (simplify_entry out) h = (Ok (), h')
    ∧ arrays h ⊆ arrays h'
    ∧ dicts h' !! out = Some (done ++ rest' ++ tail)
    ∧ (∀ l, l ≠ out → dicts h' !! l = dicts h !! l)
    ∧ Forall2 (simplified h0 h') rest rest'.
Proof.
  induction rest as [|[k l] rest IH]; intros done tail h Hsub Hd Hnd Hall.
  { exists [], h. split_and!; [done|done|done|done|constructor]. }
  apply Forall_cons in Hall as [(a & n & m & Ha & Hs) Hall]. simpl in Ha.
  assert (Hk : k ∉ done.*1).
  { rewrite fmap_app in Hnd. apply NoDup_app in Hnd as (_ & Hdis & _).
    intros Hin. apply (Hdis k Hin). simpl. left. }
  pose proof (lookup_weaken _ _ _ _ Ha Hsub) as Ha'.
  pose proof (assoc_app_fresh k l done (rest ++ tail) Hk) as Hassoc.
  rewrite fmap_cons, py_for_cons. simpl fst.
  destruct (decide (m = 1)) as [->|Hm].
  - rewrite (simplify_entry_squeezes h out k _ l a n Hd Hassoc Ha' Hs).
    set (l' := fresh (dom (arrays h))).
    set (h1 := mk_heap (<[l' := mk_ndarray [n] (buffer a)]> (arrays h))
                 (<[out := assoc_set k l' (done ++ (k, l) :: rest ++ tail)]> (dicts h))).
    assert (Hfresh : arrays h !! l' = None) by apply not_elem_of_dom, is_fresh.
    assert (Hsub1 : arrays h ⊆ arrays h1) by (by apply insert_subseteq).
    destruct (IH (done ++ [(k, l')]) tail h1) as (rest' & h' & Hrun & Hsub' & Hd' & Hother & Hrel).
    + by etrans.
    + simpl. rewrite lookup_insert_eq, assoc_set_app_fresh by done.
      by rewrite <- app_assoc.
    + rewrite <- app_assoc. simpl.
      rewrite !fmap_app, !fmap_cons in Hnd. rewrite !fmap_app, !fmap_cons, !fmap_app.
      exact Hnd.
    + done.
    + exists ((k, l') :: rest'), h'. split_and!.
      * exact Hrun.
      * by etrans.
      * rewrite Hd'. by rewrite <- app_assoc.
      * intros l0 Hl0. rewrite Hother by done. simpl. by rewrite lookup_insert_ne.
      * constructor; [|done]. split; [done|]. exists a, n, 1. split_and!; [done..|].
        rewrite bool_decide_true by done. simpl. split.
        -- destruct (arrays h0 !! l') eqn:Hl'; [|done].
           by rewrite (lookup_weaken _ _ _ _ Hl' Hsub) in Hfresh.
        -- eapply lookup_weaken; [|exact Hsub']. simpl. by rewrite lookup_insert_eq.
  - rewrite (simplify_entry_keeps h out k _ l a n m Hd Hassoc Ha' Hs Hm).
    destruct (IH (done ++ [(k, l)]) tail h) as (rest' & h' & Hrun & Hsub' & Hd' & Hother & Hrel).
    + done.
    + rewrite Hd. by rewrite <- app_assoc.
    + by rewrite <- app_assoc.
    + done.
    + exists ((k, l) :: rest'), h'. split_and!; [done|done| |done|].
      * rewrite Hd'. by rewrite <- app_assoc.
      * constructor; [|done]. split; [done|]. exists a, n, m. split_and!; [done..|].
        by rewrite bool_decide_false.
Qed.

End SimplifierWhole.

Lemma simplify_loop_run {A} (out : loc) (h : heap A) (d : list (option string * loc)) :
  dicts h !! out = Some d →
  simplify_loop out h
  = match py_for d.*1 (simplify_entry out) h with
    | (Ok _, h') => (Ok out, h')
    | (Raise e, h') => (Raise e, h')
    end.
Proof.
  intros Hd. unfold simplify_loop, py_bind, get_dict, py_ret. unfold dict in *.
  rewrite Hd. by destruct (py_for _ _ _) as [[[]|e] h'].
Qed.

Lemma simplify_matrices_run {A} (params : loc) (h : heap A) (items : dict) :
  dicts h !! params = Some items →
  NoDup items.*1 →
  Forall (λ kl, ∃ a n m, arrays h !! kl.2 = Some a ∧ shape a = [n; m]) items →
  ∃ out h' items',
    simplify_mcmc_results params h = (Ok out, h')
    ∧ dicts h' !! out = Some items'
    ∧ items'.*1 = items.*1
    ∧ Forall2 (simplified h h') items items'.
Proof.
  intros Hp Hnd Hall.
  pose proof (simplify_mcmc_results_unfold params h) as Hunf.
  unfold dict in *.
  rewrite Hp, (dict_of_items_NoDup items Hnd) in Hunf. cbv zeta in Hunf.
  rewrite Hunf. clear Hunf.
  set (out := fresh (dom (dicts h))).
  set (h1 := mk_heap (arrays h) (<[out := items]> (dicts h))).
  destruct (simplify_loop_matrices out h items [] [] h1)
    as (items' & h' & Hrun & Hsub & Hd' & _ & Hrel).
  - done.
  - simpl. by rewrite lookup_insert_eq, app_nil_r.
  - by rewrite app_nil_r.
  - done.
  - exists out, h', items'. split_and!.
    + change (simplify_loop out h1 = (Ok out, h')).
      rewrite (simplify_loop_run out h1 items) by apply lookup_insert_eq.
      by rewrite Hrun.
    + change (dicts h' !! out = Some items'). unfold dict in *.
      by rewrite Hd', app_nil_r.
    + clear -Hrel. induction Hrel as [|kl kl' l l' [Hk _] _ IH]; [done|].
      by rewrite !fmap_cons, Hk, IH.
    + done.
Qed.

(** X5. When every array of the mapping has two axes (the decoded output of a
    sampling run), [simplify_mcmc_results] returns a new dictionary with the
    same keys in the same order; an entry whose second axis is not of size 1
    is bound to the very array object of the input, and an entry of shape
    [(n, 1)] to a new array of shape [(n,)] over the same buffer. *)
Theorem simplify_mcmc_results_matrices {A} (params : loc) (h : heap A) (items : dict) :
  dicts h !! params = Some items →
  NoDup items.*1 →
  Forall (λ kl, ∃ a n m, arrays h !! kl.2 = Some a ∧ shape a = [n; m]) items →
  ∃ out h' items',
    simplify_mcmc_results params h = (Ok out, h')
    ∧ dicts h' !! out = Some items'
    ∧ items'.*1 = items.*1
    ∧ Forall2 (simplified h h') items items'.
Proof. apply simplify_matrices_run. Qed.

Lemma simplify_mcmc_results_matrices_witness :
  let h : heap nat :=
    mk_heap {[ 0 := mk_ndarray [2; 1] [5; 6]; 1 := mk_ndarray [2; 3] [1; 2; 3; 4; 5; 6] ]}
            {[ 0 := [(Some "k", 0); (Some "beta", 1)] ]} in
  ∃ out h' items',
    simplify_mcmc_results 0 h = (Ok out, h')
    ∧ dicts h' !! out = Some items'
    ∧ items'.*1 = [Some "k"; Some "beta"].
Proof.
  intros h.
  destruct (simplify_mcmc_results_matrices 0 h [(Some "k", 0); (Some "beta", 1)])
    as (out & h' & items' & Hrun & Hd & Hkeys & _).
  - reflexivity.
  - apply (bool_decide_unpack _). vm_compute. exact I.
  - repeat constructor.
    + by exists (mk_ndarray [2; 1] [5; 6]), 2, 1.
    + by exists (mk_ndarray [2; 3] [1; 2; 3; 4; 5; 6]), 2, 3.
  - by exists out, h', items'.
Defined.

(** X6. One array with fewer than two axes makes the whole call fail: if the
    entries before it all have two axes, [simplify_mcmc_results] raises
    [IndexError] when it reaches it, and returns nothing for any entry. *)
Theorem simplify_mcmc_results_vector_entry {A} (params : loc) (h : heap A)
    (pre post : dict) (k : option string) (l : loc) (a : ndarray A) :
  dicts h !! params = Some (pre ++ (k, l) :: post) →
  NoDup (pre ++ (k, l) :: post).*1 →
  Forall (λ kl, ∃ a n m, arrays h !! kl.2 = Some a ∧ shape a = [n; m]) pre →
  arrays h !! l = Some a →
  length (shape a) < 2 →
  (simplify_mcmc_results params h).1 = Raise (IndexError "tuple index out of range").
Proof.
  intros Hp Hnd Hall Ha Hs.
  rewrite simplify_mcmc_results_unfold. unfold dict in *. rewrite Hp.
  rewrite (dict_of_items_NoDup _ Hnd). cbv zeta.
  set (out := fresh (dom (dicts h))).
  set (h1 := mk_heap (arrays h) (<[out := pre ++ (k, l) :: post]> (dicts h))).
  destruct (simplify_loop_matrices out h pre [] ((k, l) :: post) h1)
    as (pre' & h' & Hrun & Hsub & Hd' & _ & Hrel).
  - done.
  - simpl. by rewrite lookup_insert_eq.
  - done.
  - done.
  - assert (Hkeys : pre'.*1 = pre.*1).
    { clear -Hrel. induction Hrel as [|kl kl' r r' [Hk _] _ IH]; [done|].
      by rewrite !fmap_cons, Hk, IH. }
    change ((simplify_loop out h1).1 = Raise (IndexError "tuple index out of range")).
    rewrite (simplify_loop_run out h1 (pre ++ (k, l) :: post)) by apply lookup_insert_eq.
    rewrite fmap_app, py_for_app, Hrun.
    rewrite fmap_cons, py_for_cons. cbn [fst]. simpl in Hd'. unfold dict in *.
    rewrite (simplify_entry_vector_raises h' out k (pre' ++ (k, l) :: post) l a);
      [done|done| |by eapply lookup_weaken|done].
    apply assoc_app_fresh. rewrite Hkeys.
    rewrite fmap_app in Hnd. apply NoDup_app in Hnd as (_ & Hdis & _).
    intros Hin. apply (Hdis k Hin). simpl. left.
Qed.

Lemma simplify_mcmc_results_vector_entry_witness :
  let h : heap nat :=
    mk_heap {[ 0 := mk_ndarray [2; 3] [1; 2; 3; 4; 5; 6]; 1 := mk_ndarray [2] [5; 6] ]}
            {[ 0 := [(Some "beta", 0); (Some "k", 1)] ]} in
  (simplify_mcmc_results 0 h).1 = Raise (IndexError "tuple index out of range").
Proof.
  intros h.
  apply (simplify_mcmc_results_vector_entry 0 h [(Some "beta", 0)] [] (Some "k") 1
           (mk_ndarray [2] [5; 6])).
  - reflexivity.
  - apply (bool_decide_unpack _). vm_compute. exact I.
  - repeat constructor. by exists (mk_ndarray [2; 3] [1; 2; 3; 4; 5; 6]), 2, 3.
  - reflexivity.
  - simpl. lia.
Defined.

(** ** The sanitizer: what comes out, and when the scalar loop raises *)

Section SanitizerMore.
Context {F : Type} (float_of_int : Z → option F) (float_of_str : string → option F).
Implicit Types (default_inits custom_inits sanitized : gmap string (pyval F)).

Lemma sanitize_scalar_some default_inits custom_inits sanitized param v :
  scalar_init float_of_int float_of_str default_inits custom_inits param = Some v →
  sanitize_scalar float_of_int float_of_str default_inits custom_inits sanitized param
  = Ok (<[param := v]> sanitized).
Proof.
  unfold scalar_init, sanitize_scalar, getitem.
  destruct (py_float _ _ _) as [f|e]; [by intros [= <-]|]. by intros ->.
Qed.

Lemma sanitize_scalar_none default_inits custom_inits sanitized param :
  scalar_init float_of_int float_of_str default_inits custom_inits param = None →
  sanitize_scalar float_of_int float_of_str default_inits custom_inits sanitized param
  = Raise (KeyError param).
Proof.
  unfold scalar_init, sanitize_scalar, getitem.
  destruct (py_float _ _ _) as [f|e]; [done|]. by intros ->.
Qed.

End SanitizerMore.

(** X7. With complete defaults and arrays supplied for the two vectors, the
    sanitized mapping has the five parameters and nothing else, whatever
    other keys the caller supplied; a scalar that [float] accepts comes back
    as that float, and a scalar it rejects (or a missing one) comes back as
    the default. *)
Theorem sanitize_custom_inits_result {F : Type}
    (float_of_int : Z → option F) (float_of_str : string → option F)
    (default_inits custom_inits : gmap string (pyval F)) (dd db cd cb : Numpy.ndarray F) :
  (∀ p, p ∈ ["k"; "m"; "sigma_obs"] → is_Some (default_inits !! p)) →
  default_inits !! "delta" = Some (PyArray dd) →
  default_inits !! "beta" = Some (PyArray db) →
  custom_inits !! "delta" = Some (PyArray cd) →
  custom_inits !! "beta" = Some (PyArray cb) →
  ∃ sanitized,
    sanitize_custom_inits float_of_int float_of_str default_inits custom_inits
    = Ok sanitized
    ∧ (∀ p, is_Some (sanitized !! p) ↔ p ∈ ["k"; "m"; "sigma_obs"; "delta"; "beta"])
    ∧ (∀ p, p ∈ ["k"; "m"; "sigma_obs"] →
         (∀ f, py_float float_of_int float_of_str (dict_get custom_inits p) = Ok f →
               sanitized !! p = Some (PyFloat f))
         ∧ (∀ e, py_float float_of_int float_of_str (dict_get custom_inits p) = Raise e →
               sanitized !! p = default_inits !! p)).
Proof.
  intros Hdef Hdd Hdb Hcd Hcb. unfold sanitize_custom_inits.
  destruct (sanitize_scalars_ok float_of_int float_of_str default_inits custom_inits Hdef)
    as (vk & vm & vs & Hk & Hm & Hs & ->).
  cbn [mbind result_bind for_each].
  rewrite (sanitize_vector_arrays _ _ _ _ dd cd Hdd Hcd). cbn [mbind result_bind].
  rewrite (sanitize_vector_arrays _ _ _ _ db cb Hdb Hcb). cbn [mbind result_bind].
  eexists. split; [reflexivity|]. unfold inits in *. split.
  - intros p. split.
    + intros [v Hv].
      destruct (decide (p = "beta")) as [->|H1];
        [apply (bool_decide_unpack _); vm_compute; exact I|].
      destruct (decide (p = "delta")) as [->|H2];
        [apply (bool_decide_unpack _); vm_compute; exact I|].
      destruct (decide (p = "sigma_obs")) as [->|H3];
        [apply (bool_decide_unpack _); vm_compute; exact I|].
      destruct (decide (p = "m")) as [->|H4];
        [apply (bool_decide_unpack _); vm_compute; exact I|].
      destruct (decide (p = "k")) as [->|H5];
        [apply (bool_decide_unpack _); vm_compute; exact I|].
      rewrite !lookup_insert_ne in Hv by done. by rewrite lookup_empty in Hv.
    + intros Hp.
      repeat (apply elem_of_cons in Hp as [->|Hp]);
        [..|by apply elem_of_nil in Hp];
        rewrite ?lookup_insert_ne by done; rewrite lookup_insert_eq; by eexists.
  - intros p Hp. unfold scalar_init in Hk, Hm, Hs.
    repeat (apply elem_of_cons in Hp as [->|Hp]);
      [..|by apply elem_of_nil in Hp];
      rewrite ?lookup_insert_ne by done; rewrite lookup_insert_eq;
      (split; [intros f Hf|intros e He]).
    + rewrite Hf in Hk. exact (eq_sym Hk).
    + rewrite He in Hk. exact (eq_sym Hk).
    + rewrite Hf in Hm. exact (eq_sym Hm).
    + rewrite He in Hm. exact (eq_sym Hm).
    + rewrite Hf in Hs. exact (eq_sym Hs).
    + rewrite He in Hs. exact (eq_sym Hs).
Qed.

Lemma sanitize_custom_inits_result_witness :
  let default_inits : gmap string (pyval Z) :=
    {[ "k" := PyFloat 0%Z; "m" := PyFloat 0%Z; "sigma_obs" := PyFloat 1%Z;
       "delta" := PyArray (mk_ndarray [3] [0; 0; 0]%Z);
       "beta" := PyArray (mk_ndarray [2] [0; 0]%Z) ]} in
  let custom_inits : gmap string (pyval Z) :=
    {[ "k" := PyInt 7; "verbose" := PyBool true;
       "delta" := PyArray (mk_ndarray [3] [1; 2; 3]%Z);
       "beta" := PyArray (mk_ndarray [2] [4; 5]%Z) ]} in
  ∃ sanitized,
    sanitize_custom_inits Some (λ _, None) default_inits custom_inits = Ok sanitized
    ∧ sanitized !! "verbose" = None
    ∧ sanitized !! "k" = Some (PyFloat 7%Z).
Proof.
  intros default_inits custom_inits.
  destruct (sanitize_custom_inits_result Some (λ _, None) default_inits custom_inits
              (mk_ndarray [3] [0; 0; 0]%Z) (mk_ndarray [2] [0; 0]%Z)
              (mk_ndarray [3] [1; 2; 3]%Z) (mk_ndarray [2] [4; 5]%Z))
    as (sanitized & Hrun & Hdom & Hscalar).
  - intros p Hp. apply (bool_decide_unpack _).
    repeat (apply elem_of_cons in Hp as [->|Hp]; [vm_compute; exact I|]).
    by apply elem_of_nil in Hp.
  - reflexivity.
  - reflexivity.
  - reflexivity.
  - reflexivity.
  - exists sanitized. split_and!; [exact Hrun| |].
    + destruct (sanitized !! "verbose") eqn:Hv; [|reflexivity].
      assert (Hin : "verbose" ∈ ["k"; "m"; "sigma_obs"; "delta"; "beta"])
        by (apply Hdom; by rewrite Hv).
      repeat (apply elem_of_cons in Hin as [Hin|Hin]; [discriminate Hin|]).
      by apply elem_of_nil in Hin.
    + apply (proj1 (Hscalar "k" ltac:(left)) 7%Z). reflexivity.
Defined.

(** X8. The scalar loop can raise after all: when a scalar is not convertible
    and the defaults do not have it either, the handler's own lookup raises
    [KeyError] for that parameter, provided the scalars before it went
    through. *)
Theorem sanitize_custom_inits_missing_default {F : Type}
    (float_of_int : Z → option F) (float_of_str : string → option F)
    (default_inits custom_inits : gmap string (pyval F))
    (pre post : list string) (p : string) (e : exn) :
  ["k"; "m"; "sigma_obs"] = pre ++ p :: post →
  (∀ q, q ∈ pre →
     is_Some (scalar_init float_of_int float_of_str default_inits custom_inits q)) →
  py_float float_of_int float_of_str (dict_get custom_inits p) = Raise e →
  default_inits !! p = None →
  sanitize_custom_inits float_of_int float_of_str default_inits custom_inits
  = Raise (KeyError p).
Proof.
  intros Hsplit Hpre Hfloat Hdef.
  assert (Hnone : scalar_init float_of_int float_of_str default_inits custom_inits p = None).
  { unfold scalar_init. by rewrite Hfloat. }
  unfold sanitize_custom_inits. rewrite Hsplit.
  assert (Hloop : ∀ st, for_each (sanitize_scalar float_of_int float_of_str
                                    default_inits custom_inits) (pre ++ p :: post) st
                        = Raise (KeyError p)).
  { clear Hsplit. induction pre as [|q pre IH]; intros st; simpl.
    - by rewrite sanitize_scalar_none.
    - destruct (Hpre q ltac:(left)) as [v Hv].
      rewrite (sanitize_scalar_some _ _ _ _ _ _ v Hv). simpl.
      apply IH. intros q' Hq'. apply Hpre. by right. }
  by rewrite Hloop.
Qed.

Lemma sanitize_custom_inits_missing_default_witness :
  sanitize_custom_inits Some (λ _, None)
    ({[ "k" := PyFloat 0%Z ]} : gmap string (pyval Z))
    {[ "k" := PyInt 3; "m" := PyStr "steep" ]}
  = Raise (KeyError "m").
Proof.
  apply (sanitize_custom_inits_missing_default Some (λ _, None) _ _ ["k"] ["sigma_obs"] "m"
           (ValueError "could not convert string to float")).
  - reflexivity.
  - intros q Hq. apply list_elem_of_singleton in Hq as ->. by eexists.
  - reflexivity.
  - reflexivity.
Defined.

(** ** The point-estimate driver: engine calls, errors, shapes *)

Section FitMore.
Context {F InitsList DataList StanData Other : Type}.
Context (float_of_int : Z → option F) (float_of_str : string → option F).
Context (prepare_data : gmap string (pyval F) → StanData → result (InitsList * DataList)).
Context (data_T : DataList → Z).
Context (optimize : gmap string (argv F InitsList DataList Other) → result (optimize_result F)).
Implicit Types (kwargs : gmap string (argv F InitsList DataList Other)).

Lemma custom_init_cases stan_init kwargs stan_init' kwargs' :
  custom_init float_of_int float_of_str stan_init kwargs = Ok (stan_init', kwargs') →
  (∃ custom, kwargs !! "inits" = None ∧ kwargs !! "init" = Some (AInit custom)
      ∧ sanitize_custom_inits float_of_int float_of_str stan_init custom = Ok stan_init'
      ∧ kwargs' = delete "init" kwargs)
  ∨ ((is_Some (kwargs !! "inits") ∨ kwargs !! "init" = None)
      ∧ stan_init' = stan_init ∧ kwargs' = kwargs).
Proof.
  unfold custom_init. intros Hrun.
  destruct (kwargs !! "inits") as [v|] eqn:Hinits.
  { right. injection Hrun as <- <-. split_and!; [left; by eexists|done|done]. }
  destruct (kwargs !! "init") as [v|] eqn:Hinit.
  2:{ right. injection Hrun as <- <-. split_and!; [by right|done|done]. }
  destruct v as [| | |custom| | |]; try done.
  destruct (sanitize_custom_inits float_of_int float_of_str stan_init custom) eqn:Hs; [|done].
  injection Hrun as <- <-. left. by exists custom.
Qed.

End FitMore.

(** X9. Whatever the inputs and whatever the engine does, [fit] calls the
    engine at most twice: not at all when the marshalling fails; once; or
    with fallback enabled and a first strategy other than ["Newton"] once,
    then a warning, then once more with ["Newton"].  It never changes the
    fallback option. *)
Theorem fit_engine_calls {F InitsList DataList StanData Other : Type}
    (float_of_int : Z → option F) (float_of_str : string → option F)
    (prepare_data : gmap string (pyval F) → StanData → result (InitsList * DataList))
    (data_T : DataList → Z)
    (optimize : gmap string (argv F InitsList DataList Other) → result (optimize_result F))
    (self : backend F) (stan_init : gmap string (pyval F)) (stan_data : StanData)
    (kwargs : gmap string (argv F InitsList DataList Other)) :
  let run := fit float_of_int float_of_str prepare_data data_T optimize
               self stan_init stan_data kwargs in
  newton_fallback run.1.2 = newton_fallback self
  ∧ ((run.2 = [] ∧ run.1.2 = self ∧ ∃ e, run.1.1 = Raise e)
     ∨ (∃ args, run.2 = [CallOptimize args])
     ∨ (∃ args, newton_fallback self = true
          ∧ args !! "algorithm" ≠ Some (AStr "Newton")
          ∧ run.2 = [CallOptimize args; LogWarning fit_warning;
                     CallOptimize (<["algorithm" := AStr "Newton"]> args)])).
Proof.
  intros run. unfold run, fit.
  destruct (prepare _ _ _ _ _ _) as [[[kwargs' il] dl]|e]; simpl.
  2:{ split; [done|]. left. split_and!; [done|done|by eexists]. }
  set (args := optimize_args data_T dl il kwargs').
  destruct (optimize args) as [r|e] eqn:Hopt; simpl.
  { split; [done|]. right. left. by eexists. }
  destruct (is_runtime_error e); simpl.
  2:{ split; [done|]. right. left. by eexists. }
  destruct (newton_fallback self) eqn:Hnf; simpl.
  2:{ split; [done|]. right. left. by eexists. }
  destruct (args !! "algorithm") as [alg|] eqn:Halg; simpl.
  2:{ split; [done|]. right. left. by eexists. }
  destruct (is_newton alg) eqn:Hn; simpl.
  { split; [done|]. right. left. by eexists. }
  assert (Hne : args !! "algorithm" ≠ Some (AStr "Newton")).
  { rewrite Halg. intros [= ->]. by rewrite (proj2 (is_newton_spec _) eq_refl) in Hn. }
  destruct (optimize (<["algorithm":=AStr "Newton"]> args)) as [r'|e']; simpl;
    (split; [done|]); right; right; exists args; by split_and!.
Qed.

(** An engine exception that is not a [RuntimeError] is never answered
    with a retry, even with the fallback enabled: it comes out as it is
    after the one call. *)
Theorem fit_other_error {F InitsList DataList StanData Other : Type}
    (float_of_int : Z → option F) (float_of_str : string → option F)
    (prepare_data : gmap string (pyval F) → StanData → result (InitsList * DataList))
    (data_T : DataList → Z)
    (optimize : gmap string (argv F InitsList DataList Other) → result (optimize_result F))
    (self : backend F) (stan_init : gmap string (pyval F)) (stan_data : StanData)
    (kwargs kwargs' : gmap string (argv F InitsList DataList Other))
    (il : InitsList) (dl : DataList) (e : exn) :
  prepare float_of_int float_of_str prepare_data stan_init stan_data kwargs
  = Ok (kwargs', il, dl) →
  optimize (optimize_args data_T dl il kwargs') = Raise e →
  is_runtime_error e = false →
  fit float_of_int float_of_str prepare_data data_T optimize self stan_init stan_data kwargs
  = (Raise e, self, [CallOptimize (optimize_args data_T dl il kwargs')]).
Proof. intros Hprep Hopt He. unfold fit. by rewrite Hprep, Hopt, He. Qed.

Lemma fit_other_error_witness :
  (fit Some (λ _, None) toy_prepare id
     (λ _ : gmap string (argv Z unit Z unit), Raise (ValueError "bad data"))
     (mk_backend None true) ∅ 500%Z ∅).1.1
  = Raise (ValueError "bad data").
Proof.
  assert (Hprep : prepare Some (λ _, None) toy_prepare ∅ 500%Z
                    (∅ : gmap string (argv Z unit Z unit)) = Ok (∅, (), 500%Z))
    by (vm_compute; reflexivity).
  by rewrite (fit_other_error Some (λ _, None) toy_prepare id
                (λ _, Raise (ValueError "bad data")) (mk_backend None true)
                ∅ 500%Z ∅ ∅ () 500%Z (ValueError "bad data") Hprep eq_refl eq_refl).
Defined.



(** ** The rows of a point estimate *)

Section DecodePoint.
Context {F : Type}.
Implicit Types (od seen rest : list (option string * ndarray F)) (a v : ndarray F).

(** [reshape((1, -1))] always works: one row holding the whole buffer. *)
Lemma reshape_row a :
  reshape a [1%Z; (-1)%Z] = Ok (mk_ndarray [1; size a] (buffer a)).
Proof.
  unfold reshape.
  rewrite (filter_cons_False (λ d, d = (-1)%Z) 1%Z) by done.
  rewrite (filter_cons_True (λ d, d = (-1)%Z) (-1)%Z) by done.
  rewrite (filter_cons_True (λ d, d ≠ (-1)%Z) 1%Z) by done.
  rewrite (filter_cons_False (λ d, d ≠ (-1)%Z) (-1)%Z) by (intros H; by apply H).
  rewrite !filter_nil.
  rewrite bool_decide_false.
  2:{ intros [H|H]%Exists_cons; [lia|by apply Exists_nil in H]. }
  change (prod_list (Z.to_nat <$> [1%Z])) with 1.
  rewrite bool_decide_true by (split; [lia|apply Nat.Div0.mod_same || by rewrite Nat.mod_1_r]).
  cbn [fmap list_fmap]. rewrite bool_decide_false by done.
  rewrite bool_decide_true by done. by rewrite Nat.div_1_r.
Qed.

Lemma od_get_app_fresh k v seen rest :
  k ∉ seen.*1 → od_get k (seen ++ (k, v) :: rest) = Ok v.
Proof.
  unfold od_get. induction seen as [|[k' v'] seen IH]; simpl.
  - intros _. by rewrite decide_True.
  - intros [Hne Hk]%not_elem_of_cons. rewrite decide_False by done.
    specialize (IH Hk). destruct (list_find _ _) as [[i [k'' v'']]|]; simpl in *; done.
Qed.

Lemma od_set_app_fresh k v v' seen rest :
  k ∉ seen.*1 → od_set k v' (seen ++ (k, v) :: rest) = seen ++ (k, v') :: rest.
Proof.
  induction seen as [|[k' v''] seen IH]; simpl.
  - intros _. by rewrite bool_decide_true.
  - intros [Hne Hk]%not_elem_of_cons. rewrite bool_decide_false by done. by rewrite IH.
Qed.

Lemma reshape_rows_loop rest : ∀ seen,
  NoDup (seen ++ rest).*1 →
  for_each (λ ps par,
              v ← od_get par ps;
              row ← reshape v [1%Z; (-1)%Z];
              Ok (od_set par row ps))
           rest.*1 (seen ++ rest)
  = Ok (seen ++ (as_row <$> rest)).
Proof.
  induction rest as [|[k v] rest IH]; intros seen Hnd; [done|].
  assert (Hk : k ∉ seen.*1).
  { rewrite fmap_app in Hnd. apply NoDup_app in Hnd as (_ & Hdis & _).
    intros Hin. apply (Hdis k Hin). simpl. left. }
  change (((k, v) :: rest).*1) with (k :: rest.*1).
  change (as_row <$> (k, v) :: rest) with (as_row (k, v) :: (as_row <$> rest)).
  cbn [for_each].
  rewrite od_get_app_fresh by done. cbn [mbind result_bind].
  rewrite reshape_row. cbn [mbind result_bind].
  rewrite od_set_app_fresh by done.
  specialize (IH (seen ++ [(k, mk_ndarray [1; size v] (buffer v))])).
  rewrite <- !app_assoc in IH. apply IH.
  rewrite !fmap_app in Hnd |- *. exact Hnd.
Qed.

Lemma reshape_rows_all rest :
  NoDup rest.*1 →
  for_each (λ ps par,
              v ← od_get par ps;
              row ← reshape v [1%Z; (-1)%Z];
              Ok (od_set par row ps))
           rest.*1 rest
  = Ok (as_row <$> rest).
Proof. intros Hnd. by apply (reshape_rows_loop rest []). Qed.

Lemma close_runs_keys_NoDup (data : ndarray F) rs : ∀ out0 out,
  close_runs data rs out0 = Ok out → NoDup out0.*1 → NoDup out.*1.
Proof.
  induction rs as [|r rs IH]; intros out0 out; unfold close_runs; cbn [for_each].
  - intros Hrun Hnd. by injection Hrun as <-.
  - destruct (close_run data (mk_scan out0 (Some r.1.1) r.1.2 r.2)) as [out1|] eqn:Hc;
      cbn [mbind result_bind]; [|done].
    intros Hrun Hnd. apply (IH _ _ Hrun).
    unfold close_run, od_contains in Hc. cbn [output prev start end_] in Hc.
    case_bool_decide as Hin; [done|].
    destruct (take_slice data r.1.2 r.2) as [v|]; [|done].
    cbn [mbind result_bind] in Hc. injection Hc as <-.
    rewrite od_set_fresh by done. rewrite fmap_app.
    apply NoDup_app. split_and!; [done| |apply NoDup_singleton].
    intros k Hk ->%list_elem_of_singleton. done.
Qed.

(** Whenever the decoder returns, it has stored each key once. *)
Lemma stan_to_dict_numpy_keys_NoDup (cols : list string) (data : ndarray F) out :
  stan_to_dict_numpy cols data = Ok out → NoDup out.*1.
Proof.
  destruct cols as [|c cols].
  - unfold stan_to_dict_numpy, close_run, od_contains. simpl.
    destruct (take_slice data 0 0); [|done]. intros [= <-]. apply NoDup_singleton.
  - rewrite stan_to_dict_numpy_runs. intros Hrun.
    apply (close_runs_keys_NoDup _ _ _ _ Hrun). constructor.
Qed.

End DecodePoint.

Lemma decode_point_rows {F} (r : optimize_result F) (params : list (option string * ndarray F)) :
  decode_point r = Ok params →
  ∃ decoded,
    stan_to_dict_numpy (column_names r) (optimized_params_np r) = Ok decoded
    ∧ params = as_row <$> decoded.
Proof.
  unfold decode_point.
  destruct (stan_to_dict_numpy _ _) as [decoded|] eqn:Hdec; [|done].
  cbn [mbind result_bind]. intros Hloop. exists decoded. split; [done|].
  pose proof (stan_to_dict_numpy_keys_NoDup _ _ _ Hdec) as Hnd.
  rewrite (reshape_rows_all decoded Hnd) in Hloop. by injection Hloop as <-.
Qed.

(** X11. What [fit] returns is the decoded point estimate, one row per
    parameter: same keys in the same order, each array reshaped to
    [(1, size)] over the same buffer; and the backend then holds the engine
    result it was decoded from. *)
Theorem fit_result_rows {F InitsList DataList StanData Other : Type}
    (float_of_int : Z → option F) (float_of_str : string → option F)
    (prepare_data : gmap string (pyval F) → StanData → result (InitsList * DataList))
    (data_T : DataList → Z)
    (optimize : gmap string (argv F InitsList DataList Other) → result (optimize_result F))
    (self self' : backend F) (stan_init : gmap string (pyval F)) (stan_data : StanData)
    (kwargs : gmap string (argv F InitsList DataList Other))
    (params : list (option string * ndarray F)) (events : list event) :
  fit float_of_int float_of_str prepare_data data_T optimize self stan_init stan_data kwargs
  = (Ok params, self', events) →
  ∃ r decoded,
    stan_fit self' = Some (Optimized r)
    ∧ stan_to_dict_numpy (column_names r) (optimized_params_np r) = Ok decoded
    ∧ params = as_row <$> decoded
    ∧ Forall (λ kv, ∃ n, shape kv.2 = [1; n]) params.
Proof.
  unfold fit. intros Hrun.
  assert (Hdone : ∀ r, decode_point r = Ok params → self' = mk_backend (Some (Optimized r))
                         (newton_fallback self) →
            ∃ r decoded, stan_fit self' = Some (Optimized r)
              ∧ stan_to_dict_numpy (column_names r) (optimized_params_np r) = Ok decoded
              ∧ params = as_row <$> decoded
              ∧ Forall (λ kv, ∃ n, shape kv.2 = [1; n]) params).
  { intros r Hdec ->. destruct (decode_point_rows r params Hdec) as (decoded & Hd & ->).
    exists r, decoded. split_and!; [done..|].
    apply Forall_fmap, Forall_forall. intros [k v] _. simpl. by eexists. }
  destruct (prepare _ _ _ _ _ _) as [[[kwargs' il] dl]|e]; [|done].
  destruct (optimize (optimize_args data_T dl il kwargs')) as [r|e].
  { injection Hrun as Hp <- _. by apply (Hdone r). }
  destruct (is_runtime_error e); [|done].
  destruct (negb (newton_fallback self)); [done|].
  destruct (_ !! "algorithm") as [alg|]; [|done].
  destruct (is_newton alg); [done|].
  destruct (optimize _) as [r|e']; [|done].
  injection Hrun as Hp <- _. by apply (Hdone r).
Qed.

Lemma fit_result_rows_witness :
  ∃ r decoded,
    stan_fit (toy_fit steady_optimize true 10 ∅).1.2 = Some (Optimized r)
    ∧ stan_to_dict_numpy (column_names r) (optimized_params_np r) = Ok decoded
    ∧ (toy_fit steady_optimize true 10 ∅).1.1 = Ok (as_row <$> decoded).
Proof.
  destruct (fit_result_rows Some (λ _, None) toy_prepare id steady_optimize
              (mk_backend None true) (toy_fit steady_optimize true 10 ∅).1.2
              ∅ 10%Z ∅
              [(Some "k", mk_ndarray [1; 1] [1%Z]); (Some "m", mk_ndarray [1; 1] [2%Z])]
              (toy_fit steady_optimize true 10 ∅).2)
    as (r & decoded & Hfit & Hdec & Hrows & _).
  - vm_compute. reflexivity.
  - exists r, decoded. split_and!; [exact Hfit|exact Hdec|].
    rewrite <- Hrows. vm_compute. reflexivity.
Defined.

(** ** Options *)

Import Options.

Lemma backend_eta {F} (self : backend F) :
  mk_backend (stan_fit self) (newton_fallback self) = self.
Proof. by destruct self. Qed.

Lemma default_last_cons (b v : bool) (l : list bool) :
  default b (last (v :: l)) = default v (last l).
Proof. rewrite last_cons. by destruct (last l). Qed.

Lemma set_options_prefix {F} (pre rest : list (string * bool)) : ∀ self : backend F,
  Forall (λ kv, kv.1 = "newton_fallback") pre →
  set_options self (pre ++ rest)
  = set_options (mk_backend (stan_fit self) (default (newton_fallback self) (last pre.*2)))
      rest.
Proof.
  induction pre as [|[k v] pre IH]; intros self Hall.
  - simpl. by rewrite backend_eta.
  - apply Forall_cons in Hall as [Hk Hall]. simpl in Hk. subst k.
    cbn [app set_options]. rewrite bool_decide_true by done.
    rewrite (IH _ Hall). cbn [stan_fit newton_fallback].
    by rewrite fmap_cons, default_last_cons.
Qed.

(** X12. [set_options] takes the keywords in order.  If all of them are
    [newton_fallback] it returns and the option holds the last value given
    (or stays as it was when none is given).  At the first other keyword it
    raises [ValueError] naming it, and what was set before stays set. *)
Theorem set_options_applies {F} (self : backend F) (kwargs : list (string * bool)) :
  (Forall (λ kv, kv.1 = "newton_fallback") kwargs →
     set_options self kwargs
     = (Ok (), mk_backend (stan_fit self) (default (newton_fallback self) (last kwargs.*2))))
  ∧ (∀ pre k v post,
       kwargs = pre ++ (k, v) :: post →
       Forall (λ kv, kv.1 = "newton_fallback") pre →
       k ≠ "newton_fallback" →
       set_options self kwargs
       = (Raise (ValueError ("Unknown option " +:+ k)),
          mk_backend (stan_fit self) (default (newton_fallback self) (last pre.*2)))).
Proof.
  split.
  - intros Hall. rewrite <- (app_nil_r kwargs) at 1.
    by rewrite set_options_prefix.
  - intros pre k v post -> Hall Hk. rewrite set_options_prefix by done.
    simpl. by rewrite bool_decide_false.
Qed.

Lemma set_options_applies_witness :
  set_options (new_backend (F:=Z) Registry.CmdStanPyBackend) [("newton_fallback", false)]
  = (Ok (), mk_backend None false)
  ∧ set_options (new_backend (F:=Z) Registry.CmdStanPyBackend)
      [("newton_fallback", false); ("verbose", true)]
    = (Raise (ValueError "Unknown option verbose"), mk_backend None false).
Proof.
  split.
  - apply (proj1 (set_options_applies (new_backend Registry.CmdStanPyBackend)
                    [("newton_fallback", false)])).
    repeat constructor.
  - apply (proj2 (set_options_applies (new_backend Registry.CmdStanPyBackend)
                    [("newton_fallback", false); ("verbose", true)])
             [("newton_fallback", false)] "verbose" true []).
    + reflexivity.
    + repeat constructor.
    + discriminate.
Defined.

(** X13. Turning the fallback off works: after [set_options] has returned with
    [False] as the last value, any failure of the engine comes out of [fit]
    after a single call, with no warning and no retry. *)
Theorem fit_after_disabling_fallback {F InitsList DataList StanData Other : Type}
    (float_of_int : Z → option F) (float_of_str : string → option F)
    (prepare_data : gmap string (pyval F) → StanData → result (InitsList * DataList))
    (data_T : DataList → Z)
    (optimize : gmap string (argv F InitsList DataList Other) → result (optimize_result F))
    (self self' : backend F) (options : list (string * bool))
    (stan_init : gmap string (pyval F)) (stan_data : StanData)
    (kwargs kwargs' : gmap string (argv F InitsList DataList Other))
    (il : InitsList) (dl : DataList) (e : exn) :
  set_options self options = (Ok (), self') →
  last options.*2 = Some false →
  prepare float_of_int float_of_str prepare_data stan_init stan_data kwargs
  = Ok (kwargs', il, dl) →
  optimize (optimize_args data_T dl il kwargs') = Raise e →
  fit float_of_int float_of_str prepare_data data_T optimize self' stan_init stan_data kwargs
  = (Raise e, self', [CallOptimize (optimize_args data_T dl il kwargs')]).
Proof.
  intros Hset Hlast Hprep Hopt.
  assert (Hoff : newton_fallback self' = false).
  { destruct (decide (Forall (λ kv : string * bool, kv.1 = "newton_fallback") options))
      as [Hall|Hnot].
    - rewrite <- (app_nil_r options) in Hset.
      rewrite set_options_prefix in Hset by done.
      simpl in Hset. injection Hset as <-. simpl. by rewrite Hlast.
    - exfalso. apply Hnot. clear Hnot Hlast.
      revert self Hset. induction options as [|[k v] options IH]; intros self Hset;
        [constructor|].
      simpl in Hset. case_bool_decide; [|done].
      constructor; [done|]. by eapply IH. }
  unfold fit. rewrite Hprep, Hopt, Hoff. simpl. by destruct (is_runtime_error e).
Qed.

Lemma fit_after_disabling_fallback_witness :
  (toy_fit toy_optimize false 500 ∅).2
  = [CallOptimize (optimize_args id 500%Z () (∅ : gmap string (argv Z unit Z unit)))].
Proof.
  assert (Hprep : prepare Some (λ _, None) toy_prepare ∅ 500%Z
                    (∅ : gmap string (argv Z unit Z unit)) = Ok (∅, (), 500%Z))
    by (vm_compute; reflexivity).
  unfold toy_fit.
  by rewrite (fit_after_disabling_fallback Some (λ _, None) toy_prepare id toy_optimize
                (new_backend Registry.CmdStanPyBackend) (mk_backend None false)
                [("newton_fallback", false)] ∅ 500%Z ∅ ∅ () 500%Z
                (RuntimeError "line search failed") eq_refl eq_refl Hprep eq_refl).
Defined.

(** ** Sampling, end to end *)

Lemma pool_chains_ok {F} (res : ndarray F) (n c m : nat) :
  shape res = [n; c; m] →
  pool_chains res = Ok (mk_ndarray [n * c; m] (buffer res)).
Proof.
  intros Hs. unfold pool_chains, reshape, size. rewrite Hs.
  assert (Hu : filter (λ d, d = (-1)%Z) [Z.of_nat (n * c); Z.of_nat m] = []).
  { rewrite !filter_cons, filter_nil. repeat case_decide; (done || lia). }
  assert (Hk : filter (λ d, d ≠ (-1)%Z) [Z.of_nat (n * c); Z.of_nat m]
               = [Z.of_nat (n * c); Z.of_nat m]).
  { rewrite !filter_cons, filter_nil. repeat case_decide; (done || lia). }
  rewrite Hu, Hk. clear Hu Hk.
  rewrite bool_decide_false.
  2:{ rewrite !Exists_cons, Exists_nil. lia. }
  cbn [fmap list_fmap]. rewrite !Nat2Z.id.
  rewrite bool_decide_true; [done|]. unfold prod_list. simpl. lia.
Qed.

Lemma load_items_spec {F} (params : @odict F) : ∀ h : heap F,
  ∃ d h',
    load_items params h = (Ok d, h')
    ∧ dicts h' = dicts h
    ∧ arrays h ⊆ arrays h'
    ∧ d.*1 = params.*1
    ∧ Forall2 (λ kv kl, arrays h' !! kl.2 = Some kv.2) params d.
Proof.
  induction params as [|[k v] params IH]; intros h.
  - exists [], h. by split_and!.
  - set (l := fresh (dom (arrays h))).
    set (h1 := mk_heap (<[l := v]> (arrays h)) (dicts h)).
    destruct (IH h1) as (d & h' & Hrun & Hd & Hsub & Hkeys & Hall).
    exists ((k, l) :: d), h'.
    assert (Hfresh : arrays h !! l = None) by apply not_elem_of_dom, is_fresh.
    split_and!.
    + cbn [load_items]. unfold py_bind, alloc_array.
      change (load_items params h1) with (load_items params h1).
      fold l. fold h1. by rewrite Hrun.
    + done.
    + etrans; [|exact Hsub]. by apply insert_subseteq.
    + change (((k, l) :: d).*1) with (k :: d.*1).
      change (((k, v) :: params).*1) with (k :: params.*1).
      by rewrite Hkeys.
    + constructor; [|done]. simpl.
      eapply lookup_weaken; [|exact Hsub]. apply lookup_insert_eq.
Qed.

(** X14. A sampling run, end to end.  When the engine returns draws of shape
    [(n, c, columns)] under column names whose base names form contiguous
    runs, [sampling] returns a dictionary whose keys are the base names in
    order of first appearance; a parameter with a single column comes out
    with one axis of [n * c] entries, the draws of all chains pooled, and a
    parameter with [k > 1] columns with shape [(n * c, k)]. *)
Theorem sampling_shapes {F InitsList DataList StanData Other : Type}
    (float_of_int : Z → option F) (float_of_str : string → option F)
    (prepare_data : gmap string (pyval F) → StanData → result (InitsList * DataList))
    (sample : gmap string (argv F InitsList DataList Other) → result (sample_result F))
    (self : backend F) (stan_init : gmap string (pyval F)) (stan_data : StanData)
    (samples : Z) (kwargs kwargs' : gmap string (argv F InitsList DataList Other))
    (h : heap F) (il : InitsList) (dl : DataList) (r : sample_result F) (n c : nat) :
  prepare float_of_int float_of_str prepare_data stan_init stan_data kwargs
  = Ok (kwargs', il, dl) →
  sample (sample_args dl il samples kwargs') = Ok r →
  sample_column_names r ≠ [] →
  contiguous (base <$> sample_column_names r) →
  shape (draws r) = [n; c; length (sample_column_names r)] →
  let bases := base <$> sample_column_names r in
  ∃ out h' items,
    sampling float_of_int float_of_str prepare_data sample
      self stan_init stan_data samples kwargs h
    = (Ok out, h', mk_backend (Some (Sampled r)) (newton_fallback self),
       [CallSample (sample_args dl il samples kwargs')])
    ∧ dicts h' !! out = Some items
    ∧ items.*1 = Some <$> distinct bases
    ∧ Forall2 (λ kl b, ∃ a,
        arrays h' !! kl.2 = Some a
        ∧ shape a = if bool_decide (occurrences b bases = 1) then [n * c]
                    else [n * c; occurrences b bases])
      items (distinct bases).
Proof.
  intros Hprep Hsample Hne Hc Hshape bases.
  set (res := mk_ndarray [n * c; length (sample_column_names r)] (buffer (draws r))).
  destruct (decode_contiguous_bases (sample_column_names r) res Hne Hc eq_refl)
    as (decoded & Hdec & Hkeys & Hall).
  destruct (load_items_spec decoded h) as (d & h1 & Hload & Hd1 & Hsub1 & Hdk & Hdall).
  assert (Hmat : Forall2 (λ kl b, ∃ a, arrays h1 !! kl.2 = Some a
                            ∧ shape a = [n * c; occurrences b bases]) d (distinct bases)).
  { assert (Hall' : Forall2 (λ kv b, shape kv.2 = [n * c; occurrences b bases])
                      decoded (distinct bases)).
    { eapply Forall2_impl; [exact Hall|]. by intros kv b (_ & _ & _ & Hs & _). }
    clear -Hall' Hdall. revert d Hdall Hall'. generalize (distinct bases).
    induction decoded as [|kv decoded IH]; intros ds d Hd Hall';
      inversion Hd as [|? kl ? d' Hkl Hd']; inversion Hall' as [|? b ? ds' Hs Hall''];
      subst; constructor; [|by apply IH].
    by exists kv.2. }
  set (p := fresh (dom (dicts h1))).
  set (h2 := mk_heap (arrays h1) (<[p := d]> (dicts h1))).
  change (arrays h1) with (arrays h2) in Hmat.
  assert (Hnd : NoDup d.*1).
  { rewrite Hdk, Hkeys. apply (NoDup_fmap_2 _). clear.
    induction (base <$> sample_column_names r) as [|b bs IH]; simpl; [constructor|].
    constructor.
    - rewrite list_elem_of_filter. by intros [? _].
    - by apply NoDup_filter. }
  destruct (simplify_matrices_run p h2 d) as (out & h' & items & Hrun & Hout & Hik & Hrel).
  { apply lookup_insert_eq. }
  { done. }
  { revert Hmat. generalize (distinct bases). generalize d.
    intros d0 ds Hmat.
    induction Hmat as [|kl b d0 bs (a & Ha & Hs) _ IH]; constructor; [|done].
    by exists a, (n * c), (occurrences b bases). }
  destruct (simplify_mcmc_results_heap p h2) as (_ & Hsub2 & _).
  rewrite Hrun in Hsub2. simpl in Hsub2.
  exists out, h', items. split_and!.
  - unfold sampling. rewrite Hprep, Hsample.
    rewrite (pool_chains_ok _ n c _ Hshape). cbn [mbind result_bind].
    fold res. rewrite Hdec.
    assert (Hwhole : py_bind (load_params decoded) simplify_mcmc_results h = (Ok out, h')).
    { unfold load_params, py_bind. rewrite Hload. unfold alloc_dict.
      fold p. fold h2. exact Hrun. }
    by rewrite Hwhole.
  - done.
  - by rewrite Hik, Hdk, Hkeys.
  - revert Hmat Hrel. generalize (distinct bases). generalize items. generalize d.
    intros d0 items0 ds Hmat. revert items0.
    induction Hmat as [|kl b d0 bs (a & Ha & Hs) _ IH]; intros items0 Hrel;
      inversion Hrel as [|? kl' ? items' Hkl Hrel']; subst; constructor; [|by apply IH].
    destruct Hkl as (_ & a' & n' & m' & Ha' & Hs' & Hcase).
    rewrite Ha in Ha'. injection Ha' as <-. rewrite Hs in Hs'. injection Hs' as <- <-.
    case_bool_decide.
    + destruct Hcase as [_ Hnew]. by eexists.
    + rewrite Hcase. exists a. split; [|done]. by eapply lookup_weaken.
Qed.

Lemma sampling_shapes_witness :
  let r := mk_sample_result ["k"; "beta[1]"; "beta[2]"]
             (mk_ndarray [2; 2; 3] [1; 2; 3; 4; 5; 6; 7; 8; 9; 10; 11; 12]%Z) in
  let kwargs : gmap string (argv Z unit Z unit) := ∅ in
  ∃ out h' items,
    (sampling Some (λ _, None) toy_prepare (λ _, Ok r) (mk_backend None true)
       ∅ 10%Z 4%Z kwargs (mk_heap ∅ ∅)).1.1 = (Ok out, h')
    ∧ dicts h' !! out = Some items
    ∧ items.*1 = [Some "k"; Some "beta"].
Proof.
  intros r kwargs.
  assert (Hprep : prepare Some (λ _, None) toy_prepare ∅ 10%Z kwargs = Ok (kwargs, (), 10%Z))
    by (vm_compute; reflexivity).
  destruct (sampling_shapes Some (λ _, None) toy_prepare (λ _, Ok r) (mk_backend None true)
              ∅ 10%Z 4%Z kwargs kwargs (mk_heap ∅ ∅) () 10%Z r 2 2 Hprep eq_refl)
    as (out & h' & items & Hrun & Hd & Hkeys & _).
  - discriminate.
  - apply (contiguous_of_heads_NoDup "k" ["beta"; "beta"]).
    apply (bool_decide_unpack _). vm_compute. exact I.
  - reflexivity.
  - exists out, h', items. split_and!; [by rewrite Hrun|done|exact Hkeys].
Defined.

(** ** The keywords the engine is called with *)

Lemma args_caller_wins {F InitsList DataList Other : Type}
    (data_T : DataList → Z) (dl : DataList) (il : InitsList) (samples : Z)
    (kwargs : gmap string (argv F InitsList DataList Other))
    (k : string) (v : argv F InitsList DataList Other) :
  kwargs !! k = Some v →
  optimize_args data_T dl il kwargs !! k = Some v
  ∧ sample_args dl il samples kwargs !! k
    = Some (if bool_decide (k = "iter_sampling") then AInt (samples `div` 2)%Z else v).
Proof.
  intros Hk. split.
  - unfold optimize_args. by apply lookup_union_Some_l.
  - unfold sample_args. apply lookup_union_Some_l.
    set (kw1 := match kwargs !! "chains" with
                | None => <["chains" := AInt 4]> kwargs
                | Some _ => kwargs
                end).
    assert (H1 : kw1 !! k = Some v).
    { unfold kw1. destruct (kwargs !! "chains") eqn:Hc; [done|].
      rewrite lookup_insert_ne; [done|]. intros <-. congruence. }
    set (kw2 := <["iter_sampling" := AInt (samples `div` 2)%Z]> kw1).
    assert (H2 : kw2 !! k = Some (if bool_decide (k = "iter_sampling")
                                  then AInt (samples `div` 2)%Z else v)).
    { unfold kw2. case_bool_decide as Hi.
      - subst k. apply lookup_insert_eq.
      - by rewrite lookup_insert_ne. }
    destruct (kw2 !! "iter_warmup") eqn:Hw; [done|].
    rewrite lookup_insert_ne; [done|]. intros <-. rewrite Hw in H2. done.
Qed.

(** A keyword the caller did not give, and the drivers do not set. *)
Lemma args_init_absent {F InitsList DataList Other : Type}
    (data_T : DataList → Z) (dl : DataList) (il : InitsList) (samples : Z)
    (kwargs : gmap string (argv F InitsList DataList Other)) :
  kwargs !! "init" = None →
  optimize_args data_T dl il kwargs !! "init" = None
  ∧ sample_args dl il samples kwargs !! "init" = None.
Proof.
  intros Hk. split.
  - unfold optimize_args. apply lookup_union_None. split; [done|].
    by rewrite !lookup_insert_ne.
  - unfold sample_args. apply lookup_union_None. split; [|by rewrite !lookup_insert_ne].
    set (kw1 := match kwargs !! "chains" with
                | None => <["chains" := AInt 4]> kwargs
                | Some _ => kwargs
                end).
    assert (H1 : kw1 !! "init" = None).
    { unfold kw1. destruct (kwargs !! "chains"); [done|]. by rewrite lookup_insert_ne. }
    destruct (_ !! "iter_warmup"); rewrite ?lookup_insert_ne by done; done.
Qed.

Lemma fit_first_call {F InitsList DataList StanData Other : Type}
    (float_of_int : Z → option F) (float_of_str : string → option F)
    (prepare_data : gmap string (pyval F) → StanData → result (InitsList * DataList))
    (data_T : DataList → Z)
    (optimize : gmap string (argv F InitsList DataList Other) → result (optimize_result F))
    (self : backend F) (stan_init : gmap string (pyval F)) (stan_data : StanData)
    (kwargs kwargs' : gmap string (argv F InitsList DataList Other))
    (il : InitsList) (dl : DataList) :
  prepare float_of_int float_of_str prepare_data stan_init stan_data kwargs
  = Ok (kwargs', il, dl) →
  ∃ rest,
    (fit float_of_int float_of_str prepare_data data_T optimize
       self stan_init stan_data kwargs).2
    = CallOptimize (optimize_args data_T dl il kwargs') :: rest.
Proof.
  intros Hprep. unfold fit. rewrite Hprep.
  destruct (optimize _) as [r|e]; [by eexists|].
  destruct (is_runtime_error e); [|by eexists].
  destruct (negb _); [by eexists|].
  destruct (_ !! "algorithm") as [alg|]; [|by eexists].
  destruct (is_newton alg); [by eexists|].
  cbv zeta. destruct (optimize _); by eexists.
Qed.

Lemma sampling_call {F InitsList DataList StanData Other : Type}
    (float_of_int : Z → option F) (float_of_str : string → option F)
    (prepare_data : gmap string (pyval F) → StanData → result (InitsList * DataList))
    (sample : gmap string (argv F InitsList DataList Other) → result (sample_result F))
    (self : backend F) (stan_init : gmap string (pyval F)) (stan_data : StanData)
    (samples : Z) (kwargs kwargs' : gmap string (argv F InitsList DataList Other))
    (il : InitsList) (dl : DataList) (h : heap F) :
  prepare float_of_int float_of_str prepare_data stan_init stan_data kwargs
  = Ok (kwargs', il, dl) →
  (sampling float_of_int float_of_str prepare_data sample
     self stan_init stan_data samples kwargs h).2
  = [CallSample (sample_args dl il samples kwargs')].
Proof.
  intros Hprep. unfold sampling. rewrite Hprep.
  destruct (sample _) as [r|e]; [|done].
  by destruct (_ ≫= _).
Qed.

(** What the marshalling leaves of the keywords: all of them, except that
    a custom [init] is taken out when no [inits] is given. *)
Lemma prepare_kwargs {F InitsList DataList StanData Other : Type}
    (float_of_int : Z → option F) (float_of_str : string → option F)
    (prepare_data : gmap string (pyval F) → StanData → result (InitsList * DataList))
    (stan_init : gmap string (pyval F)) (stan_data : StanData)
    (kwargs kwargs' : gmap string (argv F InitsList DataList Other))
    (il : InitsList) (dl : DataList) :
  prepare float_of_int float_of_str prepare_data stan_init stan_data kwargs
  = Ok (kwargs', il, dl) →
  kwargs' = if bool_decide (is_Some (kwargs !! "inits")) then kwargs
            else delete "init" kwargs.
Proof.
  unfold prepare. intros Hrun.
  destruct (custom_init _ _ _ _) as [[i kw]|] eqn:Hci; [|done]. simpl in Hrun.
  destruct (prepare_data _ _) as [[il' dl']|]; [|done].
  injection Hrun as <- <- <-.
  apply custom_init_cases in Hci as [(c & Hinits & _ & _ & ->)|([Hcase|Hcase] & _ & ->)].
  - rewrite bool_decide_false; [done|]. rewrite Hinits. by intros [? ?].
  - by rewrite bool_decide_true.
  - case_bool_decide; [done|]. by rewrite delete_id.
Qed.

(** X15. The caller's keywords reach the engine as given, and win over what
    the drivers prepare.  Once the inputs are marshalled, the first call [fit]
    makes to [optimize] and the call [sampling] makes to [sample] carry every
    keyword the caller passed, be it [data], [inits], [algorithm] or [iter],
    with the caller's value, with two exceptions: a custom [init] given
    without [inits] is consumed and is not in the engine's arguments, and
    [iter_sampling] is always half the number of samples, whatever the caller
    gave. *)
Theorem engine_args_caller_wins {F InitsList DataList StanData Other : Type}
    (float_of_int : Z → option F) (float_of_str : string → option F)
    (prepare_data : gmap string (pyval F) → StanData → result (InitsList * DataList))
    (data_T : DataList → Z)
    (optimize : gmap string (argv F InitsList DataList Other) → result (optimize_result F))
    (sample : gmap string (argv F InitsList DataList Other) → result (sample_result F))
    (self : backend F) (stan_init : gmap string (pyval F)) (stan_data : StanData)
    (samples : Z) (kwargs kwargs' : gmap string (argv F InitsList DataList Other))
    (il : InitsList) (dl : DataList) (h : heap F)
    (k : string) (v : argv F InitsList DataList Other) :
  prepare float_of_int float_of_str prepare_data stan_init stan_data kwargs
  = Ok (kwargs', il, dl) →
  kwargs !! k = Some v →
  ∃ args rest sargs,
    (fit float_of_int float_of_str prepare_data data_T optimize
       self stan_init stan_data kwargs).2 = CallOptimize args :: rest
    ∧ (sampling float_of_int float_of_str prepare_data sample
         self stan_init stan_data samples kwargs h).2 = [CallSample sargs]
    ∧ (k ≠ "init" ∨ is_Some (kwargs !! "inits") →
         args !! k = Some v
         ∧ sargs !! k = Some (if bool_decide (k = "iter_sampling")
                              then AInt (samples `div` 2)%Z else v))
    ∧ (k = "init" → kwargs !! "inits" = None →
         args !! k = None ∧ sargs !! k = None).
Proof.
  intros Hprep Hk.
  destruct (fit_first_call float_of_int float_of_str prepare_data data_T optimize
              self stan_init stan_data kwargs kwargs' il dl Hprep) as [rest Hfit].
  exists (optimize_args data_T dl il kwargs'), rest, (sample_args dl il samples kwargs').
  split; [exact Hfit|]. split; [by apply sampling_call|].
  pose proof (prepare_kwargs _ _ _ _ _ _ _ _ _ Hprep) as Hkw.
  split.
  - intros Hcase. apply args_caller_wins. rewrite Hkw.
    case_bool_decide as Hinits; [done|].
    destruct Hcase as [Hne|Hin]; [by rewrite lookup_delete_ne|done].
  - intros -> Hinits. apply args_init_absent. rewrite Hkw.
    rewrite bool_decide_false by (rewrite Hinits; by intros [? ?]).
    apply lookup_delete_eq.
Qed.

Lemma engine_args_caller_wins_witness :
  let custom : gmap string (pyval Z) :=
    {[ "delta" := PyArray (mk_ndarray [1] [3%Z]); "beta" := PyArray (mk_ndarray [1] [4%Z]) ]} in
  let stan_init : gmap string (pyval Z) :=
    {[ "k" := PyFloat 0%Z; "m" := PyFloat 0%Z; "sigma_obs" := PyFloat 1%Z;
       "delta" := PyArray (mk_ndarray [1] [0%Z]); "beta" := PyArray (mk_ndarray [1] [0%Z]) ]} in
  let kwargs : gmap string (argv Z unit Z unit) :=
    {[ "iter" := AInt 50; "iter_sampling" := AInt 7; "init" := AInit custom ]} in
  ∃ args rest sargs,
    (fit Some (λ _, None) toy_prepare id toy_optimize (mk_backend None true)
       stan_init 500%Z kwargs).2 = CallOptimize args :: rest
    ∧ (sampling Some (λ _, None) toy_prepare (λ _, Raise (RuntimeError "no engine"))
         (mk_backend None true) stan_init 500%Z 300%Z kwargs (mk_heap ∅ ∅)).2
      = [CallSample sargs]
    ∧ args !! "iter" = Some (AInt 50)
    ∧ sargs !! "iter_sampling" = Some (AInt 150)
    ∧ args !! "init" = None.
Proof.
  intros custom stan_init kwargs.
  assert (Hprep : prepare Some (λ _, None) toy_prepare stan_init 500%Z kwargs
                  = Ok (delete "init" kwargs, (), 500%Z)) by (vm_compute; reflexivity).
  pose proof (engine_args_caller_wins Some (λ _, None) toy_prepare id toy_optimize
                (λ _, Raise (RuntimeError "no engine")) (mk_backend None true)
                stan_init 500%Z 300%Z kwargs (delete "init" kwargs) () 500%Z
                (mk_heap ∅ ∅)) as H.
  destruct (H "iter" (AInt 50) Hprep eq_refl) as (args & rest & sargs & Hfit & Hs & Hiter & _).
  destruct (H "iter_sampling" (AInt 7) Hprep eq_refl)
    as (args2 & rest2 & sargs2 & Hfit2 & Hs2 & Hhalf & _).
  destruct (H "init" (AInit custom) Hprep eq_refl)
    as (args3 & rest3 & sargs3 & Hfit3 & Hs3 & _ & Hinit).
  rewrite Hfit in Hfit2, Hfit3. injection Hfit2 as <- <-. injection Hfit3 as <- <-.
  rewrite Hs in Hs2. injection Hs2 as <-.
  exists args, rest, sargs. split_and!; [exact Hfit|exact Hs| | |].
  - apply Hiter. by left.
  - apply Hhalf. by left.
  - by apply Hinit.
Defined.

(** ** Names and classes *)

(** X16. The registry and [get_type] are inverse to each other: looking a name
    up returns the class [c] exactly when the name is the one [c.get_type()]
    reports, so every class is found under its own type name and under no
    other. *)
Theorem get_type_round_trip (name : string) (c : Registry.backend_class) :
  Registry.get_backend_class name = Ok c ↔ Registry.get_type c = name.
Proof.
  split.
  - unfold Registry.get_backend_class, Registry.enum_getitem, Registry.members,
      Registry.member_named.
    repeat case_bool_decide; subst; intros [= <-] || intros [=]; done.
  - intros <-. by destruct c.
Qed.

Lemma get_type_round_trip_witness :
  Registry.get_backend_class "NUMPYRO" = Ok Registry.NumpyroBackend
  ∧ Registry.get_type Registry.CmdStanPyBackend = "CMDSTANPY".
Proof.
  split.
  - apply (proj2 (get_type_round_trip "NUMPYRO" Registry.NumpyroBackend)). reflexivity.
  - apply (proj1 (get_type_round_trip "CMDSTANPY" Registry.CmdStanPyBackend)). reflexivity.
Defined.

(** ** A point estimate from Numpyro *)

Import PyReplace NumpyroFit.

Lemma prefix_append (old post : string) : String.prefix old (old +:+ post) = true.
Proof.
  induction old as [|a old IH]; [by destruct post|].
  rewrite append_cons. cbn [String.prefix]. by destruct (ascii_dec a a).
Qed.

Lemma replace_from_skip (x old new post : string) :
  replace_from (String.length x) old new (x +:+ post) = replace_from 0 old new post.
Proof. induction x as [|a x IH]; [done|]. by rewrite append_cons. Qed.

(** [replace] goes by the first occurrence: what comes before it is kept,
    the occurrence becomes [new], and the rest is treated the same way. *)
Lemma replace_first (old new pre post : string) :
  old ≠ "" →
  find old (pre +:+ old +:+ post) = Some (String.length pre) →
  replace old new (pre +:+ old +:+ post) = pre +:+ new +:+ replace old new post.
Proof.
  intros Hold. unfold replace. induction pre as [|c pre IH]; intros Hfind.
  - rewrite !append_empty_l. destruct old as [|a old]; [done|].
    rewrite append_cons. cbn [replace_from].
    rewrite <- append_cons, prefix_append. by rewrite replace_from_skip.
  - rewrite !append_cons in *. cbn [find replace_from] in *.
    destruct (String.prefix old _); [done|].
    destruct (find old (pre +:+ old +:+ post)) as [i|] eqn:Hi; [|done].
    injection Hfind as Hfind. cbn [String.length] in Hfind.
    rewrite IH by congruence. done.
Qed.

Lemma strip_auto_loc (name : string) :
  find "_auto_loc" (name +:+ "_auto_loc") = Some (String.length name) →
  replace "_auto_loc" "" (name +:+ "_auto_loc") = name.
Proof.
  intros Hfind. rewrite <- (append_empty_r "_auto_loc") at 2.
  rewrite replace_first; [|done|by rewrite append_empty_r].
  change (replace "_auto_loc" "" "") with "". by rewrite append_empty_l, append_empty_r.
Qed.

Lemma point_params_loop {F} (rest : list (string * ndarray F)) : ∀ seen,
  NoDup (seen ++ rest).*1 →
  Forall (λ kv, find "_auto_loc" (kv.1 +:+ "_auto_loc") = Some (String.length kv.1)) rest →
  for_each (λ out kv,
              row ← reshape kv.2 [1%Z; (-1)%Z];
              Ok (od_set (Some (replace "_auto_loc" "" kv.1)) row out))
           ((λ kv, (kv.1 +:+ "_auto_loc", kv.2)) <$> rest)
           ((λ kv, (Some kv.1, mk_ndarray [1; size kv.2] (buffer kv.2))) <$> seen)
  = Ok ((λ kv, (Some kv.1, mk_ndarray [1; size kv.2] (buffer kv.2))) <$> seen ++ rest).
Proof.
  induction rest as [|[k v] rest IH]; intros seen Hnd Hall.
  - by rewrite app_nil_r.
  - apply Forall_cons in Hall as [Hk Hall]. rewrite fmap_cons. cbn [for_each fst snd].
    rewrite reshape_row. cbn [mbind result_bind].
    rewrite strip_auto_loc by exact Hk.
    rewrite od_set_fresh.
    + set (g := λ kv : string * ndarray F,
                  (Some kv.1, mk_ndarray [1; size kv.2] (buffer kv.2))) in *.
      replace ((g <$> seen) ++ [(Some k, mk_ndarray [1; size v] (buffer v))])
        with (g <$> (seen ++ [(k, v)])) by (by rewrite fmap_app).
      replace (seen ++ (k, v) :: rest) with ((seen ++ [(k, v)]) ++ rest)
        by (by rewrite <- app_assoc).
      apply IH; [|exact Hall]. by rewrite <- app_assoc.
    + rewrite <- list_fmap_compose. intros Hin.
      apply list_elem_of_fmap in Hin as ([k' v'] & [= <-] & Hin).
      rewrite fmap_app in Hnd. apply NoDup_app in Hnd as (_ & Hdis & _).
      apply (Hdis k).
      * apply list_elem_of_fmap. by exists (k, v').
      * left.
Qed.

(** X17. A point estimate from Numpyro.  The engine is run once, with the
    caller's [learning_rate], [seed], [num_steps] and [progress_bar] or their
    defaults, and its parameters, named [<site>_auto_loc], come back under
    the site names, in the engine's order, each as one row holding all the
    elements of the engine's array. *)
Theorem numpyro_fit_sites {F InitsList DataList StanData Other : Type}
    (float_of_int : Z → option F) (float_of_str : string → option F)
    (prepare_data : gmap string (pyval F) → StanData → result (InitsList * DataList))
    (rate_0_001 : argv F InitsList DataList Other)
    (run_svi : svi_args → StanData → InitsList → DataList
               → result (list (string * ndarray F)))
    (stan_init : gmap string (pyval F)) (stan_data : StanData)
    (kwargs kwargs' : gmap string (argv F InitsList DataList Other))
    (il : InitsList) (dl : DataList) (sites : list (string * ndarray F)) :
  let args := mk_svi_args (default rate_0_001 (kwargs' !! "learning_rate"))
                (default (AInt 0) (kwargs' !! "seed"))
                (default (AInt 10000) (kwargs' !! "num_steps"))
                true
                (default (ABool false) (kwargs' !! "progress_bar")) in
  prepare float_of_int float_of_str prepare_data stan_init stan_data kwargs
  = Ok (kwargs', il, dl) →
  run_svi args stan_data il dl = Ok ((λ kv, (kv.1 +:+ "_auto_loc", kv.2)) <$> sites) →
  NoDup sites.*1 →
  Forall (λ kv, find "_auto_loc" (kv.1 +:+ "_auto_loc") = Some (String.length kv.1)) sites →
  numpyro_fit float_of_int float_of_str prepare_data rate_0_001 run_svi
    stan_init stan_data kwargs
  = (Ok ((λ kv, (Some kv.1, mk_ndarray [1; size kv.2] (buffer kv.2))) <$> sites), [args]).
Proof.
  intros args Hprep Hrun Hnd Hall.
  unfold numpyro_fit. rewrite Hprep.
  assert (Hargs : svi_run_args (fit_run_params rate_0_001 kwargs') = Ok args).
  { unfold svi_run_args, run_param, fit_run_params.
    rewrite (update_lookup_default kwargs' _ "learning_rate" rate_0_001) by done.
    rewrite (update_lookup_default kwargs' _ "seed" (AInt 0)) by done.
    rewrite (update_lookup_default kwargs' _ "num_steps" (AInt 10000)) by done.
    rewrite (update_lookup_default kwargs' _ "progress_bar" (ABool false)) by done.
    done. }
  rewrite Hargs, Hrun. f_equal.
  apply (point_params_loop sites []); done.
Qed.

Lemma numpyro_fit_sites_witness :
  let kwargs : gmap string (argv Z unit Z unit) := {[ "seed" := AInt 7 ]} in
  let sites := [("k", mk_ndarray [] [3%Z]); ("sigma_obs", mk_ndarray [] [1%Z]);
                ("delta", mk_ndarray [2] [0; 1]%Z)] in
  (numpyro_fit Some (λ _, None) toy_prepare (AOther ())
     (λ _ _ _ _, Ok ((λ kv, (kv.1 +:+ "_auto_loc", kv.2)) <$> sites)) ∅ 10%Z kwargs).1
  = Ok [(Some "k", mk_ndarray [1; 1] [3%Z]); (Some "sigma_obs", mk_ndarray [1; 1] [1%Z]);
        (Some "delta", mk_ndarray [1; 2] [0; 1]%Z)].
Proof.
  intros kwargs sites.
  assert (Hprep : prepare Some (λ _, None) toy_prepare ∅ 10%Z kwargs = Ok (kwargs, (), 10%Z))
    by (vm_compute; reflexivity).
  rewrite (numpyro_fit_sites Some (λ _, None) toy_prepare (AOther ())
             (λ _ _ _ _, Ok ((λ kv, (kv.1 +:+ "_auto_loc", kv.2)) <$> sites))
             ∅ 10%Z kwargs kwargs () 10%Z sites Hprep eq_refl).
  - reflexivity.
  - apply (bool_decide_unpack _). vm_compute. exact I.
  - repeat constructor.
Defined.
